(** * go-fileserver: the file-serving API layer of [main.go]

    A shallow embedding of the HTTP handlers of the file server
    ([handleTree], [handleFileView], [handleRawFile], [handleUpload],
    [handleDownload], [extToLang]) together with the small part of the Go
    standard library they call, and the properties of the specification
    proved or refuted about them.

    The embedding follows the Linux build of the server (the packaging
    scripts build [GOOS=linux]): the path separator is the slash, so
    [filepath.FromSlash] and [filepath.ToSlash] leave a path unchanged. *)

From Stdlib Require Import ZArith List Bool Lia.
From Stdlib.Strings Require Import Ascii String Byte.
From stdpp Require Import base option list strings gmap.

Set Warnings "-register-all".

Local Open Scope string_scope.
Local Open Scope Z_scope.

(** ** Go strings and byte slices

    A Go [string] is a sequence of bytes: it is modelled by [string], whose
    characters are the 256 values of [ascii].  A [[]byte] is a [list byte]. *)

Module gostrings.

Definition code (c : ascii) : Z := Z.of_N (N_of_ascii c).

Definition is_upper (c : ascii) : bool := (65 <=? code c) && (code c <=? 90).

(** [c += 'a' - 'A'] on an upper-case letter. *)
Definition lower_byte (c : ascii) : ascii :=
  if is_upper c then ascii_of_N (Z.to_N (code c + 32)) else c.

Fixpoint isASCII (s : string) : bool :=
  match s with
  | EmptyString => true
  | String c r => (code c <? 128) && isASCII r
  end.

Fixpoint lower_bytes (s : string) : string :=
  match s with
  | EmptyString => EmptyString
  | String c r => String (lower_byte c) (lower_bytes r)
  end.

(** [strings.ToLower]: a string of ASCII bytes is mapped byte by byte;
    any other string goes through the Unicode case tables, which are
    not part of this development and are taken as the parameter
    [unicode_lower]. *)
Definition ToLower (unicode_lower : string -> string) (s : string) : string :=
  if isASCII s then lower_bytes s else unicode_lower s.

(** [strings.HasPrefix s p]. *)
Definition HasPrefix (s p : string) : bool := String.prefix p s.

(** [string(data)] for a byte slice [data]. *)
Definition of_bytes (data : list byte) : string := string_of_list_byte data.

End gostrings.

(** ** [path/filepath] on Unix *)

Module filepath.

Definition Separator : ascii := "/"%char.

Definition FromSlash (p : string) : string := p.
Definition ToSlash (p : string) : string := p.

(** The elements of a path between separators, empty elements included. *)
Fixpoint split_acc (cur : string) (p : string) : list string :=
  match p with
  | EmptyString => [cur]
  | String c r =>
      if Ascii.eqb c Separator then cur :: split_acc EmptyString r
      else split_acc (cur ++ String c EmptyString) r
  end.

Definition elements (p : string) : list string := split_acc EmptyString p.

Definition IsAbs (p : string) : bool :=
  match p with
  | String c _ => Ascii.eqb c Separator
  | EmptyString => false
  end.

(** One step of [Clean] over the elements kept so far (last kept element
    first): empty and [.] elements are dropped, [..] removes the element
    before it, is dropped at the root and is kept at the start of a
    relative path. *)
Definition clean_step (rooted : bool) (kept : list string) (e : string)
  : list string :=
  if String.eqb e "" || String.eqb e "." then kept
  else if String.eqb e ".." then
    match kept with
    | [] => if rooted then [] else [e]
    | k :: rest => if String.eqb k ".." then e :: kept else rest
    end
  else e :: kept.

Definition join_elements (l : list string) : string :=
  String.concat "/" l.

(** [filepath.Clean]. *)
Definition Clean (p : string) : string :=
  let rooted := IsAbs p in
  let kept := rev (fold_left (clean_step rooted) (elements p) []) in
  let body := join_elements kept in
  if rooted then "/" ++ body
  else if String.eqb body "" then "." else body.

(** [filepath.Join]: from the first non-empty element on, the elements
    are joined by the separator and the result is cleaned; when every
    element is empty the result is empty. *)
Fixpoint Join (elems : list string) : string :=
  match elems with
  | [] => ""
  | e :: rest =>
      if String.eqb e "" then Join rest else Clean (join_elements elems)
  end.

(** The last non-empty element of a path, if it has one. *)
Definition last_element (p : string) : option string :=
  last (List.filter (fun e => negb (String.eqb e "")) (elements p)).

(** [filepath.Base]. *)
Definition Base (p : string) : string :=
  if String.eqb p "" then "."
  else match last_element p with
       | Some e => e
       | None => "/"
       end.

(** The text of [p] up to and including its last separator. *)
Fixpoint dir_part (p : string) : string :=
  match p with
  | EmptyString => EmptyString
  | String c r =>
      let d := dir_part r in
      if String.eqb d "" then
        if Ascii.eqb c Separator then String c EmptyString else EmptyString
      else String c d
  end.

(** [filepath.Dir]: everything up to the last separator, cleaned. *)
Definition Dir (p : string) : string := Clean (dir_part p).

(** The suffix of [s] from its last dot on, if it has a dot. *)
Fixpoint from_last_dot (s : string) : option string :=
  match s with
  | EmptyString => None
  | String c r =>
      match from_last_dot r with
      | Some e => Some e
      | None => if Ascii.eqb c "."%char then Some s else None
      end
  end.

(** [filepath.Ext]: the suffix beginning at the final dot of the final
    element of the path, empty when that element has no dot. *)
Definition Ext (p : string) : string :=
  match last (elements p) with
  | Some e => default "" (from_last_dot e)
  | None => ""
  end.

(** [filepath.Abs] with the working directory [wd]. *)
Definition Abs (wd : string) (p : string) : string :=
  if IsAbs p then Clean p else Join [wd; p].

End filepath.


(** ** The operating system

    The file system maps the canonical name of a node to the node.  It has
    no symbolic links, so the canonical name of a path is its lexically
    cleaned absolute form.  Every call the handlers make is recorded in a
    log, oldest call first. *)

Inductive node : Type :=
| Dir
| File (data : list byte).

Inductive event : Type :=
| EvOpen (p : string)
| EvStat (p : string)
| EvRead (p : string) (n : nat)      (* [n] bytes of the body delivered *)
| EvSeek (p : string)
| EvClose (p : string)
| EvMkdirAll (p : string)
| EvCreate (p : string)
| EvWrite (p : string) (n : nat).

Record World : Type := mkWorld {
  w_fs : gmap string node;
  w_log : list event
}.

(** Computations that act on the world. *)
Definition M (A : Type) : Type := World -> A * World.

Definition ret {A} (a : A) : M A := fun w => (a, w).

Definition bind {A B} (m : M A) (k : A -> M B) : M B :=
  fun w => let (a, w') := m w in k a w'.

Declare Scope io_scope.
Delimit Scope io_scope with io.
Notation "x <- m ;; k" := (bind m (fun x => k))
  (at level 100, m at next level, right associativity) : io_scope.
Local Open Scope io_scope.

Definition emit (e : event) : M unit :=
  fun w => (tt, mkWorld (w_fs w) (w_log w ++ [e])).

Definition get_fs : M (gmap string node) := fun w => (w_fs w, w).

Definition put_fs (fs : gmap string node) : M unit :=
  fun w => (tt, mkWorld fs (w_log w)).

(** An open file ([*os.File]): the node it was opened on and the read
    offset. *)
Record OsFile : Type := mkFile {
  f_name : string;
  f_node : node;
  f_pos : nat
}.

Record FileInfo : Type := mkInfo { Size : Z }.

(** A file open for writing: the path it was created with and the
    canonical name of its node. *)
Record OutFile : Type := mkOut {
  o_name : string;
  o_key : string
}.

(** What [io.ReadAll] reads from: a file, or a file behind
    [io.LimitReader]. *)
Inductive Reader : Type :=
| FileReader (f : OsFile)
| LimitReader (f : OsFile) (n : Z).

(** The parent of a canonical name: its text before the last separator,
    the root for a name directly under the root. *)
Definition parent (k : string) : string := filepath.Dir k.

(** The canonical names of a directory and of all the directories above
    it, outermost first, the root excluded. *)
Fixpoint dir_chain (base : string) (elems : list string) : list string :=
  match elems with
  | [] => []
  | e :: rest =>
      if String.eqb e "" then dir_chain base rest
      else let p := filepath.Join [base; e] in p :: dir_chain p rest
  end.

(** ** [net/http], [encoding/json] and [mime/multipart] *)

(** The values the handlers hand to the encoder: [map[string]string],
    [map[string]interface{}] with booleans and strings, and slices of
    maps.  A nil slice is encoded as [null].  The text the encoder makes of
    a value is not modelled. *)
Inductive json : Type :=
| JNull
| JBool (b : bool)
| JString (s : string)
| JArray (l : list json)
| JObject (fields : list (string * json)).

(** [map[string]string{...}] as a JSON object.  The fields are kept in the
    order of the source; they are looked up by name. *)
Definition string_map (kvs : list (string * string)) : json :=
  JObject (map (fun kv => (fst kv, JString (snd kv))) kvs).

Fixpoint assoc {A} (k : string) (l : list (string * A)) : option A :=
  match l with
  | [] => None
  | (k', v) :: rest => if String.eqb k k' then Some v else assoc k rest
  end.

Definition field (k : string) (v : json) : option json :=
  match v with
  | JObject fields => assoc k fields
  | _ => None
  end.

Inductive chunk : Type :=
| Text (s : string)
| Json (v : json)
| Bytes (data : list byte).

(** An [http.ResponseWriter]: the header map, the status once it has been
    written, and what was written to the body. *)
Record ResponseWriter : Type := mkWriter {
  rw_header : gmap string string;
  rw_status : option Z;
  rw_body : list chunk
}.

Definition new_writer : ResponseWriter := mkWriter ∅ None [].

(** [w.Header().Set(k, v)]. *)
Definition Header_Set (k v : string) (w : ResponseWriter) : ResponseWriter :=
  mkWriter (<[k := v]> (rw_header w)) (rw_status w) (rw_body w).

(** A write to the body: the status becomes 200 unless it was written
    before. *)
Definition write (c : chunk) (w : ResponseWriter) : ResponseWriter :=
  mkWriter (rw_header w)
           (Some (default 200 (rw_status w)))
           (rw_body w ++ [c]).

(** [http.Error(w, msg, code)]. *)
Definition http_Error (w : ResponseWriter) (msg : string) (code : Z)
  : ResponseWriter :=
  let h := <["X-Content-Type-Options" := "nosniff"]>
             (<["Content-Type" := "text/plain; charset=utf-8"]> (rw_header w)) in
  mkWriter h (Some (default code (rw_status w)))
           (rw_body w ++ [Text (msg ++ String "010"%char "")]).

(** [json.NewEncoder(w).Encode(v)]. *)
Definition json_Encode (w : ResponseWriter) (v : json) : ResponseWriter :=
  write (Json v) w.

(** One part of a multipart body: the form field name, the file name it
    declares (as [part.FileName()] returns it), the bytes of its body, and
    the error that ends the body when the stream breaks inside it. *)
Record Part : Type := mkPart {
  FormName : string;
  FileName : string;
  p_data : list byte;
  p_err : option string
}.

(** What successive calls of [reader.NextPart()] return: the parts in
    order, then [io.EOF] or an error. *)
Inductive Stream : Type :=
| EOF
| Broken (err : string)
| Next (p : Part) (rest : Stream).

(** What [os.ReadDir] lists of a directory entry. *)
Record DirEntry : Type := mkEntry { Name : string; IsDir : bool }.

Record FileServer : Type := mkServer { FolderList : list string }.

Record Request : Type := mkRequest {
  Method : string;
  Query : list (string * string);     (* [r.URL.Query()], first value first *)
  Multipart : option Stream           (* [None]: not a multipart request *)
}.

(** [r.URL.Query().Get(key)]: the first value of [key], empty when there
    is none. *)
Definition Query_Get (r : Request) (key : string) : string :=
  default "" (assoc key (Query r)).

(** What the handlers take from the host and from libraries that are not
    part of this development. *)
Record Host : Type := mkHost {
  (** the working directory of the process, an absolute path *)
  os_Getwd : string;
  (** the size [Stat] reports for a directory (system dependent) *)
  dir_size : Z;
  (** the Unicode branch of [strings.ToLower] *)
  unicode_lower : string -> string;
  (** [mime.TypeByExtension]: the MIME table of the host *)
  mime_TypeByExtension : string -> string;
  (** [base64.StdEncoding.EncodeToString] *)
  base64_EncodeToString : list byte -> string;
  (** [http.ServeFile(w, r, name)] *)
  http_ServeFile : ResponseWriter -> Request -> string -> M ResponseWriter;
  (** [os.ReadDir]: the entries of a directory, or an error *)
  os_ReadDir : string -> M (string + list DirEntry)
}.

Section Server.

Variable host : Host.

Definition ToLower : string -> string :=
  gostrings.ToLower (unicode_lower host).

(** The canonical name of the node a path denotes. *)
Definition resolve (p : string) : string :=
  filepath.Abs (os_Getwd host) p.

Definition ancestors (k : string) : list string :=
  dir_chain (if filepath.IsAbs k then "/" else "") (filepath.elements k).

(** *** [os] and [io] *)

Definition os_Open (p : string) : M (string + OsFile) :=
  _ <- emit (EvOpen p) ;;
  fs <- get_fs ;;
  match fs !! resolve p with
  | None => ret (inl ("open " ++ p ++ ": no such file or directory"))
  | Some n => ret (inr (mkFile p n 0))
  end.

Definition node_size (n : node) : Z :=
  match n with
  | Dir => dir_size host
  | File data => Z.of_nat (length data)
  end.

Definition f_Stat (f : OsFile) : M (string + FileInfo) :=
  _ <- emit (EvStat (f_name f)) ;;
  ret (inr (mkInfo (node_size (f_node f)))).

(** [n, _ := f.Read(buf)] with [len(buf) = size]: the bytes read, that is
    [buf[:n]], and the file advanced by [n].  On a directory nothing is
    read (the error is dropped by the caller). *)
Definition f_Read (f : OsFile) (size : nat) : M (list byte * OsFile) :=
  match f_node f with
  | Dir => _ <- emit (EvRead (f_name f) 0) ;; ret ([], f)
  | File data =>
      let got := take size (drop (f_pos f) data) in
      _ <- emit (EvRead (f_name f) (length got)) ;;
      ret (got, mkFile (f_name f) (f_node f) (f_pos f + length got))
  end.

(** [f.Seek(0, 0)]. *)
Definition f_Seek0 (f : OsFile) : M OsFile :=
  _ <- emit (EvSeek (f_name f)) ;;
  ret (mkFile (f_name f) (f_node f) 0).

Definition f_Close (f : OsFile) : M unit := emit (EvClose (f_name f)).

Definition read_from (f : OsFile) (limit : option Z)
  : M (list byte * option string) :=
  match f_node f with
  | Dir =>
      match limit with
      | Some n =>
          if n <=? 0 then ret ([], None)
          else _ <- emit (EvRead (f_name f) 0) ;;
               ret ([], Some ("read " ++ f_name f ++ ": is a directory"))
      | None =>
          _ <- emit (EvRead (f_name f) 0) ;;
          ret ([], Some ("read " ++ f_name f ++ ": is a directory"))
      end
  | File data =>
      let rest := drop (f_pos f) data in
      let got := match limit with
                 | Some n => take (Z.to_nat n) rest
                 | None => rest
                 end in
      _ <- emit (EvRead (f_name f) (length got)) ;;
      ret (got, None)
  end.

(** [io.ReadAll(r)]: the bytes read and the error, if any. *)
Definition io_ReadAll (r : Reader) : M (list byte * option string) :=
  match r with
  | FileReader f => read_from f None
  | LimitReader f n => read_from f (Some n)
  end.

(** [os.MkdirAll(p, 0755)]: every missing directory on the way to [p] is
    made, outermost first; a file on the way is an error. *)
Fixpoint mkdir_chain (chain : list string) (fs : gmap string node)
  : option string * gmap string node :=
  match chain with
  | [] => (None, fs)
  | k :: rest =>
      match fs !! k with
      | Some (File _) => (Some ("mkdir " ++ k ++ ": not a directory"), fs)
      | Some Dir => mkdir_chain rest fs
      | None => mkdir_chain rest (<[k := Dir]> fs)
      end
  end.

Definition os_MkdirAll (p : string) : M (option string) :=
  _ <- emit (EvMkdirAll p) ;;
  fs <- get_fs ;;
  let res := mkdir_chain (ancestors (resolve p)) fs in
  _ <- put_fs (snd res) ;;
  ret (fst res).

Definition is_dir (fs : gmap string node) (k : string) : bool :=
  String.eqb k "/" ||
  match fs !! k with
  | Some Dir => true
  | _ => false
  end.

(** Why [os.Create] refuses the canonical name [k], when it does: the
    name is a directory, or the node above it is missing or is a file. *)
Definition create_error (fs : gmap string node) (k : string) : option string :=
  if is_dir fs k then Some "is a directory"
  else if is_dir fs (parent k) then None
  else match fs !! parent k with
       | Some (File _) => Some "not a directory"
       | _ => Some "no such file or directory"
       end.

(** [os.Create(p)]: the file is created empty, or truncated when it
    exists. *)
Definition os_Create (p : string) : M (string + OutFile) :=
  _ <- emit (EvCreate p) ;;
  fs <- get_fs ;;
  let k := resolve p in
  match create_error fs k with
  | Some why => ret (inl ("open " ++ p ++ ": " ++ why))
  | None =>
      _ <- put_fs (<[k := File []]> fs) ;;
      ret (inr (mkOut p k))
  end.

(** [io.Copy(out, part)]: the bytes of the part are appended to the
    file; the error is the one that ends the part's body. *)
Definition io_Copy (out : OutFile) (part : Part) : M (option string) :=
  _ <- emit (EvWrite (o_name out) (length (p_data part))) ;;
  fs <- get_fs ;;
  let old := match fs !! o_key out with
             | Some (File d) => d
             | _ => []
             end in
  _ <- put_fs (<[o_key out := File (old ++ p_data part)]> fs) ;;
  ret (p_err part).

Definition out_Close (out : OutFile) : M unit := emit (EvClose (o_name out)).

(** *** The handlers of [main.go] *)

(** A slice built by [append] from [nil]: still nil when nothing was
    appended. *)
Definition slice (l : list json) : json :=
  match l with
  | [] => JNull
  | _ => JArray l
  end.

Definition root_entry (f : string) : json :=
  let absPath := filepath.Abs (os_Getwd host) f in
  string_map [("name", filepath.Base f); ("type", "folder");
              ("path", filepath.ToSlash absPath)].

Definition child_entry (path : string) (entry : DirEntry) : json :=
  let t := if IsDir entry then "folder" else "file" in
  let fullPath := filepath.Join [path; Name entry] in
  string_map [("name", Name entry); ("type", t);
              ("path", filepath.ToSlash fullPath)].

Definition handleTree (srv : FileServer) (w : ResponseWriter) (r : Request)
  : M ResponseWriter :=
  let path := Query_Get r "path" in
  let path := if negb (String.eqb path "") then filepath.FromSlash path
              else path in
  if String.eqb path "" || String.eqb path "."
     || String.eqb path (String filepath.Separator "") then
    ret (json_Encode w (slice (map root_entry (FolderList srv))))
  else
    d <- os_ReadDir host path ;;
    match d with
    | inl err => ret (http_Error w err 400)
    | inr entries =>
        ret (json_Encode w (slice (map (child_entry path) entries)))
    end.

Definition extToLang (ext : string) : string :=
  if String.eqb ext ".go" then "go"
  else if String.eqb ext ".js" then "javascript"
  else if String.eqb ext ".py" then "python"
  else if String.eqb ext ".java" then "java"
  else if String.eqb ext ".html" then "html"
  else if String.eqb ext ".css" then "css"
  else if String.eqb ext ".json" then "json"
  else if String.eqb ext ".md" then "markdown"
  else "".

Definition byte_val (b : byte) : Z := Z.of_N (Byte.to_N b).

(** The loop over [head] that sets [isBinary]. *)
Fixpoint sniff (head : list byte) : bool :=
  match head with
  | [] => false
  | b :: rest =>
      if byte_val b =? 0 then true
      else if (byte_val b <? 9) || ((13 <? byte_val b) && (byte_val b <? 32))
      then true
      else sniff rest
  end.

Definition maxView : Z := 50 * 1024 * 1024.
Definition maxRead : Z := 1 * 1024 * 1024.

Definition tooLarge : string :=
  "File is too large to view (over 50MB). Please download it.".
Definition binaryNotice : string := "[Binary file will not be displayed]".
Definition truncated : string :=
  String "010"%char (String "010"%char
    "... [File truncated because it is too large] ...").

(** [handleFileView] from [f.Stat()] on, between [os.Open] and the
    deferred [f.Close()]. *)
Definition viewOpened (w : ResponseWriter) (r : Request) (path : string)
    (f : OsFile) : M ResponseWriter :=
  st <- f_Stat f ;;
  match st with
  | inl err => ret (http_Error w err 400)
  | inr fi =>
      if Size fi >? maxView then
        ret (json_Encode w
               (string_map [("type", "error"); ("content", tooLarge)]))
      else
        rd <- f_Read f 800 ;;
        let head := fst rd in
        f <- f_Seek0 (snd rd) ;;
        let isBinary := sniff head in
        let ext := ToLower (filepath.Ext path) in
        let lang := extToLang ext in
        if String.eqb ext ".pdf" then
          ret (json_Encode w
                 (string_map [("type", "pdf");
                              ("content",
                               "/api/raw?path=" ++ Query_Get r "path")]))
        else if String.eqb ext ".md" || String.eqb ext ".markdown" then
          all <- io_ReadAll (FileReader f) ;;
          match snd all with
          | Some err => ret (http_Error w err 500)
          | None =>
              ret (json_Encode w
                     (string_map [("type", "markdown");
                                  ("content", gostrings.of_bytes (fst all))]))
          end
        else if isBinary then
          let mimeType := mime_TypeByExtension host ext in
          if gostrings.HasPrefix mimeType "image/" then
            all <- io_ReadAll (FileReader f) ;;
            match snd all with
            | Some err => ret (http_Error w err 500)
            | None =>
                let b64 := base64_EncodeToString host (fst all) in
                ret (json_Encode w
                       (string_map [("type", "image");
                                    ("content",
                                     "data:" ++ mimeType ++ ";base64," ++ b64);
                                    ("mime", mimeType)]))
            end
          else
            ret (json_Encode w
                   (string_map [("type", "binary");
                                ("content", binaryNotice);
                                ("language", "")]))
        else
          all <- io_ReadAll (LimitReader f maxRead) ;;
          match snd all with
          | Some err => ret (http_Error w err 500)
          | None =>
              let content := gostrings.of_bytes (fst all) in
              let content := if Size fi >? maxRead then content ++ truncated
                             else content in
              ret (json_Encode w
                     (string_map [("type", "text"); ("content", content);
                                  ("language", lang)]))
          end
  end.

Definition handleFileView (w : ResponseWriter) (r : Request)
  : M ResponseWriter :=
  let path := Query_Get r "path" in
  if String.eqb path "" then ret (http_Error w "Missing path" 400)
  else
    let path := filepath.FromSlash path in
    o <- os_Open path ;;
    match o with
    | inl err => ret (http_Error w err 400)
    | inr f =>
        res <- viewOpened w r path f ;;
        _ <- f_Close f ;;
        ret res
    end.

Definition handleRawFile (w : ResponseWriter) (r : Request)
  : M ResponseWriter :=
  let path := Query_Get r "path" in
  if String.eqb path "" then ret (http_Error w "Missing path" 400)
  else http_ServeFile host w r (filepath.FromSlash path).

Definition failure (msg : string) : json :=
  JObject [("success", JBool false); ("error", JString msg)].
Definition success : json := JObject [("success", JBool true)].

Definition is_file_part (part : Part) : bool :=
  String.eqb (FormName part) "files" && negb (String.eqb (FileName part) "").

Definition effective_name (r : Request) (part : Part) : string :=
  let rel := Query_Get r "relativePath" in
  if negb (String.eqb rel "") then rel else FileName part.

(** The body of the upload loop for a file part; the result is the error
    the handler reports, if any. *)
Definition save_part (r : Request) (folder : string) (part : Part)
  : M (option string) :=
  let filename := effective_name r part in
  let outPath := filepath.Join [folder; filename] in
  e <- os_MkdirAll (filepath.Dir outPath) ;;
  match e with
  | Some err => ret (Some err)
  | None =>
      c <- os_Create outPath ;;
      match c with
      | inl err => ret (Some err)
      | inr out =>
          e <- io_Copy out part ;;
          _ <- out_Close out ;;
          ret e
      end
  end.

(** One turn of the upload loop on a part; the result is the error that
    ends the request, if any.  A part that is not a file part is skipped;
    when its body is broken, the [NextPart] that follows fails. *)
Definition iteration (r : Request) (folder : string) (part : Part)
  : M (option string) :=
  if is_file_part part then save_part r folder part
  else ret (option_map (fun err => "multipart: NextPart: " ++ err)
                       (p_err part)).

(** The [for] loop of [handleUpload] over what the reader yields. *)
Fixpoint upload_loop (w : ResponseWriter) (r : Request) (folder : string)
    (reader : Stream) : M ResponseWriter :=
  match reader with
  | EOF => ret (json_Encode w success)
  | Broken err => ret (json_Encode w (failure err))
  | Next part rest =>
      e <- iteration r folder part ;;
      match e with
      | Some err => ret (json_Encode w (failure err))
      | None => upload_loop w r folder rest
      end
  end.

Definition handleUpload (w : ResponseWriter) (r : Request)
  : M ResponseWriter :=
  if negb (String.eqb (Method r) "POST") then
    ret (http_Error w "Method not allowed" 405)
  else
    let folder := Query_Get r "folder" in
    if String.eqb folder "" then
      ret (json_Encode w (failure "Missing folder param"))
    else
      let folder := filepath.FromSlash folder in
      match Multipart r with
      | None => ret (json_Encode w (failure "Not a multipart request"))
      | Some reader => upload_loop w r folder reader
      end.

Definition handleDownload (w : ResponseWriter) (r : Request)
  : M ResponseWriter :=
  let path := Query_Get r "path" in
  if String.eqb path "" then ret (http_Error w "Missing path" 400)
  else
    let path := filepath.FromSlash path in
    let fname := filepath.Base path in
    let w := Header_Set "Content-Disposition"
               ("attachment; filename=" ++ fname) w in
    let mimeType := mime_TypeByExtension host (filepath.Ext fname) in
    let mimeType := if String.eqb mimeType "" then "application/octet-stream"
                    else mimeType in
    let w := Header_Set "Content-Type" mimeType w in
    http_ServeFile host w r path.

End Server.

(** ** Reading a response *)

Definition last_json (w : ResponseWriter) : option json :=
  match last (rw_body w) with
  | Some (Json v) => Some v
  | _ => None
  end.

(** The string under [key] in the JSON object written last. *)
Definition reply_field (key : string) (w : ResponseWriter) : option string :=
  match last_json w with
  | Some v =>
      match field key v with
      | Some (JString s) => Some s
      | _ => None
      end
  | None => None
  end.

(** The [type] of a file view. *)
Definition view_kind (w : ResponseWriter) : option string :=
  reply_field "type" w.

(** The reply to a view of a file above the size limit. *)
Definition oversize_reply (w : ResponseWriter) : ResponseWriter :=
  json_Encode w (string_map [("type", "error"); ("content", tooLarge)]).

(** The kinds a view of a regular file within the limit can have. *)
Definition classified : list (option string) :=
  [Some "pdf"; Some "markdown"; Some "image"; Some "binary"; Some "text"].

(** The extension the view dispatches on. *)
Definition view_ext (host : Host) (path : string) : string :=
  ToLower host (filepath.Ext path).

(** The extensions answered by kind before the sniff is consulted. *)
Definition by_extension (ext : string) : bool :=
  String.eqb ext ".pdf" || (String.eqb ext ".md" || String.eqb ext ".markdown").

(** The extensions the host maps to an image type. *)
Definition image_ext (host : Host) (ext : string) : bool :=
  gostrings.HasPrefix (mime_TypeByExtension host ext) "image/".

(** The body of [http.Error(w, "Missing path", 400)]. *)
Definition missing_path : chunk := Text ("Missing path" ++ String "010"%char "").

(** What a tree entry for the root folder [f] holds. *)
Definition root_entry_of (host : Host) (f : string) (e : json) : Prop :=
  field "name" e = Some (JString (filepath.Base f))
  /\ field "type" e = Some (JString "folder")
  /\ field "path" e
     = Some (JString (filepath.ToSlash (filepath.Abs (os_Getwd host) f))).

(** The elements of an encoded slice. *)
Definition entries_of (v : json) : list json :=
  match v with
  | JArray l => l
  | _ => []
  end.

(** The bytes the binary sniff reacts to, in the words of the
    specification: the zero byte, and the control bytes below 0x20 outside
    0x09-0x0D. *)
Definition control_byte (b : byte) : Prop :=
  byte_val b = 0 \/ (byte_val b < 32 /\ ~ (9 <= byte_val b <= 13)).

(** One of the first 800 bytes is such a byte. *)
Definition sniffed (data : list byte) : Prop :=
  exists i b, data !! i = Some b /\ (i < 800)%nat /\ control_byte b.

Definition is_read (e : event) : bool :=
  match e with
  | EvRead _ _ => true
  | _ => false
  end.

(** The number of bytes an event reads from a file body. *)
Definition bytes_read (e : event) : nat :=
  match e with
  | EvRead _ n => n
  | _ => 0%nat
  end.

(** A stream that yields [parts] and then goes on as [tail]. *)
Definition feed (parts : list Part) (tail : Stream) : Stream :=
  fold_right Next tail parts.

(** The parts a stream yields before it ends. *)
Fixpoint parts_of (s : Stream) : list Part :=
  match s with
  | Next p rest => p :: parts_of rest
  | _ => []
  end.

Definition file_parts (s : Stream) : list Part :=
  List.filter is_file_part (parts_of s).


(** The calls that save one part to [out] below the directory [d]. *)
Definition saved_events (d out : string) (p : Part) : list event :=
  [EvMkdirAll d; EvCreate out; EvWrite out (length (p_data p)); EvClose out].

(** The calls of an upload whose file parts all go to [out]: each file is
    created right after the directories above it were made, and the request
    stops after a call that fails. *)
Inductive upload_trace (d out : string) : list event -> Prop :=
| trace_end : upload_trace d out []
| trace_mkdir_failed : upload_trace d out [EvMkdirAll d]
| trace_create_failed : upload_trace d out [EvMkdirAll d; EvCreate out]
| trace_saved n rest :
    upload_trace d out rest ->
    upload_trace d out
      (EvMkdirAll d :: EvCreate out :: EvWrite out n :: EvClose out :: rest).

(** A status of the 400 class. *)
Definition client_error (status : option Z) : Prop :=
  exists code, status = Some code /\ 400 <= code < 500.

(** What [http.ServeFile] does to the response, for a request without
    conditions or ranges (the requests of this development have no
    headers): a regular file is sent under the headers already set
    ([Content-Type] is sniffed only when it is not set) with status 200; a
    name that denotes nothing is answered through [http.Error] with
    [404 page not found]. *)
Definition serves_files (host : Host) : Prop :=
  (forall w r name world data,
     w_fs world !! resolve host name = Some (File data) ->
     let sent := fst (http_ServeFile host w r name world) in
     (forall k v, rw_header w !! k = Some v -> rw_header sent !! k = Some v)
     /\ rw_status sent = Some (default 200 (rw_status w)))
  /\ (forall w r name world,
        w_fs world !! resolve host name = None ->
        fst (http_ServeFile host w r name world)
        = http_Error w "404 page not found" 404).

(** ** A Linux host for the scenarios *)

Module Linux.

Definition wd : string := "/srv".

(** The table built into Go's [mime] package. *)
Definition builtinTypes : list (string * string) :=
  [(".avif", "image/avif"); (".css", "text/css; charset=utf-8");
   (".gif", "image/gif"); (".htm", "text/html; charset=utf-8");
   (".html", "text/html; charset=utf-8"); (".jpeg", "image/jpeg");
   (".jpg", "image/jpeg"); (".js", "text/javascript; charset=utf-8");
   (".json", "application/json"); (".mjs", "text/javascript; charset=utf-8");
   (".pdf", "application/pdf"); (".png", "image/png");
   (".svg", "image/svg+xml"); (".wasm", "application/wasm");
   (".webp", "image/webp"); (".xml", "text/xml; charset=utf-8")].

(** The lookup of [mime.TypeByExtension] in that table: first as given,
    then in lower case. *)
Definition TypeByExtension (ext : string) : string :=
  match assoc ext builtinTypes with
  | Some t => t
  | None => default "" (assoc (gostrings.lower_bytes ext) builtinTypes)
  end.

Definition alphabet : string :=
  "ABCDEFGHIJKLMNOPQRSTUVWXYZabcdefghijklmnopqrstuvwxyz0123456789+/".

Definition digit (n : Z) : string :=
  match String.get (Z.to_nat n) alphabet with
  | Some c => String c ""
  | None => ""
  end.

(** Standard base64 with padding. *)
Fixpoint EncodeToString (data : list byte) : string :=
  match data with
  | [] => ""
  | [a] =>
      let n := byte_val a * 65536 in
      digit (n / 262144) ++ digit (n / 4096 mod 64) ++ "=="
  | [a; b] =>
      let n := byte_val a * 65536 + byte_val b * 256 in
      digit (n / 262144) ++ digit (n / 4096 mod 64)
        ++ digit (n / 64 mod 64) ++ "="
  | a :: b :: c :: rest =>
      let n := byte_val a * 65536 + byte_val b * 256 + byte_val c in
      digit (n / 262144) ++ digit (n / 4096 mod 64)
        ++ digit (n / 64 mod 64) ++ digit (n mod 64) ++ EncodeToString rest
  end.

(** [http.ServeFile] on a regular file: the bytes are written under the
    headers already set; anything else is answered 404. *)
Definition ServeFile (w : ResponseWriter) (r : Request) (name : string)
  : M ResponseWriter :=
  fs <- get_fs ;;
  match fs !! filepath.Abs wd name with
  | Some (File data) => ret (write (Bytes data) w)
  | _ => ret (http_Error w "404 page not found" 404)
  end.

(** The children of a directory, in the order of the map. *)
Definition ReadDir (p : string) : M (string + list DirEntry) :=
  fs <- get_fs ;;
  let k := filepath.Abs wd p in
  match fs !! k with
  | Some Dir =>
      ret (inr (map (fun kn => mkEntry (filepath.Base (fst kn))
                                 (match snd kn with Dir => true | _ => false end))
                 (List.filter (fun kn => String.eqb (parent (fst kn)) k)
                              (map_to_list fs))))
  | Some (File _) => ret (inl ("open " ++ p ++ ": not a directory"))
  | None => ret (inl ("open " ++ p ++ ": no such file or directory"))
  end.

(** The host: a directory has size 4096, and a string with bytes outside
    ASCII is left as it is by [strings.ToLower] (no Unicode tables). *)
Definition host : Host :=
  mkHost wd 4096 (fun s => s) TypeByExtension EncodeToString ServeFile ReadDir.

Definition get (path : string) : Request :=
  mkRequest "GET" [("path", path)] None.

Definition text (s : string) : list byte := list_byte_of_string s.

(** The folders [/data/a] and [/data/b] with a few files in the first. *)
Definition fs0 : gmap string node :=
  list_to_map
    [("/data", Dir); ("/data/a", Dir); ("/data/b", Dir);
     ("/data/a/readme.md", File (text "# Title"));
     ("/data/a/report.pdf", File (text "%PDF-1.4"));
     ("/data/a/zero.pdf", File (x00 :: text "%PDF-1.4"));
     ("/data/a/blob.dat", File (x00 :: text "payload"));
     ("/data/a/notes.txt", File (text "plain text"));
     ("/data/a/MAIN.GO", File (text "package main"));
     ("/data/a/main.go", File (text "package main"))].

Definition world0 : World := mkWorld fs0 [].

Definition srv : FileServer := mkServer ["/data/a"; "/data/b"].

(** A file of [n] letters. *)
Definition letters (n : Z) : list byte := replicate (Z.to_nat n) x61.

(** Files of 50 MiB + 1 byte and of 50 MiB - 1 byte, each alone in its
    world. *)
Definition big : list byte := letters (50 * 1024 * 1024 + 1).
Definition big_world : World :=
  mkWorld {[ "/data/a/big.bin" := File big ]} [].
Definition large : list byte := letters (50 * 1024 * 1024 - 1).
Definition large_world : World :=
  mkWorld {[ "/data/a/large.bin" := File large ]} [].

(** Text files of 1 MiB and of 1 MiB + 1 byte. *)
Definition exact : list byte := letters (1 * 1024 * 1024).
Definition exact_world : World :=
  mkWorld {[ "/data/a/exact.txt" := File exact ]} [].
Definition longer : list byte := letters (1 * 1024 * 1024 + 1).
Definition longer_world : World :=
  mkWorld {[ "/data/a/longer.txt" := File longer ]} [].

Definition post (query : list (string * string)) (parts : list Part)
    (tail : Stream) : Request :=
  mkRequest "POST" query (Some (feed parts tail)).

(** Two files and a form field sent with one [relativePath] hint. *)
Definition first_part : Part := mkPart "files" "x.txt" (text "first") None.
Definition field_part : Part := mkPart "note" "" (text "skipped") None.
Definition second_part : Part := mkPart "files" "y.txt" (text "second") None.
Definition upload_hint : Request :=
  post [("folder", "/data/a"); ("relativePath", "sub/dir/x.txt")]
       [first_part; field_part; second_part] EOF.


(** An upload without the [folder] parameter. *)
Definition upload_no_folder : Request := post [] [first_part] EOF.

End Linux.

(** ** The start of the server: [main]

    [main] reads the [-folders] flag, keeps the folders that are not blank
    and stops when one of them does not exist.  The registration of the
    handlers and [http.ListenAndServe] are not modelled. *)

Module startup.

(** [strings.Split(s, sep)] for a one-byte separator. *)
Fixpoint split_on (sep : ascii) (cur : string) (s : string) : list string :=
  match s with
  | EmptyString => [cur]
  | String c r =>
      if Ascii.eqb c sep then cur :: split_on sep EmptyString r
      else split_on sep (cur ++ String c EmptyString) r
  end.

Definition Split (s : string) (sep : ascii) : list string :=
  split_on sep EmptyString s.

(** The ASCII white space of [strings.TrimSpace]: tab, line feed, vertical
    tab, form feed, carriage return and space. *)
Definition is_space (c : ascii) : bool :=
  let n := gostrings.code c in
  ((9 <=? n) && (n <=? 13)) || (n =? 32).

Definition non_ascii (c : ascii) : bool := 128 <=? gostrings.code c.

(** The Unicode fall-backs of [strings.TrimSpace]:
    [TrimFunc(s, unicode.IsSpace)] and [TrimRightFunc(s, unicode.IsSpace)]. *)
Record Unicode : Type := mkUnicode {
  trim_both : string -> string;
  trim_right_only : string -> string
}.

Fixpoint skip_space (s : string) : string :=
  match s with
  | EmptyString => EmptyString
  | String c r => if is_space c then skip_space r else s
  end.

(** The string without its ASCII white space at the end. *)
Fixpoint cut_space (s : string) : string :=
  match s with
  | EmptyString => EmptyString
  | String c r =>
      let t := cut_space r in
      if String.eqb t "" && is_space c then EmptyString else String c t
  end.

Fixpoint last_byte (s : string) : option ascii :=
  match s with
  | EmptyString => None
  | String c EmptyString => Some c
  | String _ r => last_byte r
  end.

(** [strings.TrimSpace]: ASCII white space is cut at both ends; when the
    first or the last byte that is left is not ASCII, the rest is left to
    the Unicode functions. *)
Definition TrimSpace (u : Unicode) (s : string) : string :=
  let left := skip_space s in
  match left with
  | EmptyString => EmptyString
  | String c _ =>
      if non_ascii c then trim_both u left
      else
        let both := cut_space left in
        match last_byte both with
        | Some d => if non_ascii d then trim_right_only u both else both
        | None => both
        end
  end.

(** The two ways a path lookup fails in a file system without links and
    permissions. *)
Inductive errno : Type := ENOENT | ENOTDIR.

(** The node under a canonical name; the root and the working directory,
    where every walk starts, are directories. *)
Definition node_at (host : Host) (fs : gmap string node) (k : string)
  : option node :=
  if String.eqb k "/" || String.eqb k (os_Getwd host) then Some Dir
  else fs !! k.

(** The walk of the kernel along the elements of a path as it is written,
    from the directory [cur]: every element, the empty one and the dots
    included, is looked up in what must be a directory; [..] goes to the
    parent.  A name that is missing fails the walk where it stands,
    whatever follows it. *)
Fixpoint walk (host : Host) (fs : gmap string node) (cur : string)
  (elems : list string) : errno + string :=
  match elems with
  | [] => inr cur
  | e :: rest =>
      match node_at host fs cur with
      | None => inl ENOENT
      | Some (File _) => inl ENOTDIR
      | Some Dir =>
          if String.eqb e "" || String.eqb e "." then walk host fs cur rest
          else if String.eqb e ".." then walk host fs (parent cur) rest
          else walk host fs (filepath.Join [cur; e]) rest
      end
  end.

(** [os.Stat(p)]: the node the path leads to, from the root or from the
    working directory. *)
Definition stat (host : Host) (fs : gmap string node) (p : string)
  : errno + node :=
  if String.eqb p "" then inl ENOENT
  else
    let start := if filepath.IsAbs p then "/" else os_Getwd host in
    match walk host fs start (Split p filepath.Separator) with
    | inl e => inl e
    | inr k =>
        match node_at host fs k with
        | Some n => inr n
        | None => inl ENOENT
        end
    end.

(** [os.IsNotExist(err)]: true for ENOENT only. *)
Definition IsNotExist {A : Type} (res : errno + A) : bool :=
  match res with
  | inl ENOENT => true
  | _ => false
  end.

(** [_, err := os.Stat(p); os.IsNotExist(err)]. *)
Definition stat_missing (host : Host) (p : string) : M bool :=
  _ <- emit (EvStat p) ;;
  fs <- get_fs ;;
  ret (IsNotExist (stat host fs p)).

(** The loop of [main] over the pieces of the flag; [clean] is
    [cleanFolders] so far.  [inl] is the message of [log.Fatalf]. *)
Fixpoint check_folders (u : Unicode) (host : Host) (pieces clean : list string)
  : M (string + list string) :=
  match pieces with
  | [] => ret (inr clean)
  | f :: rest =>
      let trimmed := TrimSpace u f in
      if negb (String.eqb trimmed "") then
        missing <- stat_missing host trimmed ;;
        if missing then ret (inl ("Folder does not exist: " ++ trimmed))
        else check_folders u host rest (clean ++ [trimmed])
      else check_folders u host rest clean
  end.

(** [main] up to the construction of the [FileServer]. *)
Definition setup (u : Unicode) (host : Host) (folders : string)
  : M (string + FileServer) :=
  if String.eqb folders "" then
    ret (inl "No folders provided. Use -folders to specify folders.")
  else
    res <- check_folders u host (Split folders ","%char) [] ;;
    match res with
    | inl msg => ret (inl msg)
    | inr cleanFolders => ret (inr (mkServer cleanFolders))
    end.

(** The pieces of the flag that [main] keeps. *)
Definition kept (u : Unicode) (folders : string) : list string :=
  List.filter (fun f => negb (String.eqb f ""))
              (map (TrimSpace u) (Split folders ","%char)).

(** [os.Stat] finds nothing under the path. *)
Definition missing (host : Host) (fs : gmap string node) (f : string) : Prop :=
  stat host fs f = inl ENOENT.

End startup.

(** ** The earlier variant of the server

    The second [main.go] of the repository answers a file view from the
    whole file, without kinds. *)

Module legacy.

(** [for i := 0; i < len(data) && i < bound; i++] with the two tests of
    the body; the list is [data[i:]]. *)
Fixpoint sniff_loop (bound : nat) (data : list byte) : bool :=
  match bound, data with
  | S n, b :: rest =>
      if byte_val b =? 0 then true
      else if (byte_val b <? 9) || ((13 <? byte_val b) && (byte_val b <? 32))
      then true
      else sniff_loop n rest
  | _, _ => false
  end.

(** [ioutil.ReadFile(p)]. *)
Definition ReadFile (host : Host) (p : string) : M (string + list byte) :=
  _ <- emit (EvOpen p) ;;
  fs <- get_fs ;;
  match fs !! resolve host p with
  | None => ret (inl ("open " ++ p ++ ": no such file or directory"))
  | Some Dir =>
      _ <- emit (EvRead p 0) ;;
      _ <- emit (EvClose p) ;;
      ret (inl ("read " ++ p ++ ": is a directory"))
  | Some (File data) =>
      _ <- emit (EvRead p (length data)) ;;
      _ <- emit (EvClose p) ;;
      ret (inr data)
  end.

(** The handler of [/api/file]. *)
Definition fileView (host : Host) (w : ResponseWriter) (r : Request)
  : M ResponseWriter :=
  let path := Query_Get r "path" in
  if String.eqb path "" then ret (http_Error w "Missing path" 400)
  else
    res <- ReadFile host path ;;
    match res with
    | inl err => ret (http_Error w err 400)
    | inr data =>
        let isBinary := sniff_loop 800 data in
        let ext := filepath.Ext path in
        let lang := extToLang ext in
        if isBinary then
          ret (json_Encode w
                 (string_map [("content", binaryNotice); ("language", "")]))
        else
          ret (json_Encode w
                 (string_map [("content", gostrings.of_bytes data);
                              ("language", lang)]))
    end.

End legacy.

(** ** Words for the further properties *)

(** A call on the file a view has open. *)
Definition on_open_file (path : string) (e : event) : Prop :=
  e = EvStat path \/ e = EvSeek path \/ exists n, e = EvRead path n.

(** The languages a text reply can name. *)
Definition text_languages : list string :=
  ["go"; "javascript"; "python"; "java"; "html"; "css"; "json"; ""].

(** The path a file part is written to, and the canonical name of that
    path. *)
Definition out_path (r : Request) (folder : string) (p : Part) : string :=
  filepath.Join [folder; effective_name r p].

Definition dest (host : Host) (r : Request) (folder : string) (p : Part)
  : string :=
  resolve host (out_path r folder p).

(** The calls that save the part [p]. *)
Definition part_events (r : Request) (folder : string) (p : Part)
  : list event :=
  saved_events (filepath.Dir (out_path r folder p)) (out_path r folder p) p.

(** A stream without the parts that are not file parts. *)
Fixpoint drop_fields (s : Stream) : Stream :=
  match s with
  | Next p rest =>
      if is_file_part p then Next p (drop_fields rest) else drop_fields rest
  | _ => s
  end.

(** No part that is skipped has a broken body. *)
Fixpoint fields_whole (s : Stream) : Prop :=
  match s with
  | Next p rest => (is_file_part p = false -> p_err p = None) /\ fields_whole rest
  | _ => True
  end.


(** What a tree entry for the directory entry [e] of [path] holds. *)
Definition child_entry_of (path : string) (e : DirEntry) (v : json) : Prop :=
  field "name" v = Some (JString (Name e))
  /\ field "type" v = Some (JString (if IsDir e then "folder" else "file"))
  /\ field "path" v
     = Some (JString (filepath.ToSlash (filepath.Join [path; Name e]))).

(** ** Further inputs on the Linux host *)

Module Cases.

(** No Unicode white space is known: strings that need the tables are left
    as they are. *)
Definition ascii_only : startup.Unicode :=
  startup.mkUnicode (fun s => s) (fun s => s).

(** A markdown file of 1 MiB + 1 byte. *)
Definition long_markdown_world : World :=
  mkWorld {[ "/data/a/long.md" := File Linux.longer ]} [].

(** The first eight bytes of a PNG file, a PDF of 2000 letters, and a text
    file whose only control byte is at offset 800. *)
Definition png : list byte := [x89; x50; x4e; x47; x0d; x0a; x1a; x0a].
Definition late_zero : list byte := (Linux.letters 800 ++ [x00])%list.
Definition fs1 : gmap string node :=
  list_to_map
    [("/data", Dir); ("/data/a", Dir);
     ("/data/a/pic.png", File png);
     ("/data/a/doc.pdf", File (Linux.letters 2000));
     ("/data/a/late.txt", File late_zero);
     ("/data/a/plain.txt", File (Linux.letters 800));
     ("/data/a/main.go", File (Linux.text "package main"))].
Definition world1 : World := mkWorld fs1 [].

(** Two files with names of their own, and a form field between them. *)
Definition upload_two : Request :=
  Linux.post [("folder", "/data/a")]
    [Linux.first_part; Linux.field_part; Linux.second_part] EOF.

(** A request that is not a POST, with a file part. *)
Definition upload_get : Request :=
  mkRequest "GET" [("folder", "/data/a")]
    (Some (feed [Linux.first_part] EOF)).

End Cases.

(** * Properties *)

Section Properties.

Variable host : Host.

Local Arguments String.eqb : simpl never.

(** Closes an equation between two runs once the log is put in one
    shape. *)
Ltac run_log :=
  cbn [w_fs w_log fst snd Nat.add];
  rewrite ?skipn_O, <- ?app_assoc; reflexivity.

Lemma eqb_empty_false (s : string) : s <> "" -> String.eqb s "" = false.
Proof. intros H. apply String.eqb_neq. exact H. Qed.

Lemma gtb_false (a b : Z) : a <= b -> (a >? b) = false.
Proof. intros H. rewrite Z.gtb_ltb. apply Z.ltb_ge. exact H. Qed.

Lemma gtb_true (a b : Z) : b < a -> (a >? b) = true.
Proof. intros H. rewrite Z.gtb_ltb. apply Z.ltb_lt. exact H. Qed.

(** ** The file view *)

(** The handler on a path that names a node: the part between [os.Open]
    and the deferred [f.Close()] runs on the opened node, and the file is
    closed after it. *)
Lemma view_found w r world path n :
  Query_Get r "path" = path ->
  path <> "" ->
  w_fs world !! resolve host path = Some n ->
  handleFileView host w r world =
    let res := viewOpened host w r path (mkFile path n 0)
                 (mkWorld (w_fs world) (w_log world ++ [EvOpen path])) in
    (fst res, mkWorld (w_fs (snd res)) (w_log (snd res) ++ [EvClose path])).
Proof.
  intros Hq Hne Hn. unfold handleFileView. rewrite Hq.
  rewrite (eqb_empty_false _ Hne). unfold filepath.FromSlash.
  unfold os_Open, bind, emit, get_fs, ret, f_Close. simpl.
  rewrite Hn. simpl.
  destruct (viewOpened host w r path _ _) as [res world']. reflexivity.
Qed.

Lemma field_string_map key kvs :
  field key (string_map kvs) = JString <$> assoc key kvs.
Proof.
  unfold string_map, field.
  induction kvs as [|[k v] kvs IH]; simpl; [reflexivity|].
  destruct (String.eqb key k); [reflexivity|exact IH].
Qed.

Lemma reply_field_encode key w kvs :
  reply_field key (json_Encode w (string_map kvs)) = assoc key kvs.
Proof.
  unfold reply_field, last_json, json_Encode, write. simpl.
  rewrite last_snoc, field_string_map.
  destruct (assoc key kvs); reflexivity.
Qed.

Lemma view_kind_encode w kvs :
  view_kind (json_Encode w (string_map kvs)) = assoc "type" kvs.
Proof. apply reply_field_encode. Qed.

(** The outcome of a view of a regular file within the size limit, by
    cases in the order of the handler. *)
Lemma viewOpened_file w r path data fs (log : list event) :
  Z.of_nat (length data) <= maxView ->
  let ext := ToLower host (filepath.Ext path) in
  let head := take 800 data in
  let mimeType := mime_TypeByExtension host ext in
  let base := (log ++ [EvStat path] ++ [EvRead path (length head)]
                   ++ [EvSeek path])%list in
  let res := viewOpened host w r path (mkFile path (File data) 0)
               (mkWorld fs log) in
  (String.eqb ext ".pdf" = true /\
   res = (json_Encode w
            (string_map [("type", "pdf");
                         ("content", "/api/raw?path=" ++ Query_Get r "path")]),
          mkWorld fs base))
  \/ (String.eqb ext ".pdf" = false /\
      String.eqb ext ".md" || String.eqb ext ".markdown" = true /\
      res = (json_Encode w
               (string_map [("type", "markdown");
                            ("content", gostrings.of_bytes data)]),
             mkWorld fs (base ++ [EvRead path (length data)])%list))
  \/ (String.eqb ext ".pdf" = false /\
      String.eqb ext ".md" || String.eqb ext ".markdown" = false /\
      sniff head = true /\
      gostrings.HasPrefix mimeType "image/" = true /\
      res = (json_Encode w
               (string_map [("type", "image");
                            ("content",
                             "data:" ++ mimeType ++ ";base64,"
                               ++ base64_EncodeToString host data);
                            ("mime", mimeType)]),
             mkWorld fs (base ++ [EvRead path (length data)])%list))
  \/ (String.eqb ext ".pdf" = false /\
      String.eqb ext ".md" || String.eqb ext ".markdown" = false /\
      sniff head = true /\
      gostrings.HasPrefix mimeType "image/" = false /\
      res = (json_Encode w
               (string_map [("type", "binary"); ("content", binaryNotice);
                            ("language", "")]),
             mkWorld fs base))
  \/ (String.eqb ext ".pdf" = false /\
      String.eqb ext ".md" || String.eqb ext ".markdown" = false /\
      sniff head = false /\
      res = (json_Encode w
               (string_map
                  [("type", "text");
                   ("content",
                    if Z.of_nat (length data) >? maxRead
                    then gostrings.of_bytes (take (Z.to_nat maxRead) data)
                           ++ truncated
                    else gostrings.of_bytes (take (Z.to_nat maxRead) data));
                   ("language", extToLang ext)]),
             mkWorld fs
               (base ++ [EvRead path
                           (length (take (Z.to_nat maxRead) data))])%list)).
Proof.
  intros Hsize ext head mimeType base res.
  subst res base. unfold viewOpened.
  unfold f_Stat, f_Read, f_Seek0, io_ReadAll, read_from, bind, emit, ret.
  cbn [f_node f_name f_pos fst snd w_fs w_log Size node_size].
  rewrite (gtb_false _ _ Hsize), !skipn_O.
  cbn [f_node f_name f_pos fst snd w_fs w_log Size node_size].
  rewrite <- !app_assoc.
  fold ext. fold head. fold mimeType.
  destruct (String.eqb ext ".pdf") eqn:Hpdf.
  { left. split; [reflexivity|]. reflexivity. }
  right.
  destruct (String.eqb ext ".md" || String.eqb ext ".markdown") eqn:Hmd.
  { left. repeat split. run_log. }
  right.
  destruct (sniff head) eqn:Hsniff.
  - destruct (gostrings.HasPrefix mimeType "image/") eqn:Himg.
    + left. repeat split. run_log.
    + right. left. repeat split.
  - right. right. repeat split.
    destruct (Z.of_nat (length data) >? maxRead); run_log.
Qed.

(** A node above the size limit: nothing happens after [f.Stat()]. *)
Lemma viewOpened_oversize w r path n fs (log : list event) :
  maxView < node_size host n ->
  viewOpened host w r path (mkFile path n 0) (mkWorld fs log)
  = (oversize_reply w, mkWorld fs (log ++ [EvStat path])%list).
Proof.
  intros Hsize. unfold viewOpened, f_Stat, bind, emit, ret.
  cbn [f_node f_name fst snd w_fs w_log Size].
  rewrite (gtb_true _ _ Hsize). reflexivity.
Qed.

Lemma view_file_classified w r world path data :
  Query_Get r "path" = path ->
  path <> "" ->
  w_fs world !! resolve host path = Some (File data) ->
  Z.of_nat (length data) <= maxView ->
  In (view_kind (fst (handleFileView host w r world))) classified
  /\ In (EvRead path (length (take 800 data)))
        (w_log (snd (handleFileView host w r world))).
Proof.
  intros Hq Hne Hn Hsize.
  rewrite (view_found w r world path (File data) Hq Hne Hn).
  cbv zeta. cbn [fst snd w_log].
  pose proof (viewOpened_file w r path data (w_fs world)
                (w_log world ++ [EvOpen path]) Hsize) as Hc.
  cbv zeta in Hc. unfold classified.
  destruct Hc as [[_ ->]|[(_ & _ & ->)|[(_ & _ & _ & _ & ->)
                 |[(_ & _ & _ & _ & ->)|(_ & _ & _ & ->)]]]];
    cbn [fst snd w_log]; rewrite view_kind_encode; cbn [assoc];
    (split; [cbn; tauto | rewrite !in_app_iff; cbn; tauto]).
Qed.

(** C1. A file larger than 50 MiB is answered with the kind [error] and
    the fixed message, and the handler only opens, stats and closes it:
    no byte of its body is read.  A regular file of at most 50 MiB, so
    one of 50 MiB - 1 bytes, is classified as one of the five other
    kinds and is read; one of 50 MiB + 1 bytes is answered [error]. *)
Theorem oversize_guard w r world path n :
  Query_Get r "path" = path ->
  path <> "" ->
  w_fs world !! resolve host path = Some n ->
  let res := handleFileView host w r world in
  (maxView < node_size host n ->
     fst res = oversize_reply w
     /\ view_kind (fst res) = Some "error"
     /\ reply_field "content" (fst res) = Some tooLarge
     /\ snd res = mkWorld (w_fs world)
                    (w_log world ++ [EvOpen path; EvStat path; EvClose path])
     /\ List.filter is_read (w_log (snd res))
        = List.filter is_read (w_log world))
  /\ (forall data, n = File data ->
        Z.of_nat (length data) <= maxView ->
        In (view_kind (fst res)) classified
        /\ view_kind (fst res) <> Some "error"
        /\ In (EvRead path (length (take 800 data))) (w_log (snd res)))
  /\ (forall data, n = File data ->
        Z.of_nat (length data) = 50 * 1024 * 1024 - 1 ->
        In (view_kind (fst res)) classified
        /\ view_kind (fst res) <> Some "error")
  /\ (forall data, n = File data ->
        Z.of_nat (length data) = 50 * 1024 * 1024 + 1 ->
        view_kind (fst res) = Some "error").
Proof.
  intros Hq Hne Hn res.
  assert (Hbig : maxView < node_size host n ->
            fst res = oversize_reply w
            /\ view_kind (fst res) = Some "error"
            /\ reply_field "content" (fst res) = Some tooLarge
            /\ snd res = mkWorld (w_fs world)
                   (w_log world ++ [EvOpen path; EvStat path; EvClose path])
            /\ List.filter is_read (w_log (snd res))
               = List.filter is_read (w_log world)).
  { intros Hsize. subst res.
    rewrite (view_found w r world path n Hq Hne Hn). cbv zeta.
    rewrite (viewOpened_oversize w r path n _ _ Hsize).
    cbn [fst snd w_fs w_log]. unfold oversize_reply.
    rewrite view_kind_encode, reply_field_encode.
    repeat split; try reflexivity.
    - rewrite <- !app_assoc. reflexivity.
    - rewrite !List.filter_app. cbn. rewrite !app_nil_r. reflexivity. }
  assert (Hsmall : forall data, n = File data ->
            Z.of_nat (length data) <= maxView ->
            In (view_kind (fst res)) classified
            /\ view_kind (fst res) <> Some "error"
            /\ In (EvRead path (length (take 800 data))) (w_log (snd res))).
  { intros data -> Hsize. subst res.
    destruct (view_file_classified w r world path data Hq Hne Hn Hsize)
      as [Hk Hr].
    repeat split; [exact Hk| |exact Hr].
    intros Herr. rewrite Herr in Hk. unfold classified in Hk. cbn in Hk.
    intuition congruence. }
  split; [exact Hbig|]. split; [exact Hsmall|]. split.
  - intros data Hd Hlen.
    destruct (Hsmall data Hd) as (Hk & Hne' & _); [unfold maxView; lia|].
    split; assumption.
  - intros data Hd Hlen. apply Hbig. subst n. cbn [node_size].
    unfold maxView. lia.
Qed.

Lemma sniff_true_iff head :
  sniff head = true <-> exists b, b ∈ head /\ control_byte b.
Proof.
  unfold control_byte. induction head as [|b rest IH]; cbn [sniff].
  - split; [discriminate|]. intros (b & Hb & _). inversion Hb.
  - destruct (byte_val b =? 0) eqn:Hz.
    { split; [intros _|reflexivity]. exists b. split; [left|].
      left. apply Z.eqb_eq. exact Hz. }
    destruct ((byte_val b <? 9) || ((13 <? byte_val b) && (byte_val b <? 32)))
      eqn:Hc.
    { split; [intros _|reflexivity]. exists b. split; [left|]. right.
      apply orb_true_iff in Hc. destruct Hc as [Hc|Hc].
      - apply Z.ltb_lt in Hc. lia.
      - apply andb_true_iff in Hc. destruct Hc as [H1 H2].
        apply Z.ltb_lt in H1. apply Z.ltb_lt in H2. lia. }
    rewrite IH. apply Z.eqb_neq in Hz.
    apply orb_false_iff in Hc. destruct Hc as [H1 H2].
    apply Z.ltb_ge in H1. apply andb_false_iff in H2.
    assert (Hnb : ~ (byte_val b = 0 \/ byte_val b < 32 /\ ~ 9 <= byte_val b <= 13)).
    { destruct H2 as [H2|H2]; apply Z.ltb_ge in H2; lia. }
    split.
    + intros (c & Hin & Hcc). exists c. split; [right; exact Hin|exact Hcc].
    + intros (c & Hin & Hcc). inversion Hin; subst.
      * contradiction.
      * exists c. split; assumption.
Qed.

Lemma sniff_take_iff data : sniff (take 800 data) = true <-> sniffed data.
Proof.
  rewrite sniff_true_iff. unfold sniffed. split.
  - intros (b & Hin & Hc). apply elem_of_take in Hin.
    destruct Hin as (i & Hi & Hlt). exists i, b. auto.
  - intros (i & b & Hi & Hlt & Hc). exists b. split; [|exact Hc].
    apply elem_of_take. exists i. auto.
Qed.

(** The kind of a view of a regular file within the limit. *)
Lemma view_file_kind w r world path data :
  Query_Get r "path" = path ->
  path <> "" ->
  w_fs world !! resolve host path = Some (File data) ->
  Z.of_nat (length data) <= maxView ->
  let ext := view_ext host path in
  view_kind (fst (handleFileView host w r world))
  = Some (if String.eqb ext ".pdf" then "pdf"
          else if String.eqb ext ".md" || String.eqb ext ".markdown"
               then "markdown"
          else if sniff (take 800 data)
               then if image_ext host ext then "image" else "binary"
          else "text").
Proof.
  intros Hq Hne Hn Hsize ext.
  rewrite (view_found w r world path (File data) Hq Hne Hn).
  cbv zeta. cbn [fst snd w_log].
  pose proof (viewOpened_file w r path data (w_fs world)
                (w_log world ++ [EvOpen path]) Hsize) as Hc.
  cbv zeta in Hc. unfold image_ext. subst ext. unfold view_ext.
  destruct Hc as [[H1 ->]|[(H1 & H2 & ->)|[(H1 & H2 & H3 & H4 & ->)
                 |[(H1 & H2 & H3 & H4 & ->)|(H1 & H2 & H3 & ->)]]]];
    cbn [fst]; rewrite view_kind_encode; cbn [assoc];
    rewrite H1; try rewrite H2; try rewrite H3; try rewrite H4;
    reflexivity.
Qed.

(** C2 (as amended). For a regular file within the size limit the sniff
    reads at most the first 800 bytes, and its outcome shows in the kind
    as follows: the kind is [binary] exactly when one of these bytes is
    zero or a control byte below 0x20 outside 0x09-0x0D, the extension is
    not [.pdf], [.md] or [.markdown] and the host does not map it to an
    image type; with an image type the kind is [image].  So a file that
    starts with a zero byte is [binary] for every extension that is not
    one of those, and a file without such a byte is never [binary],
    whatever its extension. *)
Theorem binary_sniff w r world path data :
  Query_Get r "path" = path ->
  path <> "" ->
  w_fs world !! resolve host path = Some (File data) ->
  Z.of_nat (length data) <= maxView ->
  let res := handleFileView host w r world in
  let ext := view_ext host path in
  (view_kind (fst res) = Some "binary" <->
     sniffed data /\ by_extension ext = false /\ image_ext host ext = false)
  /\ (view_kind (fst res) = Some "image" <->
       sniffed data /\ by_extension ext = false /\ image_ext host ext = true)
  /\ (data !! 0%nat = Some x00 ->
      by_extension ext = false -> image_ext host ext = false ->
      view_kind (fst res) = Some "binary")
  /\ ((forall b, b ∈ data ->
         32 <= byte_val b \/ byte_val b = 9 \/ byte_val b = 10
         \/ byte_val b = 13) ->
      view_kind (fst res) <> Some "binary"
      /\ (by_extension ext = false -> view_kind (fst res) = Some "text"))
  /\ In (EvRead path (length (take 800 data))) (w_log (snd res))
  /\ (length (take 800 data) <= 800)%nat
  /\ (sniff (take 800 data) = true <-> sniffed data).
Proof.
  intros Hq Hne Hn Hsize res ext.
  pose proof (view_file_kind w r world path data Hq Hne Hn Hsize) as Hk.
  cbv zeta in Hk. fold res in Hk. fold ext in Hk.
  pose proof (sniff_take_iff data) as Hs.
  assert (Hbin : view_kind (fst res) = Some "binary" <->
            sniffed data /\ by_extension ext = false
            /\ image_ext host ext = false).
  { rewrite Hk, <- Hs. unfold by_extension.
    destruct (String.eqb ext ".pdf"), (String.eqb ext ".md" || String.eqb ext ".markdown"),
      (sniff (take 800 data)), (image_ext host ext); cbn;
      split; intros H; try discriminate H; try reflexivity;
      try (destruct H as (? & ? & ?); discriminate); auto. }
  assert (Himg : view_kind (fst res) = Some "image" <->
            sniffed data /\ by_extension ext = false
            /\ image_ext host ext = true).
  { rewrite Hk, <- Hs. unfold by_extension.
    destruct (String.eqb ext ".pdf"), (String.eqb ext ".md" || String.eqb ext ".markdown"),
      (sniff (take 800 data)), (image_ext host ext); cbn;
      split; intros H; try discriminate H; try reflexivity;
      try (destruct H as (? & ? & ?); discriminate); auto. }
  split; [exact Hbin|]. split; [exact Himg|].
  split; [|split; [|split; [|split; [|exact Hs]]]].
  - intros H0 Hext Him. apply Hbin. split; [|auto].
    exists 0%nat, x00. split; [exact H0|]. split; [lia|].
    left. reflexivity.
  - intros Hclean.
    assert (Hno : sniff (take 800 data) = false).
    { destruct (sniff (take 800 data)) eqn:E; [|reflexivity].
      apply sniff_take_iff in E. destruct E as (i & b & Hi & _ & Hc).
      apply list_elem_of_lookup_2 in Hi. specialize (Hclean b Hi).
      unfold control_byte in Hc. lia. }
    split.
    + intros Hb. apply Hbin in Hb. destruct Hb as [Hb _].
      apply Hs in Hb. congruence.
    + unfold by_extension. intros Hext.
      apply orb_false_iff in Hext. destruct Hext as [H1 H2].
      rewrite Hk, H1, H2, Hno. reflexivity.
  - subst res.
    apply (view_file_classified w r world path data Hq Hne Hn Hsize).
  - rewrite length_take. lia.
Qed.

(** C3. When a regular file is answered with the kind [text], the bytes
    of the content come from one read of at most 1 MiB, after the 800
    byte sniff; a file of at most 1 MiB, so one of exactly 1 MiB, has its
    whole text as content and nothing after it; a longer file has its
    first 1 MiB followed by the truncation notice. *)
Theorem text_limit w r world path data :
  Query_Get r "path" = path ->
  path <> "" ->
  w_fs world !! resolve host path = Some (File data) ->
  let res := handleFileView host w r world in
  view_kind (fst res) = Some "text" ->
  let limit := Z.to_nat (1 * 1024 * 1024) in
  let size := Z.of_nat (length data) in
  w_log (snd res)
  = (w_log world ++ [EvOpen path; EvStat path;
                     EvRead path (length (take 800 data)); EvSeek path;
                     EvRead path (length (take limit data));
                     EvClose path])%list
  /\ (forall e, In e (w_log (snd res)) ->
        In e (w_log world) \/ (bytes_read e <= limit)%nat)
  /\ (size <= 1 * 1024 * 1024 ->
      reply_field "content" (fst res) = Some (gostrings.of_bytes data))
  /\ (size = 1 * 1024 * 1024 ->
      reply_field "content" (fst res) = Some (gostrings.of_bytes data))
  /\ (1 * 1024 * 1024 + 1 <= size ->
      reply_field "content" (fst res)
      = Some (gostrings.of_bytes (take limit data) ++ truncated)
      /\ length (take limit data) = limit).
Proof.
  intros Hq Hne Hn res Hkind limit size.
  assert (Hsize : size <= maxView).
  { destruct (Z_le_gt_dec size maxView) as [Hle|Hgt]; [exact Hle|].
    exfalso. subst res.
    rewrite (view_found w r world path (File data) Hq Hne Hn) in Hkind.
    cbv zeta in Hkind.
    rewrite (viewOpened_oversize w r path (File data)) in Hkind
      by (cbn [node_size]; fold size; lia).
    cbn [fst] in Hkind. unfold oversize_reply in Hkind.
    rewrite view_kind_encode in Hkind. discriminate Hkind. }
  subst res.
  rewrite (view_found w r world path (File data) Hq Hne Hn) in Hkind |- *.
  cbv zeta in Hkind |- *.
  pose proof (viewOpened_file w r path data (w_fs world)
                (w_log world ++ [EvOpen path]) Hsize) as Hc.
  cbv zeta in Hc.
  destruct Hc as [[H1 Hc]|[(H1 & H2 & Hc)|[(H1 & H2 & H3 & H4 & Hc)
                 |[(H1 & H2 & H3 & H4 & Hc)|(H1 & H2 & H3 & Hc)]]]];
    rewrite Hc in Hkind |- *; cbn [fst snd w_log] in Hkind |- *;
    rewrite view_kind_encode in Hkind; try discriminate Hkind.
  fold size. change (Z.to_nat maxRead) with limit.
  rewrite reply_field_encode.
  assert (Hlen : (length (take limit data) <= limit)%nat)
    by (rewrite length_take; lia).
  assert (Hfull : size <= 1 * 1024 * 1024 ->
            assoc "content"
              [("type", "text");
               ("content",
                if size >? maxRead
                then gostrings.of_bytes (take limit data) ++ truncated
                else gostrings.of_bytes (take limit data));
               ("language", extToLang (ToLower host (filepath.Ext path)))]
            = Some (gostrings.of_bytes data)).
  { intros Hle. rewrite (gtb_false size maxRead) by (unfold maxRead; lia).
    rewrite take_ge by (subst limit size; lia). reflexivity. }
  rewrite <- !app_assoc. cbn [app].
  split; [reflexivity|].
  split.
  { intros e He. apply in_app_or in He.
    assert (H800 : (length (take 800 data) <= limit)%nat)
      by (rewrite length_take; subst limit; lia).
    destruct He as [He|He]; [left; exact He|right].
    cbn [In] in He.
    repeat (destruct He as [<-|He]; [cbn [bytes_read]; lia|]).
    destruct He. }
  split; [exact Hfull|].
  split; [intros Heq; apply Hfull; lia|].
  intros Hgt. rewrite (gtb_true size maxRead) by (unfold maxRead; lia).
  split; [reflexivity|]. rewrite length_take. subst limit size. lia.
Qed.

(** ** Missing parameters *)

(** C4 (as amended). On a fresh response, a request without [path] is
    answered by the view, raw and download handlers with status 400 and
    the text [Missing path]; a POST upload without [folder] is answered
    with the JSON object [{success: false, error: "Missing folder param"}]
    under status 200.  None of them touches the file system. *)
Theorem missing_parameter w r world :
  rw_status w = None ->
  (Query_Get r "path" = "" ->
     forall handler,
       In handler [handleFileView host; handleRawFile host;
                   handleDownload host] ->
       rw_status (fst (handler w r world)) = Some 400
       /\ last (rw_body (fst (handler w r world))) = Some missing_path
       /\ snd (handler w r world) = world)
  /\ (Method r = "POST" -> Query_Get r "folder" = "" ->
      rw_status (fst (handleUpload host w r world)) = Some 200
      /\ last_json (fst (handleUpload host w r world))
         = Some (failure "Missing folder param")
      /\ snd (handleUpload host w r world) = world).
Proof.
  intros Hw. split.
  - intros Hq handler Hin.
    assert (Hrun : handler w r world
                   = (http_Error w "Missing path" 400, world)).
    { cbn in Hin. destruct Hin as [<-|[<-|[<-|[]]]].
      - unfold handleFileView. rewrite Hq. reflexivity.
      - unfold handleRawFile. rewrite Hq. reflexivity.
      - unfold handleDownload. rewrite Hq. reflexivity. }
    rewrite Hrun. cbn [fst snd]. unfold http_Error.
    cbn [rw_status rw_body]. rewrite Hw, last_snoc. auto.
  - intros Hm Hq. unfold handleUpload. rewrite Hm, Hq.
    cbn [fst snd]. change (String.eqb "POST" "POST") with true.
    change (String.eqb "" "") with true. cbn [negb fst snd ret].
    unfold last_json, json_Encode, write. cbn [rw_status rw_body].
    rewrite Hw, last_snoc. auto.
Qed.

(** ** The tree of root folders *)

Lemma root_entries_spec (roots : list string) :
  Forall2 (root_entry_of host) roots (map (root_entry host) roots).
Proof.
  induction roots as [|f roots IH]; constructor; [|exact IH].
  unfold root_entry_of, root_entry. rewrite !field_string_map.
  repeat split.
Qed.

Lemma entries_of_slice (l : list json) : entries_of (slice l) = l.
Proof. destruct l; reflexivity. Qed.

(** C7. With an empty path, [.] or the separator, the tree listing is
    the encoding of one entry per folder of the configuration, in the
    order of the configuration: its type is [folder], its name the base
    of the folder and its path the absolute path of the folder with
    forward slashes. *)
Theorem tree_roots srv w r world :
  Query_Get r "path" = "" \/ Query_Get r "path" = "."
  \/ Query_Get r "path" = "/" ->
  exists v,
    handleTree host srv w r world = (json_Encode w v, world)
    /\ last_json (json_Encode w v) = Some v
    /\ Forall2 (root_entry_of host) (FolderList srv) (entries_of v)
    /\ length (entries_of v) = length (FolderList srv).
Proof.
  intros Hp. exists (slice (map (root_entry host) (FolderList srv))).
  split; [|split; [|split]].
  - unfold handleTree, filepath.FromSlash.
    destruct Hp as [-> | [-> | ->]]; reflexivity.
  - unfold last_json, json_Encode, write. cbn [rw_body].
    rewrite last_snoc. reflexivity.
  - rewrite entries_of_slice. apply root_entries_spec.
  - rewrite entries_of_slice. apply length_map.
Qed.

(** ** Downloads *)

(** C8. A download request with a path hands the response over to
    [http.ServeFile] with nothing written yet and with two headers set:
    [Content-Disposition] is [attachment; filename=] followed by the base
    of the path, and [Content-Type] is what the MIME table gives for the
    extension of that base, or [application/octet-stream] when the table
    gives nothing.  What the response carries is then up to
    [http.ServeFile]: when the path names a regular file it is sent with
    status 200 under both headers; when the path names nothing the reply
    is the one of [http.Error], status 404, which keeps
    [Content-Disposition] and replaces [Content-Type] by
    [text/plain; charset=utf-8]. *)
Theorem download_headers w r world path :
  Query_Get r "path" = path ->
  path <> "" ->
  serves_files host ->
  let fname := filepath.Base path in
  let mimeType := mime_TypeByExtension host (filepath.Ext fname) in
  let sent := fst (handleDownload host w r world) in
  (exists w',
     handleDownload host w r world = http_ServeFile host w' r path world
     /\ rw_header w' !! "Content-Disposition"
        = Some ("attachment; filename=" ++ fname)
     /\ (mimeType <> "" -> rw_header w' !! "Content-Type" = Some mimeType)
     /\ (mimeType = "" ->
         rw_header w' !! "Content-Type" = Some "application/octet-stream")
     /\ rw_status w' = rw_status w
     /\ rw_body w' = rw_body w)
  /\ (forall data,
        w_fs world !! resolve host path = Some (File data) ->
        rw_header sent !! "Content-Disposition"
        = Some ("attachment; filename=" ++ fname)
        /\ (mimeType <> "" ->
            rw_header sent !! "Content-Type" = Some mimeType)
        /\ (mimeType = "" ->
            rw_header sent !! "Content-Type"
            = Some "application/octet-stream")
        /\ rw_status sent = Some (default 200 (rw_status w)))
  /\ (w_fs world !! resolve host path = None ->
      rw_header sent !! "Content-Disposition"
      = Some ("attachment; filename=" ++ fname)
      /\ rw_header sent !! "Content-Type" = Some "text/plain; charset=utf-8"
      /\ rw_status sent = Some (default 404 (rw_status w))).
Proof.
  intros Hq Hne [Hfile Hnone] fname mimeType sent.
  pose (ctype := if String.eqb mimeType "" then "application/octet-stream"
                 else mimeType).
  pose (w' := Header_Set "Content-Type" ctype
                (Header_Set "Content-Disposition"
                   ("attachment; filename=" ++ fname) w)).
  assert (Hrun : handleDownload host w r world
                 = http_ServeFile host w' r path world).
  { unfold handleDownload. rewrite Hq, (eqb_empty_false _ Hne).
    reflexivity. }
  assert (Hcd : rw_header w' !! "Content-Disposition"
                = Some ("attachment; filename=" ++ fname)).
  { unfold w', Header_Set. cbn [rw_header].
    rewrite lookup_insert_ne by discriminate. apply lookup_insert_eq. }
  assert (Hct : rw_header w' !! "Content-Type" = Some ctype).
  { unfold w', Header_Set. cbn [rw_header]. apply lookup_insert_eq. }
  assert (Hknown : mimeType <> "" -> ctype = mimeType).
  { intros Hm. unfold ctype. rewrite (eqb_empty_false _ Hm). reflexivity. }
  assert (Hunknown : mimeType = "" -> ctype = "application/octet-stream").
  { intros Hm. unfold ctype. rewrite Hm. reflexivity. }
  split; [|split].
  - exists w'. split; [exact Hrun|]. split; [exact Hcd|].
    split; [intros Hm; rewrite Hct, (Hknown Hm); reflexivity|].
    split; [intros Hm; rewrite Hct, (Hunknown Hm); reflexivity|].
    split; reflexivity.
  - intros data Hn. subst sent. rewrite Hrun.
    destruct (Hfile w' r path world data Hn) as [Hkeep Hstatus].
    split; [apply Hkeep; exact Hcd|].
    split; [intros Hm; rewrite <- (Hknown Hm); apply Hkeep; exact Hct|].
    split; [intros Hm; rewrite <- (Hunknown Hm); apply Hkeep; exact Hct|].
    exact Hstatus.
  - intros Hn. subst sent. rewrite Hrun, (Hnone w' r path world Hn).
    unfold http_Error. cbn [rw_header rw_status].
    split; [|split; [|reflexivity]].
    + rewrite !lookup_insert_ne by discriminate. exact Hcd.
    + rewrite lookup_insert_ne by discriminate. apply lookup_insert_eq.
Qed.

(** ** Uploads *)

(** [os.MkdirAll] changes no node that exists. *)
Lemma mkdir_chain_keeps chain (fs : gmap string node) k n :
  fs !! k = Some n -> snd (mkdir_chain chain fs) !! k = Some n.
Proof.
  revert fs. induction chain as [|a chain IH]; intros fs Hk; cbn [mkdir_chain].
  - exact Hk.
  - destruct (fs !! a) as [[|d]|] eqn:Ha.
    + apply IH. exact Hk.
    + exact Hk.
    + apply IH. rewrite lookup_insert_ne; [exact Hk|].
      intros ->. rewrite Ha in Hk. discriminate.
Qed.

(** When it succeeds, every directory of the chain exists. *)
Lemma mkdir_chain_makes chain (fs : gmap string node) a :
  fst (mkdir_chain chain fs) = None ->
  In a chain ->
  snd (mkdir_chain chain fs) !! a = Some Dir.
Proof.
  revert fs. induction chain as [|c chain IH]; intros fs Hok Hin;
    cbn [mkdir_chain] in *.
  - destruct Hin.
  - destruct (fs !! c) as [[|d]|] eqn:Hc.
    + destruct Hin as [<-|Hin]; [|apply IH; assumption].
      apply mkdir_chain_keeps. exact Hc.
    + discriminate Hok.
    + destruct Hin as [<-|Hin]; [|apply IH; assumption].
      apply mkdir_chain_keeps. apply lookup_insert_eq.
Qed.

(** One file part, by the call that ends it. *)
Lemma save_part_cases r folder part world :
  let out := filepath.Join [folder; effective_name r part] in
  let d := filepath.Dir out in
  let k := resolve host out in
  let made := mkdir_chain (ancestors (resolve host d)) (w_fs world) in
  let log := w_log world in
  (exists err,
      fst made = Some err
      /\ save_part host r folder part world
         = (Some err, mkWorld (snd made) (log ++ [EvMkdirAll d])))
  \/ (exists err,
        fst made = None
        /\ save_part host r folder part world
           = (Some err,
              mkWorld (snd made) (log ++ [EvMkdirAll d; EvCreate out])))
  \/ (fst made = None
      /\ is_dir (snd made) k = false
      /\ save_part host r folder part world
         = (p_err part,
            mkWorld (<[k := File (p_data part)]> (snd made))
                    (log ++ saved_events d out part))).
Proof.
  intros out d k made log.
  unfold save_part. fold out. fold d.
  unfold os_MkdirAll, bind, emit, get_fs, put_fs, ret.
  cbn [fst snd w_fs w_log]. fold made.
  destruct (fst made) as [err|] eqn:Hmade.
  { left. exists err. split; reflexivity. }
  right.
  unfold os_Create, bind, emit, get_fs, put_fs, ret.
  cbn [fst snd w_fs w_log]. fold k.
  destruct (create_error (snd made) k) as [why|] eqn:Hc.
  { left. eexists. split; [reflexivity|].
    rewrite <- !app_assoc. reflexivity. }
  right. split; [reflexivity|]. split.
  - unfold create_error in Hc.
    destruct (is_dir (snd made) k); [discriminate Hc|reflexivity].
  - unfold io_Copy, out_Close, bind, emit, get_fs, put_fs, ret.
    cbn [fst snd w_fs w_log o_name o_key]. rewrite lookup_insert_eq.
    rewrite insert_insert_eq. cbn [app].
    unfold saved_events. rewrite <- !app_assoc. reflexivity.
Qed.

Lemma last_json_encode w v : last_json (json_Encode w v) = Some v.
Proof.
  unfold last_json, json_Encode, write. cbn [rw_body].
  rewrite last_snoc. reflexivity.
Qed.

Lemma iteration_skips r folder part world :
  is_file_part part = false ->
  iteration host r folder part world
  = (option_map (fun err => "multipart: NextPart: " ++ err) (p_err part),
     world).
Proof. intros H. unfold iteration. rewrite H. reflexivity. Qed.

Lemma iteration_saves r folder part world :
  is_file_part part = true ->
  iteration host r folder part world = save_part host r folder part world.
Proof. intros H. unfold iteration. rewrite H. reflexivity. Qed.






Lemma handleUpload_loop w r world folder reader :
  Method r = "POST" ->
  Query_Get r "folder" = folder ->
  folder <> "" ->
  Multipart r = Some reader ->
  handleUpload host w r world = upload_loop host w r folder reader world.
Proof.
  intros Hm Hq Hne Hr. unfold handleUpload.
  rewrite Hm, Hq, Hr, (eqb_empty_false _ Hne). reflexivity.
Qed.



Lemma effective_name_hint r part rel :
  Query_Get r "relativePath" = rel -> rel <> "" ->
  effective_name r part = rel.
Proof.
  intros Hq Hne. unfold effective_name.
  rewrite Hq, (eqb_empty_false _ Hne). reflexivity.
Qed.

(** A file part that is saved: the calls, the file and the directories
    above it. *)
Lemma save_part_saved r folder part world :
  let out := filepath.Join [folder; effective_name r part] in
  let d := filepath.Dir out in
  let res := save_part host r folder part world in
  fst res = None ->
  w_log (snd res) = (w_log world ++ saved_events d out part)%list
  /\ w_fs (snd res) !! resolve host out = Some (File (p_data part))
  /\ (forall a, In a (ancestors (resolve host d)) ->
                w_fs (snd res) !! a = Some Dir).
Proof.
  intros out d res Hok. subst res.
  pose proof (save_part_cases r folder part world) as Hc. cbv zeta in Hc.
  fold out in Hc. fold d in Hc.
  destruct Hc as [(err & _ & Hrun)|[(err & _ & Hrun)|(Hmade & Hk & Hrun)]];
    rewrite Hrun in Hok |- *; cbn [fst snd w_fs w_log] in Hok |- *;
    try discriminate Hok.
  split; [reflexivity|]. split; [apply lookup_insert_eq|].
  intros a Ha.
  pose proof (mkdir_chain_makes _ (w_fs world) a Hmade Ha) as Hdir.
  rewrite lookup_insert_ne; [exact Hdir|].
  intros <-. unfold is_dir in Hk. rewrite Hdir in Hk.
  rewrite orb_true_r in Hk. discriminate Hk.
Qed.

Section Hint.

(** An upload with a [relativePath] hint [rel] into [folder]. *)
Variables (w : ResponseWriter) (r : Request) (folder rel : string).
Hypothesis Hrel : Query_Get r "relativePath" = rel.
Hypothesis Hhint : rel <> "".

Let out := filepath.Join [folder; rel].
Let d := filepath.Dir out.

Lemma upload_loop_trace reader world :
  exists evs,
    w_log (snd (upload_loop host w r folder reader world))
    = (w_log world ++ evs)%list
    /\ upload_trace d out evs.
Proof.
  revert world. induction reader as [|err|p rest IH]; intros world;
    cbn [upload_loop].
  - exists []. rewrite app_nil_r. split; [reflexivity|constructor].
  - exists []. rewrite app_nil_r. split; [reflexivity|constructor].
  - unfold bind. destruct (is_file_part p) eqn:Hf.
    + rewrite (iteration_saves _ _ _ _ Hf).
      pose proof (save_part_cases r folder p world) as Hc.
      cbv zeta in Hc.
      rewrite (effective_name_hint r p rel Hrel Hhint) in Hc.
      fold out in Hc. fold d in Hc.
      destruct Hc as [(err & _ & ->)|[(err & _ & ->)|(_ & _ & ->)]].
      * exists [EvMkdirAll d]. split; [reflexivity|constructor].
      * exists [EvMkdirAll d; EvCreate out].
        split; [reflexivity|constructor].
      * destruct (p_err p) as [err|].
        -- exists (saved_events d out p).
           split; [reflexivity|]. apply trace_saved. constructor.
        -- destruct (IH (mkWorld
              (<[resolve host out := File (p_data p)]>
                 (snd (mkdir_chain (ancestors (resolve host d))
                         (w_fs world))))
              (w_log world ++ saved_events d out p)))
             as (evs & Hlog & Htr).
           exists (saved_events d out p ++ evs)%list. split.
           ++ rewrite Hlog. cbn [w_log]. rewrite app_assoc. reflexivity.
           ++ apply trace_saved. exact Htr.
    + rewrite (iteration_skips _ _ _ _ Hf).
      destruct (p_err p) as [err|]; cbn [option_map].
      * exists []. rewrite app_nil_r. split; [reflexivity|constructor].
      * apply IH.
Qed.

(** An upload that reports success saved every file part, all of them
    to [out]; the file holds the bytes of the last one. *)
Lemma upload_loop_success reader world :
  let res := upload_loop host w r folder reader world in
  last_json (fst res) = Some success ->
  w_log (snd res)
  = (w_log world ++ flat_map (saved_events d out) (file_parts reader))%list
  /\ match last (file_parts reader) with
     | Some p =>
         w_fs (snd res) !! resolve host out = Some (File (p_data p))
         /\ (forall a, In a (ancestors (resolve host d)) ->
                       w_fs (snd res) !! a = Some Dir)
     | None => w_fs (snd res) = w_fs world
     end.
Proof.
  revert world. induction reader as [|err|p rest IH]; intros world res Hok;
    subst res; cbn [upload_loop] in *.
  - cbn. rewrite app_nil_r. split; reflexivity.
  - cbn [ret fst] in Hok. rewrite last_json_encode in Hok.
    discriminate Hok.
  - unfold bind in *. unfold file_parts. cbn [parts_of List.filter].
    fold (file_parts rest).
    destruct (is_file_part p) eqn:Hf.
    + rewrite (iteration_saves _ _ _ _ Hf) in Hok |- *.
      pose proof (save_part_saved r folder p world) as Hs.
      cbv zeta in Hs.
      rewrite (effective_name_hint r p rel Hrel Hhint) in Hs.
      fold out in Hs. fold d in Hs.
      destruct (save_part host r folder p world) as [[e|] w1].
      { cbn [ret fst] in Hok. rewrite last_json_encode in Hok.
        discriminate Hok. }
      cbn [fst snd] in Hs. destruct (Hs eq_refl) as (Hlog & Hfile & Hdirs).
      destruct (IH w1 Hok) as [Hlog' Hlast].
      split.
      * rewrite Hlog', Hlog. cbn [flat_map]. rewrite app_assoc.
        reflexivity.
      * rewrite last_cons. destruct (last (file_parts rest)) as [q|].
        -- exact Hlast.
        -- rewrite Hlast. split; assumption.
    + rewrite (iteration_skips _ _ _ _ Hf) in Hok |- *.
      destruct (p_err p) as [err|]; cbn [option_map] in *.
      { cbn [ret fst] in Hok. rewrite last_json_encode in Hok.
        discriminate Hok. }
      apply IH. exact Hok.
Qed.

End Hint.

(** C6. With a [relativePath] hint every file part goes to the folder
    joined with the hint, whatever file name the part declares: the calls
    of the request are turns that make the directories above that path
    and then create the file there; a part that is saved leaves the file
    with its bytes and every directory above it in place, and so does a
    request that reports success. *)
Theorem upload_relative_path w r world folder rel reader :
  Method r = "POST" ->
  Query_Get r "folder" = folder ->
  folder <> "" ->
  Query_Get r "relativePath" = rel ->
  rel <> "" ->
  Multipart r = Some reader ->
  let out := filepath.Join [folder; rel] in
  let d := filepath.Dir out in
  let res := handleUpload host w r world in
  (forall part, filepath.Join [folder; effective_name r part] = out)
  /\ (exists evs,
        w_log (snd res) = (w_log world ++ evs)%list
        /\ upload_trace d out evs)
  /\ (forall part w0,
        is_file_part part = true ->
        fst (iteration host r folder part w0) = None ->
        w_log (snd (iteration host r folder part w0))
        = (w_log w0 ++ [EvMkdirAll d; EvCreate out;
                        EvWrite out (length (p_data part)); EvClose out])%list
        /\ w_fs (snd (iteration host r folder part w0)) !! resolve host out
           = Some (File (p_data part))
        /\ (forall a, In a (ancestors (resolve host d)) ->
               w_fs (snd (iteration host r folder part w0)) !! a = Some Dir))
  /\ (last_json (fst res) = Some success ->
      forall p, last (file_parts reader) = Some p ->
        w_fs (snd res) !! resolve host out = Some (File (p_data p))
        /\ (forall a, In a (ancestors (resolve host d)) ->
               w_fs (snd res) !! a = Some Dir)).
Proof.
  intros Hm Hq Hne Hrel Hhint Hr out d res. subst res.
  rewrite (handleUpload_loop w r world folder reader Hm Hq Hne Hr).
  split; [|split; [|split]].
  - intros part. rewrite (effective_name_hint r part rel Hrel Hhint).
    reflexivity.
  - apply (upload_loop_trace w r folder rel Hrel Hhint).
  - intros part w0 Hf Hok. rewrite (iteration_saves _ _ _ _ Hf) in Hok |- *.
    pose proof (save_part_saved r folder part w0) as Hs. cbv zeta in Hs.
    rewrite (effective_name_hint r part rel Hrel Hhint) in Hs.
    apply Hs. exact Hok.
  - intros Hok p Hp.
    destruct (upload_loop_success w r folder rel Hrel Hhint reader world Hok)
      as [_ Hlast].
    rewrite Hp in Hlast. exact Hlast.
Qed.

(** C9. With a [relativePath] hint every file part of the request is
    sent to the one path the hint gives: the calls of the request create
    and write that path only, and a part that is saved leaves exactly its
    own bytes there, whatever the file held before.  So a request that
    reports success has saved each of its file parts, in order, to that
    path, and the file holds the bytes of the last file part, also when
    other file parts came before it. *)
Theorem upload_last_part_wins w r world folder rel reader :
  Method r = "POST" ->
  Query_Get r "folder" = folder ->
  folder <> "" ->
  Query_Get r "relativePath" = rel ->
  rel <> "" ->
  Multipart r = Some reader ->
  let out := filepath.Join [folder; rel] in
  let d := filepath.Dir out in
  let res := handleUpload host w r world in
  (exists evs,
      w_log (snd res) = (w_log world ++ evs)%list
      /\ upload_trace d out evs)
  /\ (forall part w0,
        is_file_part part = true ->
        fst (iteration host r folder part w0) = None ->
        w_fs (snd (iteration host r folder part w0)) !! resolve host out
        = Some (File (p_data part)))
  /\ (last_json (fst res) = Some success ->
      w_log (snd res)
      = (w_log world
           ++ flat_map (saved_events d out) (file_parts reader))%list
      /\ (forall p, last (file_parts reader) = Some p ->
            w_fs (snd res) !! resolve host out = Some (File (p_data p)))
      /\ (forall first others final,
            file_parts reader = (first :: others ++ [final])%list ->
            w_fs (snd res) !! resolve host out
            = Some (File (p_data final)))).
Proof.
  intros Hm Hq Hne Hrel Hhint Hr out d res. subst res.
  rewrite (handleUpload_loop w r world folder reader Hm Hq Hne Hr).
  split; [|split].
  - apply (upload_loop_trace w r folder rel Hrel Hhint).
  - intros part w0 Hf Hok. rewrite (iteration_saves _ _ _ _ Hf) in Hok |- *.
    pose proof (save_part_saved r folder part w0) as Hs. cbv zeta in Hs.
    rewrite (effective_name_hint r part rel Hrel Hhint) in Hs.
    apply Hs. exact Hok.
  - intros Hok.
    destruct (upload_loop_success w r folder rel Hrel Hhint reader world Hok)
      as [Hlog Hlast].
    assert (Hwins : forall p, last (file_parts reader) = Some p ->
              w_fs (snd (upload_loop host w r folder reader world))
                !! resolve host out = Some (File (p_data p))).
    { intros p Hp. rewrite Hp in Hlast. apply Hlast. }
    split; [exact Hlog|]. split; [exact Hwins|].
    intros first others final Hparts. apply Hwins. rewrite Hparts.
    change (first :: others ++ [final])%list
      with ((first :: others) ++ [final])%list.
    apply last_snoc.
Qed.

(** ** Extensions in upper case *)

Lemma lower_byte_idem c :
  gostrings.lower_byte (gostrings.lower_byte c) = gostrings.lower_byte c.
Proof. destruct c as [[] [] [] [] [] [] [] []]; reflexivity. Qed.

Lemma lower_byte_ascii c :
  (gostrings.code (gostrings.lower_byte c) <? 128)
  = (gostrings.code c <? 128).
Proof. destruct c as [[] [] [] [] [] [] [] []]; reflexivity. Qed.

Lemma lower_bytes_idem s :
  gostrings.lower_bytes (gostrings.lower_bytes s) = gostrings.lower_bytes s.
Proof.
  induction s as [|c s IH]; cbn [gostrings.lower_bytes]; [reflexivity|].
  rewrite lower_byte_idem, IH. reflexivity.
Qed.

Lemma lower_bytes_ascii s :
  gostrings.isASCII (gostrings.lower_bytes s) = gostrings.isASCII s.
Proof.
  induction s as [|c s IH];
    cbn [gostrings.lower_bytes gostrings.isASCII]; [reflexivity|].
  rewrite lower_byte_ascii, IH. reflexivity.
Qed.

(** An ASCII extension and its lower-case form are dispatched alike. *)
Lemma ToLower_lower ext :
  gostrings.isASCII ext = true ->
  ToLower host ext = gostrings.lower_bytes ext
  /\ ToLower host (gostrings.lower_bytes ext) = gostrings.lower_bytes ext.
Proof.
  intros Ha. unfold ToLower, gostrings.ToLower.
  rewrite lower_bytes_ascii, Ha, lower_bytes_idem. split; reflexivity.
Qed.

(** The view of a regular file depends on its path through the
    lower-cased extension only, and for a PDF through the path quoted in
    the content. *)
Lemma view_same_extension w r1 r2 world1 world2 p1 p2 data :
  Query_Get r1 "path" = p1 -> p1 <> "" ->
  Query_Get r2 "path" = p2 -> p2 <> "" ->
  w_fs world1 !! resolve host p1 = Some (File data) ->
  w_fs world2 !! resolve host p2 = Some (File data) ->
  view_ext host p1 = view_ext host p2 ->
  let a := fst (handleFileView host w r1 world1) in
  let b := fst (handleFileView host w r2 world2) in
  view_kind a = view_kind b
  /\ reply_field "language" a = reply_field "language" b
  /\ rw_status a = rw_status b
  /\ (view_kind a <> Some "pdf" -> a = b).
Proof.
  intros Hq1 Hne1 Hq2 Hne2 Hn1 Hn2 Hext a b. subst a b.
  rewrite (view_found w r1 world1 p1 (File data) Hq1 Hne1 Hn1).
  rewrite (view_found w r2 world2 p2 (File data) Hq2 Hne2 Hn2).
  cbv zeta. cbn [fst].
  destruct (Z_le_gt_dec (Z.of_nat (length data)) maxView) as [Hle|Hgt].
  - pose proof (viewOpened_file w r1 p1 data (w_fs world1)
                  (w_log world1 ++ [EvOpen p1]) Hle) as H1.
    pose proof (viewOpened_file w r2 p2 data (w_fs world2)
                  (w_log world2 ++ [EvOpen p2]) Hle) as H2.
    cbv zeta in H1, H2. unfold view_ext in Hext. rewrite Hext in H1.
    destruct H1 as [[A1 ->]|[(A1 & A2 & ->)|[(A1 & A2 & A3 & A4 & ->)
                   |[(A1 & A2 & A3 & A4 & ->)|(A1 & A2 & A3 & ->)]]]];
    destruct H2 as [[B1 ->]|[(B1 & B2 & ->)|[(B1 & B2 & B3 & B4 & ->)
                   |[(B1 & B2 & B3 & B4 & ->)|(B1 & B2 & B3 & ->)]]]];
      try congruence;
      cbn [fst]; rewrite !view_kind_encode, !reply_field_encode;
      (split; [reflexivity|]); (split; [reflexivity|]);
      (split; [reflexivity|]); intros Hk;
      try reflexivity; exfalso; apply Hk; reflexivity.
  - rewrite !(viewOpened_oversize w _ _ (File data))
      by (cbn [node_size]; lia).
    cbn [fst]. repeat split.
Qed.

(** C10. A path whose extension is written in upper case is viewed like
    a path with the extension in lower case: the extension dispatched on
    is the lower-case one, and for the same file the kind, the language
    and the status agree; so does the whole reply unless it is the PDF
    reply, which quotes the path. *)
Theorem extension_case_insensitive w r1 r2 world1 world2 p1 p2 data :
  Query_Get r1 "path" = p1 -> p1 <> "" ->
  Query_Get r2 "path" = p2 -> p2 <> "" ->
  w_fs world1 !! resolve host p1 = Some (File data) ->
  w_fs world2 !! resolve host p2 = Some (File data) ->
  gostrings.isASCII (filepath.Ext p1) = true ->
  filepath.Ext p2 = gostrings.lower_bytes (filepath.Ext p1) ->
  let a := fst (handleFileView host w r1 world1) in
  let b := fst (handleFileView host w r2 world2) in
  view_ext host p1 = filepath.Ext p2
  /\ view_kind a = view_kind b
  /\ reply_field "language" a = reply_field "language" b
  /\ rw_status a = rw_status b
  /\ (view_kind a <> Some "pdf" -> a = b).
Proof.
  intros Hq1 Hne1 Hq2 Hne2 Hn1 Hn2 Hascii Hlow a b.
  destruct (ToLower_lower (filepath.Ext p1) Hascii) as [Hl1 Hl2].
  assert (Hext : view_ext host p1 = view_ext host p2).
  { unfold view_ext. rewrite Hlow, Hl1, Hl2. reflexivity. }
  split.
  - unfold view_ext. rewrite Hlow. exact Hl1.
  - apply (view_same_extension w r1 r2 world1 world2 p1 p2 data);
      assumption.
Qed.

End Properties.

(** * The scenarios on the Linux host *)

Lemma letters_length (n : Z) :
  0 <= n -> Z.of_nat (length (Linux.letters n)) = n.
Proof.
  intros Hn. unfold Linux.letters. rewrite length_replicate. lia.
Qed.

(** The view of a file of 50 MiB + 1 byte is the [error] reply; a file of
    50 MiB - 1 byte is classified. *)
Lemma oversize_guard_witness :
  view_kind (fst (handleFileView Linux.host new_writer
                    (Linux.get "/data/a/big.bin") Linux.big_world))
  = Some "error"
  /\ view_kind (fst (handleFileView Linux.host new_writer
                       (Linux.get "/data/a/large.bin") Linux.large_world))
     <> Some "error".
Proof.
  split.
  - destruct (oversize_guard Linux.host new_writer
                (Linux.get "/data/a/big.bin") Linux.big_world
                "/data/a/big.bin" (File Linux.big)) as (_ & _ & _ & Hover).
    + reflexivity.
    + discriminate.
    + change (resolve Linux.host "/data/a/big.bin") with "/data/a/big.bin".
      apply lookup_singleton_eq.
    + apply (Hover Linux.big eq_refl). apply letters_length. lia.
  - destruct (oversize_guard Linux.host new_writer
                (Linux.get "/data/a/large.bin") Linux.large_world
                "/data/a/large.bin" (File Linux.large)) as (_ & _ & Hunder & _).
    + reflexivity.
    + discriminate.
    + change (resolve Linux.host "/data/a/large.bin")
        with "/data/a/large.bin".
      apply lookup_singleton_eq.
    + apply (Hunder Linux.large eq_refl). apply letters_length. lia.
Defined.

(** A file that starts with a zero byte and has no particular extension
    is [binary]. *)
Lemma binary_sniff_witness :
  view_kind (fst (handleFileView Linux.host new_writer
                    (Linux.get "/data/a/blob.dat") Linux.world0))
  = Some "binary".
Proof.
  destruct (binary_sniff Linux.host new_writer
              (Linux.get "/data/a/blob.dat") Linux.world0 "/data/a/blob.dat"
              (x00 :: Linux.text "payload"))
    as (_ & _ & Hzero & _).
  - reflexivity.
  - discriminate.
  - vm_compute. reflexivity.
  - vm_compute. discriminate.
  - apply Hzero; vm_compute; reflexivity.
Defined.

(** The same bytes under the name [zero.pdf]: the first byte is zero and
    the kind is [pdf], not [binary]. *)
Lemma zero_byte_pdf_is_not_binary :
  w_fs Linux.world0 !! "/data/a/zero.pdf"
  = Some (File (x00 :: Linux.text "%PDF-1.4"))
  /\ view_kind (fst (handleFileView Linux.host new_writer
                       (Linux.get "/data/a/zero.pdf") Linux.world0))
     = Some "pdf"
  /\ view_kind (fst (handleFileView Linux.host new_writer
                       (Linux.get "/data/a/zero.pdf") Linux.world0))
     <> Some "binary".
Proof.
  split; [vm_compute; reflexivity|].
  split; [vm_compute; reflexivity|].
  vm_compute. discriminate.
Qed.

(** A file of letters with the extension [.txt] is [text]. *)
Lemma letters_are_text (n : Z) (path : string) (world : World) :
  0 <= n <= 50 * 1024 * 1024 ->
  path <> "" ->
  view_ext Linux.host path = ".txt" ->
  w_fs world !! resolve Linux.host path = Some (File (Linux.letters n)) ->
  view_kind (fst (handleFileView Linux.host new_writer (Linux.get path) world))
  = Some "text".
Proof.
  intros Hn Hne Hext Hlook.
  rewrite (view_file_kind Linux.host new_writer (Linux.get path) world path
             (Linux.letters n) eq_refl Hne Hlook)
    by (rewrite letters_length; unfold maxView; lia).
  cbv zeta. rewrite Hext.
  assert (Hsniff : sniff (take 800 (Linux.letters n)) = false).
  { destruct (sniff (take 800 (Linux.letters n))) eqn:E; [|reflexivity].
    apply sniff_true_iff in E. destruct E as (b & Hb & Hc).
    apply elem_of_take in Hb. destruct Hb as (i & Hi & _).
    unfold Linux.letters in Hi. apply lookup_replicate in Hi.
    destruct Hi as [-> _]. unfold control_byte in Hc. vm_compute in Hc.
    destruct Hc as [Hc|[Hc _]]; discriminate Hc. }
  rewrite Hsniff. reflexivity.
Qed.

(** A text file of exactly 1 MiB is returned whole; one of 1 MiB + 1 byte
    is cut after 1 MiB and the notice follows. *)
Lemma text_limit_witness :
  reply_field "content"
    (fst (handleFileView Linux.host new_writer
            (Linux.get "/data/a/exact.txt") Linux.exact_world))
  = Some (gostrings.of_bytes Linux.exact)
  /\ reply_field "content"
       (fst (handleFileView Linux.host new_writer
               (Linux.get "/data/a/longer.txt") Linux.longer_world))
     = Some (gostrings.of_bytes
               (take (Z.to_nat (1 * 1024 * 1024)) Linux.longer)
             ++ truncated).
Proof.
  split.
  - destruct (text_limit Linux.host new_writer
                (Linux.get "/data/a/exact.txt") Linux.exact_world
                "/data/a/exact.txt" Linux.exact)
      as (_ & _ & _ & Hexact & _).
    + reflexivity.
    + discriminate.
    + change (resolve Linux.host "/data/a/exact.txt")
        with "/data/a/exact.txt".
      apply lookup_singleton_eq.
    + apply (letters_are_text (1 * 1024 * 1024)); try lia; try discriminate.
      * reflexivity.
      * change (resolve Linux.host "/data/a/exact.txt")
          with "/data/a/exact.txt".
        apply lookup_singleton_eq.
    + apply Hexact. apply letters_length. lia.
  - destruct (text_limit Linux.host new_writer
                (Linux.get "/data/a/longer.txt") Linux.longer_world
                "/data/a/longer.txt" Linux.longer)
      as (_ & _ & _ & _ & Hlonger).
    + reflexivity.
    + discriminate.
    + change (resolve Linux.host "/data/a/longer.txt")
        with "/data/a/longer.txt".
      apply lookup_singleton_eq.
    + apply (letters_are_text (1 * 1024 * 1024 + 1)); try lia;
        try discriminate.
      * reflexivity.
      * change (resolve Linux.host "/data/a/longer.txt")
          with "/data/a/longer.txt".
        apply lookup_singleton_eq.
    + apply Hlonger. unfold Linux.longer. rewrite letters_length; lia.
Defined.

(** A view without [path] is answered 400. *)
Lemma missing_parameter_witness :
  rw_status (fst (handleFileView Linux.host new_writer
                    (mkRequest "GET" [] None) Linux.world0))
  = Some 400.
Proof.
  destruct (missing_parameter Linux.host new_writer (mkRequest "GET" [] None)
              Linux.world0) as [Hpath _].
  - reflexivity.
  - apply (Hpath eq_refl (handleFileView Linux.host)). left. reflexivity.
Defined.

(** An upload without [folder] is answered 200, which is not a status of
    the 400 class. *)
Lemma upload_without_folder_is_200 :
  rw_status (fst (handleUpload Linux.host new_writer Linux.upload_no_folder
                    Linux.world0))
  = Some 200
  /\ ~ client_error
        (rw_status (fst (handleUpload Linux.host new_writer
                           Linux.upload_no_folder Linux.world0))).
Proof.
  split; [vm_compute; reflexivity|].
  intros (code & Hcode & Hrange). vm_compute in Hcode.
  injection Hcode as <-. lia.
Qed.


(** Scenario 4: with [relativePath=sub/dir/x.txt] and [folder=/data/a] the
    upload leaves a regular file at [/data/a/sub/dir/x.txt] and the two
    directories above it. *)
Lemma upload_relative_path_witness :
  let res := handleUpload Linux.host new_writer Linux.upload_hint
               Linux.world0 in
  w_fs Linux.world0 !! "/data/a/sub" = None
  /\ w_fs (snd res) !! "/data/a/sub/dir/x.txt"
     = Some (File (Linux.text "second"))
  /\ w_fs (snd res) !! "/data/a/sub" = Some Dir
  /\ w_fs (snd res) !! "/data/a/sub/dir" = Some Dir.
Proof.
  destruct (upload_relative_path Linux.host new_writer Linux.upload_hint
              Linux.world0 "/data/a" "sub/dir/x.txt"
              (feed [Linux.first_part; Linux.field_part; Linux.second_part]
                 EOF))
    as (_ & _ & _ & Hdone).
  - reflexivity.
  - reflexivity.
  - discriminate.
  - reflexivity.
  - discriminate.
  - reflexivity.
  - cbv zeta in Hdone |- *.
    assert (Hok : last_json
                    (fst (handleUpload Linux.host new_writer Linux.upload_hint
                            Linux.world0)) = Some success)
      by (vm_compute; reflexivity).
    destruct (Hdone Hok Linux.second_part eq_refl) as [Hfile Hdirs].
    split; [vm_compute; reflexivity|].
    split; [exact Hfile|].
    split; apply Hdirs; vm_compute; tauto.
Defined.

(** Scenario 1: the root listing of [/data/a] and [/data/b]. *)
Lemma tree_roots_witness :
  exists v,
    handleTree Linux.host Linux.srv new_writer (mkRequest "GET" [] None)
      Linux.world0
    = (json_Encode new_writer v, Linux.world0)
    /\ last_json (json_Encode new_writer v) = Some v
    /\ Forall2 (root_entry_of Linux.host) ["/data/a"; "/data/b"] (entries_of v)
    /\ length (entries_of v) = 2%nat.
Proof.
  apply (tree_roots Linux.host Linux.srv new_writer (mkRequest "GET" [] None)
           Linux.world0).
  left. reflexivity.
Defined.

(** [http.ServeFile] of the Linux host is as [serves_files] says. *)
Lemma Linux_serves_files : serves_files Linux.host.
Proof.
  split.
  - intros w r name world data Hn.
    change (http_ServeFile Linux.host) with Linux.ServeFile.
    change (resolve Linux.host name) with (filepath.Abs Linux.wd name) in Hn.
    unfold Linux.ServeFile, bind, get_fs, ret. cbn [fst snd]. rewrite Hn.
    cbn [fst write rw_header rw_status]. split; [auto|reflexivity].
  - intros w r name world Hn.
    change (http_ServeFile Linux.host) with Linux.ServeFile.
    change (resolve Linux.host name) with (filepath.Abs Linux.wd name) in Hn.
    unfold Linux.ServeFile, bind, get_fs, ret. cbn [fst snd]. rewrite Hn.
    reflexivity.
Qed.

(** Scenario 5: the download of [/data/a/report.pdf] is answered with
    status 200 under the two headers. *)
Lemma download_headers_witness :
  let sent := fst (handleDownload Linux.host new_writer
                     (Linux.get "/data/a/report.pdf") Linux.world0) in
  rw_status sent = Some 200
  /\ rw_header sent !! "Content-Disposition"
     = Some "attachment; filename=report.pdf"
  /\ rw_header sent !! "Content-Type" = Some "application/pdf".
Proof.
  destruct (download_headers Linux.host new_writer
              (Linux.get "/data/a/report.pdf") Linux.world0
              "/data/a/report.pdf")
    as (_ & Hfile & _).
  - reflexivity.
  - discriminate.
  - exact Linux_serves_files.
  - destruct (Hfile (Linux.text "%PDF-1.4")) as (Hcd & Hct & _ & Hstatus).
    + vm_compute. reflexivity.
    + cbv zeta. split; [exact Hstatus|]. split; [exact Hcd|].
      apply Hct. vm_compute. discriminate.
Defined.

(** The download of a path that names nothing: the response does not
    carry the type of the extension ([application/pdf] in the table) but
    the one of the error reply. *)
Lemma download_of_missing_file_is_text_plain :
  let sent := fst (handleDownload Linux.host new_writer
                     (Linux.get "/data/a/nope.pdf") Linux.world0) in
  Linux.world0.(w_fs) !! "/data/a/nope.pdf" = None
  /\ mime_TypeByExtension Linux.host
       (filepath.Ext (filepath.Base "/data/a/nope.pdf"))
     = "application/pdf"
  /\ rw_header sent !! "Content-Type" = Some "text/plain; charset=utf-8"
  /\ rw_header sent !! "Content-Type" <> Some "application/pdf"
  /\ rw_status sent = Some 404.
Proof.
  cbv zeta. split; [vm_compute; reflexivity|].
  split; [vm_compute; reflexivity|].
  assert (Hct : rw_header
                  (fst (handleDownload Linux.host new_writer
                          (Linux.get "/data/a/nope.pdf") Linux.world0))
                !! "Content-Type"
                = Some "text/plain; charset=utf-8")
    by (vm_compute; reflexivity).
  split; [exact Hct|]. split; [rewrite Hct; discriminate|].
  vm_compute. reflexivity.
Qed.

(** Two files sent with one hint: the file holds the bytes of the second. *)
Lemma upload_last_part_wins_witness :
  w_fs (snd (handleUpload Linux.host new_writer Linux.upload_hint
               Linux.world0)) !! "/data/a/sub/dir/x.txt"
  = Some (File (Linux.text "second")).
Proof.
  destruct (upload_last_part_wins Linux.host new_writer Linux.upload_hint
              Linux.world0 "/data/a" "sub/dir/x.txt"
              (feed [Linux.first_part; Linux.field_part; Linux.second_part]
                 EOF))
    as (_ & _ & Hdone).
  - reflexivity.
  - reflexivity.
  - discriminate.
  - reflexivity.
  - discriminate.
  - reflexivity.
  - destruct Hdone as (_ & _ & Hwins).
    + vm_compute. reflexivity.
    + apply (Hwins Linux.first_part [] Linux.second_part). reflexivity.
Defined.

(** [MAIN.GO] is viewed like [main.go]. *)
Lemma extension_case_insensitive_witness :
  let a := fst (handleFileView Linux.host new_writer
                  (Linux.get "/data/a/MAIN.GO") Linux.world0) in
  let b := fst (handleFileView Linux.host new_writer
                  (Linux.get "/data/a/main.go") Linux.world0) in
  view_ext Linux.host "/data/a/MAIN.GO" = ".go"
  /\ view_kind a = view_kind b
  /\ reply_field "language" a = reply_field "language" b
  /\ rw_status a = rw_status b
  /\ (view_kind a <> Some "pdf" -> a = b).
Proof.
  apply (extension_case_insensitive Linux.host new_writer
           (Linux.get "/data/a/MAIN.GO") (Linux.get "/data/a/main.go")
           Linux.world0 Linux.world0 "/data/a/MAIN.GO" "/data/a/main.go"
           (Linux.text "package main")).
  - reflexivity.
  - discriminate.
  - reflexivity.
  - discriminate.
  - vm_compute. reflexivity.
  - vm_compute. reflexivity.
  - vm_compute. reflexivity.
  - vm_compute. reflexivity.
Defined.

(** ** The scenarios of the specification, run *)

Example scenario_markdown :
  rw_body (fst (handleFileView Linux.host new_writer
                  (Linux.get "/data/a/readme.md") Linux.world0))
  = [Json (string_map [("type", "markdown"); ("content", "# Title")])].
Proof. vm_compute. reflexivity. Qed.

Example scenario_upload_plain :
  let r := Linux.post [("folder", "/data/a")] [Linux.first_part] EOF in
  let res := handleUpload Linux.host new_writer r Linux.world0 in
  rw_body (fst res) = [Json success]
  /\ w_fs (snd res) !! "/data/a/x.txt" = Some (File (Linux.text "first"))
  /\ w_log (snd res)
     = [EvMkdirAll "/data/a"; EvCreate "/data/a/x.txt";
        EvWrite "/data/a/x.txt" 5; EvClose "/data/a/x.txt"].
Proof. vm_compute. repeat split. Qed.

Example scenario_download :
  let res := handleDownload Linux.host new_writer
               (Linux.get "/data/a/report.pdf") Linux.world0 in
  rw_status (fst res) = Some 200
  /\ rw_header (fst res) !! "Content-Disposition"
     = Some "attachment; filename=report.pdf"
  /\ rw_header (fst res) !! "Content-Type" = Some "application/pdf"
  /\ rw_body (fst res) = [Bytes (Linux.text "%PDF-1.4")].
Proof. vm_compute. repeat split. Qed.

Example scenario_upper_case :
  view_kind (fst (handleFileView Linux.host new_writer
                    (Linux.get "/data/a/MAIN.GO") Linux.world0))
  = Some "text"
  /\ reply_field "language"
       (fst (handleFileView Linux.host new_writer
               (Linux.get "/data/a/MAIN.GO") Linux.world0))
     = Some "go"
  /\ view_ext Linux.host "/x/REPORT.PDF" = ".pdf"
  /\ view_ext Linux.host "/x/README.MD" = ".md".
Proof. vm_compute. repeat split. Qed.

Example scenario_paths :
  filepath.Clean "/data//a/./b/../c/" = "/data/a/c"
  /\ filepath.Clean "../../a/.." = "../.."
  /\ filepath.Clean "/../a" = "/a"
  /\ filepath.Clean "" = "."
  /\ filepath.Join ["/data/a"; "sub/dir/x.txt"] = "/data/a/sub/dir/x.txt"
  /\ filepath.Dir "/data/a/sub/dir/x.txt" = "/data/a/sub/dir"
  /\ filepath.Dir "x.txt" = "."
  /\ filepath.Base "/data/a/" = "a"
  /\ filepath.Base "" = "."
  /\ filepath.Base "///" = "/"
  /\ filepath.Ext "/a.b/c" = ""
  /\ filepath.Ext "/a.b/c.tar.GZ" = ".GZ".
Proof. vm_compute. repeat split. Qed.

Example scenario_tree_missing :
  let res := handleTree Linux.host Linux.srv new_writer
               (Linux.get "/nonexistent") Linux.world0 in
  rw_status (fst res) = Some 400
  /\ last (rw_body (fst res))
     = Some (Text ("open /nonexistent: no such file or directory"
                     ++ String "010"%char "")).
Proof. vm_compute. repeat split. Qed.

(** A file on the way to the directory, and a directory in the place of
    the file: both end the upload with the error of the call. *)
Example scenario_upload_errors :
  let below_file := Linux.post [("folder", "/data/a/notes.txt/sub")]
                      [Linux.first_part] EOF in
  let onto_dir := Linux.post [("folder", "/data"); ("relativePath", "a")]
                    [Linux.first_part] EOF in
  last_json (fst (handleUpload Linux.host new_writer below_file Linux.world0))
  = Some (failure "mkdir /data/a/notes.txt: not a directory")
  /\ w_log (snd (handleUpload Linux.host new_writer below_file Linux.world0))
     = [EvMkdirAll "/data/a/notes.txt/sub"]
  /\ last_json (fst (handleUpload Linux.host new_writer onto_dir Linux.world0))
     = Some (failure "open /data/a: is a directory")
  /\ w_log (snd (handleUpload Linux.host new_writer onto_dir Linux.world0))
     = [EvMkdirAll "/data"; EvCreate "/data/a"].
Proof. vm_compute. repeat split. Qed.

(** * Further properties of the handlers *)

Section Coverage.

Variable host : Host.

Local Arguments String.eqb : simpl never.

Ltac open_file_calls :=
  repeat (constructor; [unfold on_open_file; eauto|]); constructor.

(** ** The file view on any node *)

(** A directory within the size limit: nothing can be read from it, so
    the view ends in the PDF reply or in a read error. *)
Lemma viewOpened_dir w r path fs (log : list event) :
  dir_size host <= maxView ->
  let ext := ToLower host (filepath.Ext path) in
  let base := (log ++ [EvStat path; EvRead path 0; EvSeek path])%list in
  let res := viewOpened host w r path (mkFile path Dir 0) (mkWorld fs log) in
  (String.eqb ext ".pdf" = true /\
   res = (json_Encode w
            (string_map [("type", "pdf");
                         ("content", "/api/raw?path=" ++ Query_Get r "path")]),
          mkWorld fs base))
  \/ (String.eqb ext ".pdf" = false /\
      res = (http_Error w ("read " ++ path ++ ": is a directory") 500,
             mkWorld fs (base ++ [EvRead path 0])%list)).
Proof.
  intros Hsize ext base res. subst res base. unfold viewOpened.
  unfold f_Stat, f_Read, f_Seek0, bind, emit, ret.
  cbn [f_node f_name f_pos fst snd w_fs w_log Size node_size].
  rewrite (gtb_false _ _ Hsize).
  cbn [f_node f_name f_pos fst snd w_fs w_log Size node_size sniff].
  fold ext.
  destruct (String.eqb ext ".pdf") eqn:Hpdf.
  { left. split; [reflexivity|]. rewrite <- !app_assoc. reflexivity. }
  right. split; [reflexivity|].
  destruct (String.eqb ext ".md" || String.eqb ext ".markdown");
    unfold io_ReadAll, read_from, bind, emit, ret;
    cbn [f_node f_name fst snd w_fs w_log];
    try change (maxRead <=? 0) with false;
    cbn [f_node f_name fst snd w_fs w_log];
    rewrite <- ?app_assoc; reflexivity.
Qed.

(** Whatever the node, the part of the view between open and close leaves
    the file system as it is, only stats, reads and seeks the open file,
    and writes one chunk under status 200 or 500. *)
Lemma viewOpened_shape w r path n fs (log : list event) :
  let res := viewOpened host w r path (mkFile path n 0) (mkWorld fs log) in
  w_fs (snd res) = fs
  /\ (exists mid,
        w_log (snd res) = (log ++ mid)%list /\ Forall (on_open_file path) mid)
  /\ (exists c, rw_body (fst res) = (rw_body w ++ [c])%list)
  /\ (rw_status (fst res) = Some (default 200 (rw_status w))
      \/ (n = Dir /\ rw_status (fst res) = Some (default 500 (rw_status w)))).
Proof.
  intros res. subst res.
  destruct (Z_le_gt_dec (node_size host n) maxView) as [Hle|Hgt].
  - destruct n as [|data].
    + pose proof (viewOpened_dir w r path fs log Hle) as Hc. cbv zeta in Hc.
      destruct Hc as [[_ ->]|[_ ->]]; cbn [fst snd w_fs w_log].
      * split; [reflexivity|]. split.
        { eexists. split; [reflexivity|]. open_file_calls. }
        split; [eexists; reflexivity|]. left. reflexivity.
      * split; [reflexivity|]. split.
        { eexists. split; [rewrite <- app_assoc; reflexivity|].
          cbn [app]. open_file_calls. }
        split; [eexists; reflexivity|]. right. split; reflexivity.
    + pose proof (viewOpened_file host w r path data fs log Hle) as Hc.
      cbv zeta in Hc.
      destruct Hc as [[_ ->]|[(_ & _ & ->)|[(_ & _ & _ & _ & ->)
                     |[(_ & _ & _ & _ & ->)|(_ & _ & _ & ->)]]]];
        cbn [fst snd w_fs w_log];
        (split; [reflexivity|]);
        (split; [eexists; split;
                 [rewrite <- ?app_assoc; reflexivity
                 |cbn [app]; open_file_calls]|]);
        (split; [eexists; reflexivity|]); left; reflexivity.
  - rewrite (viewOpened_oversize host w r path n fs log) by lia.
    cbn [fst snd w_fs w_log]. split; [reflexivity|]. split.
    { eexists. split; [reflexivity|]. open_file_calls. }
    split; [eexists; reflexivity|]. left. reflexivity.
Qed.

(** X1. A file view never changes the file system.  Its calls are: none
    when the [path] parameter is missing; the failed [os.Open] alone when
    the path names nothing; otherwise the open, then only stats, reads and
    seeks of that file, then exactly one close at the end, on every way
    out of the handler. *)
Theorem view_read_only w r world :
  let path := Query_Get r "path" in
  let res := handleFileView host w r world in
  w_fs (snd res) = w_fs world
  /\ (path = "" -> snd res = world)
  /\ (path <> "" -> w_fs world !! resolve host path = None ->
      w_log (snd res) = (w_log world ++ [EvOpen path])%list)
  /\ (path <> "" -> is_Some (w_fs world !! resolve host path) ->
      exists mid,
        w_log (snd res)
        = (w_log world ++ EvOpen path :: mid ++ [EvClose path])%list
        /\ Forall (on_open_file path) mid).
Proof.
  intros path res.
  assert (Hmissing : path = "" -> snd res = world).
  { intros Hp. subst res. unfold handleFileView. fold path. rewrite Hp.
    reflexivity. }
  assert (Hnone : path <> "" -> w_fs world !! resolve host path = None ->
            snd res = mkWorld (w_fs world) (w_log world ++ [EvOpen path])).
  { intros Hne Hn. subst res. unfold handleFileView. fold path.
    rewrite (eqb_empty_false _ Hne). unfold filepath.FromSlash.
    unfold os_Open, bind, emit, get_fs, ret. cbn [fst snd w_fs w_log].
    rewrite Hn. reflexivity. }
  assert (Hsome : path <> "" -> is_Some (w_fs world !! resolve host path) ->
            w_fs (snd res) = w_fs world
            /\ exists mid,
                 w_log (snd res)
                 = (w_log world ++ EvOpen path :: mid ++ [EvClose path])%list
                 /\ Forall (on_open_file path) mid).
  { intros Hne [n Hn]. subst res.
    rewrite (view_found host w r world path n eq_refl Hne Hn). cbv zeta.
    destruct (viewOpened_shape w r path n (w_fs world)
                (w_log world ++ [EvOpen path]))
      as (Hfs & (mid & Hlog & Hmid) & _).
    cbn [fst snd w_fs w_log]. split; [exact Hfs|].
    exists mid. split; [|exact Hmid].
    rewrite Hlog, <- !app_assoc. reflexivity. }
  split.
  - destruct (String.eqb path "") eqn:Hp.
    + apply String.eqb_eq in Hp. rewrite (Hmissing Hp). reflexivity.
    + apply String.eqb_neq in Hp.
      destruct (w_fs world !! resolve host path) as [n|] eqn:Hn.
      * apply Hsome; [exact Hp|eauto].
      * rewrite (Hnone Hp eq_refl). reflexivity.
  - split; [exact Hmissing|]. split.
    + intros Hne Hn. rewrite (Hnone Hne Hn). reflexivity.
    + intros Hne Hn. apply Hsome; assumption.
Qed.

(** The view of a regular file within the size limit, at the level of
    the handler: the reply and the calls, by cases. *)
Lemma view_file_reply w r world path data :
  Query_Get r "path" = path ->
  path <> "" ->
  w_fs world !! resolve host path = Some (File data) ->
  Z.of_nat (length data) <= maxView ->
  let ext := view_ext host path in
  let head := take 800 data in
  let mimeType := mime_TypeByExtension host ext in
  let sniffing := [EvOpen path; EvStat path; EvRead path (length head);
                   EvSeek path] in
  let res := handleFileView host w r world in
  (String.eqb ext ".pdf" = true /\
   fst res = json_Encode w
               (string_map [("type", "pdf");
                            ("content", "/api/raw?path=" ++ path)]) /\
   w_log (snd res) = (w_log world ++ sniffing ++ [EvClose path])%list)
  \/ (String.eqb ext ".pdf" = false /\
      String.eqb ext ".md" || String.eqb ext ".markdown" = true /\
      fst res = json_Encode w
                  (string_map [("type", "markdown");
                               ("content", gostrings.of_bytes data)]) /\
      w_log (snd res)
      = (w_log world ++ sniffing
           ++ [EvRead path (length data); EvClose path])%list)
  \/ (String.eqb ext ".pdf" = false /\
      String.eqb ext ".md" || String.eqb ext ".markdown" = false /\
      sniff head = true /\
      gostrings.HasPrefix mimeType "image/" = true /\
      fst res = json_Encode w
                  (string_map [("type", "image");
                               ("content",
                                "data:" ++ mimeType ++ ";base64,"
                                  ++ base64_EncodeToString host data);
                               ("mime", mimeType)]) /\
      w_log (snd res)
      = (w_log world ++ sniffing
           ++ [EvRead path (length data); EvClose path])%list)
  \/ (String.eqb ext ".pdf" = false /\
      String.eqb ext ".md" || String.eqb ext ".markdown" = false /\
      sniff head = true /\
      gostrings.HasPrefix mimeType "image/" = false /\
      fst res = json_Encode w
                  (string_map [("type", "binary"); ("content", binaryNotice);
                               ("language", "")]) /\
      w_log (snd res) = (w_log world ++ sniffing ++ [EvClose path])%list)
  \/ (String.eqb ext ".pdf" = false /\
      String.eqb ext ".md" || String.eqb ext ".markdown" = false /\
      sniff head = false /\
      fst res = json_Encode w
                  (string_map
                     [("type", "text");
                      ("content",
                       if Z.of_nat (length data) >? maxRead
                       then gostrings.of_bytes (take (Z.to_nat maxRead) data)
                              ++ truncated
                       else gostrings.of_bytes (take (Z.to_nat maxRead) data));
                      ("language", extToLang ext)]) /\
      w_log (snd res)
      = (w_log world ++ sniffing
           ++ [EvRead path (length (take (Z.to_nat maxRead) data));
               EvClose path])%list).
Proof.
  intros Hq Hne Hn Hsize ext head mimeType sniffing res. subst res sniffing.
  rewrite (view_found host w r world path (File data) Hq Hne Hn). cbv zeta.
  pose proof (viewOpened_file host w r path data (w_fs world)
                (w_log world ++ [EvOpen path]) Hsize) as Hc.
  cbv zeta in Hc. rewrite Hq in Hc.
  fold (view_ext host path) in Hc. fold ext in Hc. fold head in Hc.
  fold mimeType in Hc.
  destruct Hc as [[H1 ->]|[(H1 & H2 & ->)|[(H1 & H2 & H3 & H4 & ->)
                 |[(H1 & H2 & H3 & H4 & ->)|(H1 & H2 & H3 & ->)]]]];
    cbn [fst snd w_fs w_log].
  - left. split; [exact H1|]. split; [reflexivity|].
    rewrite <- !app_assoc. reflexivity.
  - right. left. split; [exact H1|]. split; [exact H2|].
    split; [reflexivity|]. rewrite <- !app_assoc. reflexivity.
  - right. right. left. split; [exact H1|]. split; [exact H2|].
    split; [exact H3|]. split; [exact H4|]. split; [reflexivity|].
    rewrite <- !app_assoc. reflexivity.
  - right. right. right. left. split; [exact H1|]. split; [exact H2|].
    split; [exact H3|]. split; [exact H4|]. split; [reflexivity|].
    rewrite <- !app_assoc. reflexivity.
  - right. right. right. right. split; [exact H1|]. split; [exact H2|].
    split; [exact H3|]. split; [reflexivity|].
    rewrite <- !app_assoc. reflexivity.
Qed.

(** A view that is not the [error] reply is of a file within the limit. *)
Lemma view_kind_within w r world path data kind :
  Query_Get r "path" = path ->
  path <> "" ->
  w_fs world !! resolve host path = Some (File data) ->
  view_kind (fst (handleFileView host w r world)) = Some kind ->
  kind <> "error" ->
  Z.of_nat (length data) <= maxView.
Proof.
  intros Hq Hne Hn Hkind Hk.
  destruct (Z_le_gt_dec (Z.of_nat (length data)) maxView) as [Hle|Hgt];
    [exact Hle|exfalso].
  rewrite (view_found host w r world path (File data) Hq Hne Hn) in Hkind.
  cbv zeta in Hkind.
  rewrite (viewOpened_oversize host w r path (File data)) in Hkind
    by (cbn [node_size]; lia).
  cbn [fst] in Hkind. unfold oversize_reply in Hkind.
  rewrite view_kind_encode in Hkind.
  change (Some "error" = Some kind) in Hkind. congruence.
Qed.

Lemma kind_of_reply w kind rest :
  view_kind (json_Encode w (string_map (("type", kind) :: rest))) = Some kind.
Proof. rewrite view_kind_encode. reflexivity. Qed.

(** Every way out of the handler is one call of [json.Encode], with an
    object whose type is [error] or one of the five kinds, or one call of
    [http.Error], with 400 before the file is open and 500 after. *)
Lemma view_answer w r world :
  let path := Query_Get r "path" in
  let res := handleFileView host w r world in
  (exists v,
     fst res = json_Encode w v
     /\ In (view_kind (json_Encode w v)) (Some "error" :: classified))
  \/ (exists msg, fst res = http_Error w msg 400
                  /\ (path = "" \/ w_fs world !! resolve host path = None))
  \/ (exists msg, fst res = http_Error w msg 500
                  /\ path <> ""
                  /\ is_Some (w_fs world !! resolve host path)).
Proof.
  intros path res.
  destruct (String.eqb path "") eqn:Hp.
  { right. left. subst res. unfold handleFileView. fold path. rewrite Hp.
    eexists. split; [reflexivity|]. left. apply String.eqb_eq. exact Hp. }
  apply String.eqb_neq in Hp.
  destruct (w_fs world !! resolve host path) as [n|] eqn:Hn.
  2:{ right. left. subst res. unfold handleFileView. fold path.
      rewrite (eqb_empty_false _ Hp).
      unfold filepath.FromSlash, os_Open, bind, emit, get_fs, ret.
      cbn [fst snd w_fs w_log]. rewrite Hn. eexists.
      split; [reflexivity|]. right. reflexivity. }
  subst res. rewrite (view_found host w r world path n eq_refl Hp Hn).
  cbv zeta. cbn [fst].
  destruct (Z_le_gt_dec (node_size host n) maxView) as [Hle|Hgt].
  - destruct n as [|data].
    + pose proof (viewOpened_dir w r path (w_fs world)
                    (w_log world ++ [EvOpen path]) Hle) as Hc.
      cbv zeta in Hc. destruct Hc as [[_ ->]|[_ ->]]; cbn [fst].
      * left. eexists. split; [reflexivity|].
        rewrite kind_of_reply. right. left. reflexivity.
      * right. right. eexists. split; [reflexivity|]. split; eauto.
    + left.
      pose proof (viewOpened_file host w r path data (w_fs world)
                    (w_log world ++ [EvOpen path]) Hle) as Hc.
      cbv zeta in Hc.
      destruct Hc as [[_ ->]|[(_ & _ & ->)|[(_ & _ & _ & _ & ->)
                     |[(_ & _ & _ & _ & ->)|(_ & _ & _ & ->)]]]];
        cbn [fst]; eexists; (split; [reflexivity|]);
        rewrite kind_of_reply; unfold classified; cbn [In]; auto 7.
  - left. rewrite (viewOpened_oversize host w r path n) by lia.
    cbn [fst]. unfold oversize_reply. eexists. split; [reflexivity|].
    rewrite kind_of_reply. left. reflexivity.
Qed.

(** X2. A file view answers once, and the status tells the form of the
    answer: on a fresh response one chunk is added to the body; it is a
    JSON object exactly when the status is 200, and its type is then
    [error] or one of the five kinds; otherwise the status is 400 or 500
    and the chunk is the plain message of [http.Error].  A missing [path]
    parameter and a path that names nothing are answered 400; 500 is
    answered only once the file is open. *)
Theorem view_replies_once w r world :
  rw_status w = None ->
  let path := Query_Get r "path" in
  let res := handleFileView host w r world in
  let status := rw_status (fst res) in
  (exists c, rw_body (fst res) = (rw_body w ++ [c])%list)
  /\ (path = "" \/ w_fs world !! resolve host path = None ->
      status = Some 400 /\ last_json (fst res) = None)
  /\ (status = Some 200
      /\ In (view_kind (fst res)) (Some "error" :: classified)
      \/ (status = Some 400 \/ status = Some 500)
         /\ last_json (fst res) = None)
  /\ (status = Some 200 <-> is_Some (last_json (fst res)))
  /\ (status = Some 500 ->
      path <> "" /\ is_Some (w_fs world !! resolve host path)).
Proof.
  intros Hw path res status. subst status.
  assert (Herr : forall msg code,
            rw_status (http_Error w msg code) = Some code
            /\ last_json (http_Error w msg code) = None
            /\ exists c, rw_body (http_Error w msg code)
                         = (rw_body w ++ [c])%list).
  { intros msg code. unfold last_json, http_Error.
    cbn [rw_status rw_body]. rewrite Hw, last_snoc.
    split; [reflexivity|]. split; [reflexivity|]. eexists. reflexivity. }
  assert (Hjson : forall v,
            rw_status (json_Encode w v) = Some 200
            /\ last_json (json_Encode w v) = Some v
            /\ exists c, rw_body (json_Encode w v) = (rw_body w ++ [c])%list).
  { intros v. split; [|split; [apply last_json_encode|]].
    - unfold json_Encode, write. cbn [rw_status]. rewrite Hw. reflexivity.
    - eexists. reflexivity. }
  destruct (view_answer w r world)
    as [(v & Hres & Hkind)|[(msg & Hres & Hcase)|(msg & Hres & Hp & Hn)]];
    fold path in Hres; fold res in Hres; rewrite Hres.
  - destruct (Hjson v) as (Hs & Hl & Hb). rewrite Hs, Hl.
    split; [exact Hb|]. split.
    { intros Hcase. exfalso.
      assert (Hbad : exists m, fst res = http_Error w m 400).
      { subst res. unfold handleFileView. fold path.
        destruct (String.eqb path "") eqn:He; [eexists; reflexivity|].
        destruct Hcase as [Hcase|Hcase].
        - apply String.eqb_neq in He. contradiction.
        - unfold filepath.FromSlash, os_Open, bind, emit, get_fs, ret.
          cbn [fst snd w_fs w_log]. rewrite Hcase. eexists. reflexivity. }
      destruct Hbad as [m Hm]. rewrite Hres in Hm.
      apply (f_equal rw_status) in Hm. rewrite Hs in Hm.
      destruct (Herr m 400) as (Hs' & _). rewrite Hs' in Hm.
      discriminate Hm. }
    split; [left; split; [reflexivity|exact Hkind]|].
    split; [split; [intros _; eauto|reflexivity]|].
    intros H5. discriminate H5.
  - destruct (Herr msg 400) as (Hs & Hl & Hb). rewrite Hs, Hl.
    split; [exact Hb|]. split; [intros _; split; reflexivity|].
    split; [right; split; [left; reflexivity|reflexivity]|].
    split.
    + split; [intros H2; discriminate H2|].
      intros [x Hx]. discriminate Hx.
    + intros H5. discriminate H5.
  - destruct (Herr msg 500) as (Hs & Hl & Hb). rewrite Hs, Hl.
    split; [exact Hb|]. split.
    { intros [Hcase|Hcase]; [contradiction|]. destruct Hn as [x Hx].
      change (w_fs world !! resolve host path = Some x) in Hx.
      rewrite Hcase in Hx. discriminate Hx. }
    split; [right; split; [right; reflexivity|reflexivity]|].
    split.
    + split; [intros H2; discriminate H2|].
      intros [x Hx]. discriminate Hx.
    + intros _. split; [exact Hp|exact Hn].
Qed.

(** X3. A markdown file ([.md] or [.markdown], any case) within the 50 MiB
    limit is returned whole: the 1 MiB limit of text does not apply and
    the bytes the sniff saw play no part.  The reply has no language. *)
Theorem markdown_whole w r world path data :
  Query_Get r "path" = path ->
  path <> "" ->
  w_fs world !! resolve host path = Some (File data) ->
  Z.of_nat (length data) <= maxView ->
  view_ext host path = ".md" \/ view_ext host path = ".markdown" ->
  let res := handleFileView host w r world in
  view_kind (fst res) = Some "markdown"
  /\ reply_field "content" (fst res) = Some (gostrings.of_bytes data)
  /\ reply_field "language" (fst res) = None
  /\ In (EvRead path (length data)) (w_log (snd res)).
Proof.
  intros Hq Hne Hn Hsize Hext res. subst res.
  pose proof (view_file_reply w r world path data Hq Hne Hn Hsize) as Hc.
  cbv zeta in Hc.
  assert (Hmd : String.eqb (view_ext host path) ".pdf" = false
                /\ String.eqb (view_ext host path) ".md"
                   || String.eqb (view_ext host path) ".markdown" = true).
  { destruct Hext as [-> | ->]; split; reflexivity. }
  destruct Hmd as [Hp Hm].
  destruct Hc as [(H1 & _)|[(_ & _ & -> & ->)|[(_ & H2 & _)
                 |[(_ & H2 & _)|(_ & H2 & _)]]]]; try congruence.
  rewrite kind_of_reply, !reply_field_encode.
  split; [reflexivity|]. split; [reflexivity|]. split; [reflexivity|].
  rewrite !in_app_iff. cbn. tauto.
Qed.

(** X4. When the reply is [pdf] or [binary], the sniff is the only read:
    at most 800 bytes of the file are read, whatever its size.  The PDF
    reply points to the raw endpoint with the path as it was given; the
    binary reply carries the fixed notice. *)
Theorem sniff_is_the_only_read w r world path data :
  Query_Get r "path" = path ->
  path <> "" ->
  w_fs world !! resolve host path = Some (File data) ->
  let res := handleFileView host w r world in
  view_kind (fst res) = Some "pdf" \/ view_kind (fst res) = Some "binary" ->
  w_log (snd res)
  = (w_log world ++ [EvOpen path; EvStat path;
                     EvRead path (length (take 800 data)); EvSeek path;
                     EvClose path])%list
  /\ (length (take 800 data) <= 800)%nat
  /\ (view_kind (fst res) = Some "pdf" ->
      reply_field "content" (fst res) = Some ("/api/raw?path=" ++ path))
  /\ (view_kind (fst res) = Some "binary" ->
      reply_field "content" (fst res) = Some binaryNotice).
Proof.
  intros Hq Hne Hn res Hkind.
  assert (Hsize : Z.of_nat (length data) <= maxView).
  { destruct Hkind as [Hk|Hk];
      apply (view_kind_within w r world path data _ Hq Hne Hn Hk);
      discriminate. }
  subst res.
  pose proof (view_file_reply w r world path data Hq Hne Hn Hsize) as Hc.
  cbv zeta in Hc.
  destruct Hc as [(_ & Hr & Hl)|[(_ & _ & Hr & Hl)|[(_ & _ & _ & _ & Hr & Hl)
                 |[(_ & _ & _ & _ & Hr & Hl)|(_ & _ & _ & Hr & Hl)]]]];
    rewrite Hr in Hkind |- *; rewrite Hl;
    rewrite !kind_of_reply in Hkind |- *;
    try (destruct Hkind as [Hk|Hk]; discriminate Hk);
    rewrite reply_field_encode;
    (split; [reflexivity|]);
    (split; [rewrite length_take; lia|]);
    split; intros Hk; try discriminate Hk; reflexivity.
Qed.

(** X5. An [image] reply carries the whole file as a data URI,
    [data:<mime>;base64,<the file in base64>], with the MIME type of the
    lower-cased extension, which starts with [image/], also in the [mime]
    field. *)
Theorem image_data_uri w r world path data :
  Query_Get r "path" = path ->
  path <> "" ->
  w_fs world !! resolve host path = Some (File data) ->
  let res := handleFileView host w r world in
  view_kind (fst res) = Some "image" ->
  let mimeType := mime_TypeByExtension host (view_ext host path) in
  reply_field "content" (fst res)
  = Some ("data:" ++ mimeType ++ ";base64," ++ base64_EncodeToString host data)
  /\ reply_field "mime" (fst res) = Some mimeType
  /\ gostrings.HasPrefix mimeType "image/" = true
  /\ sniff (take 800 data) = true
  /\ In (EvRead path (length data)) (w_log (snd res)).
Proof.
  intros Hq Hne Hn res Hkind mimeType.
  assert (Hsize : Z.of_nat (length data) <= maxView)
    by (apply (view_kind_within w r world path data _ Hq Hne Hn Hkind);
        discriminate).
  subst res mimeType.
  pose proof (view_file_reply w r world path data Hq Hne Hn Hsize) as Hc.
  cbv zeta in Hc.
  destruct Hc as [(_ & Hr & Hl)|[(_ & _ & Hr & Hl)|[(_ & _ & H3 & H4 & Hr & Hl)
                 |[(_ & _ & _ & _ & Hr & Hl)|(_ & _ & _ & Hr & Hl)]]]];
    rewrite Hr in Hkind |- *; rewrite Hl;
    rewrite !kind_of_reply in Hkind; try discriminate Hkind.
  rewrite !reply_field_encode.
  split; [reflexivity|]. split; [reflexivity|]. split; [exact H4|].
  split; [exact H3|]. rewrite !in_app_iff. cbn. tauto.
Qed.

(** X6. The kind of a view depends on the bytes of the file through its
    first 800 bytes only: two regular files within the limit that agree on
    them, under paths with the same lower-cased extension, get the same
    kind.  A control byte further on does not make a file binary. *)
Theorem view_kind_by_head w r1 r2 world1 world2 p1 p2 data1 data2 :
  Query_Get r1 "path" = p1 -> p1 <> "" ->
  Query_Get r2 "path" = p2 -> p2 <> "" ->
  w_fs world1 !! resolve host p1 = Some (File data1) ->
  w_fs world2 !! resolve host p2 = Some (File data2) ->
  Z.of_nat (length data1) <= maxView ->
  Z.of_nat (length data2) <= maxView ->
  view_ext host p1 = view_ext host p2 ->
  take 800 data1 = take 800 data2 ->
  view_kind (fst (handleFileView host w r1 world1))
  = view_kind (fst (handleFileView host w r2 world2)).
Proof.
  intros Hq1 Hne1 Hq2 Hne2 Hn1 Hn2 Hs1 Hs2 Hext Hhead.
  rewrite (view_file_kind host w r1 world1 p1 data1 Hq1 Hne1 Hn1 Hs1).
  rewrite (view_file_kind host w r2 world2 p2 data2 Hq2 Hne2 Hn2 Hs2).
  cbv zeta. rewrite Hext, Hhead. reflexivity.
Qed.

Lemma extToLang_values ext :
  String.eqb ext ".md" = false -> In (extToLang ext) text_languages.
Proof.
  intros Hmd. unfold extToLang, text_languages. rewrite Hmd.
  repeat (match goal with
          | |- context [if String.eqb ext ?s then _ else _] =>
              destruct (String.eqb ext s)
          end; [cbn; tauto|]).
  cbn. tauto.
Qed.

(** X7. The language of a reply: a [text] reply names the language of the
    lower-cased extension, one of go, javascript, python, java, html, css,
    json or none, and never markdown, because [.md] files do not reach the
    text reply; a [binary] reply has the empty language; the other replies
    have no language field. *)
Theorem view_language w r world path data :
  Query_Get r "path" = path ->
  path <> "" ->
  w_fs world !! resolve host path = Some (File data) ->
  Z.of_nat (length data) <= maxView ->
  let res := handleFileView host w r world in
  let language := reply_field "language" (fst res) in
  (view_kind (fst res) = Some "text" ->
     language = Some (extToLang (view_ext host path))
     /\ In (extToLang (view_ext host path)) text_languages
     /\ language <> Some "markdown")
  /\ (view_kind (fst res) = Some "binary" -> language = Some "")
  /\ (view_kind (fst res) = Some "pdf"
      \/ view_kind (fst res) = Some "markdown"
      \/ view_kind (fst res) = Some "image" -> language = None).
Proof.
  intros Hq Hne Hn Hsize res language. subst language res.
  pose proof (view_file_reply w r world path data Hq Hne Hn Hsize) as Hc.
  cbv zeta in Hc.
  destruct Hc as [(_ & Hr & _)|[(_ & _ & Hr & _)|[(_ & _ & _ & _ & Hr & _)
                 |[(_ & _ & _ & _ & Hr & _)|(_ & H2 & _ & Hr & _)]]]];
    rewrite Hr; rewrite !kind_of_reply, reply_field_encode;
    (split; [intros Hk; try discriminate Hk|]);
    try (split; [intros Hk; try discriminate Hk; reflexivity
                |intros [Hk|[Hk|Hk]]; try discriminate Hk; reflexivity]).
  apply orb_false_iff in H2. destruct H2 as [Hmd _].
  pose proof (extToLang_values _ Hmd) as Hin.
  split; [reflexivity|]. split; [exact Hin|].
  change (assoc "language"
            [("type", "text");
             ("content",
              if Z.of_nat (length data) >? maxRead
              then gostrings.of_bytes (take (Z.to_nat maxRead) data)
                     ++ truncated
              else gostrings.of_bytes (take (Z.to_nat maxRead) data));
             ("language", extToLang (view_ext host path))])
    with (Some (extToLang (view_ext host path))).
  intros Heq. injection Heq as Heq. rewrite Heq in Hin.
  unfold text_languages in Hin. cbn in Hin.
  repeat (destruct Hin as [Hin|Hin]; [discriminate Hin|]). exact Hin.
Qed.

(** ** Uploads in general *)

Lemma upload_loop_no_file_part w r folder reader world :
  file_parts reader = [] ->
  snd (upload_loop host w r folder reader world) = world.
Proof.
  revert world. induction reader as [|err|p rest IH]; intros world Hnone;
    cbn [upload_loop]; try reflexivity.
  unfold file_parts in Hnone. cbn [parts_of List.filter] in Hnone.
  unfold bind. destruct (is_file_part p) eqn:Hf; [discriminate Hnone|].
  rewrite (iteration_skips host _ _ _ _ Hf).
  destruct (p_err p); cbn [option_map]; [reflexivity|].
  apply IH. exact Hnone.
Qed.

(** X8. An upload acts on the file system through file parts only: a
    request that is not a POST (answered 405 before anything else is
    looked at), one without [folder], one that is not multipart (answered
    [{success: false, error: "Not a multipart request"}]) and one whose
    stream has no part named [files] with a file name all leave the file
    system untouched and make no call. *)
Theorem upload_needs_file_part w r world :
  let res := handleUpload host w r world in
  (Method r <> "POST" ->
     res = (http_Error w "Method not allowed" 405, world))
  /\ (Method r = "POST" -> Query_Get r "folder" <> "" -> Multipart r = None ->
      res = (json_Encode w (failure "Not a multipart request"), world))
  /\ (Method r <> "POST" \/ Query_Get r "folder" = "" \/ Multipart r = None
      \/ (exists reader, Multipart r = Some reader /\ file_parts reader = []) ->
      snd res = world).
Proof.
  intros res. subst res.
  assert (Hmethod : Method r <> "POST" ->
            handleUpload host w r world
            = (http_Error w "Method not allowed" 405, world)).
  { intros Hm. unfold handleUpload.
    apply String.eqb_neq in Hm. rewrite Hm. reflexivity. }
  assert (Hplain : Method r = "POST" -> Query_Get r "folder" <> "" ->
            Multipart r = None ->
            handleUpload host w r world
            = (json_Encode w (failure "Not a multipart request"), world)).
  { intros Hm Hf Hr. unfold handleUpload.
    rewrite Hm, (eqb_empty_false _ Hf), Hr. reflexivity. }
  split; [exact Hmethod|]. split; [exact Hplain|].
  intros Hcase.
  destruct (String.eqb (Method r) "POST") eqn:Hm.
  2:{ apply String.eqb_neq in Hm. rewrite (Hmethod Hm). reflexivity. }
  apply String.eqb_eq in Hm.
  destruct (String.eqb (Query_Get r "folder") "") eqn:Hf.
  { unfold handleUpload. rewrite Hm, Hf. reflexivity. }
  apply String.eqb_neq in Hf.
  destruct (Multipart r) as [reader|] eqn:Hr.
  2:{ rewrite (Hplain Hm Hf eq_refl). reflexivity. }
  rewrite (handleUpload_loop host w r world _ reader Hm eq_refl Hf Hr).
  destruct Hcase as [Hc|[Hc|[Hc|(reader' & Hc & Hnone)]]];
    try contradiction; try discriminate Hc.
  injection Hc as <-. apply upload_loop_no_file_part. exact Hnone.
Qed.

(** The loop reads the request through its query only. *)
Lemma upload_loop_query w r r' folder reader world :
  Query r' = Query r ->
  upload_loop host w r' folder reader world
  = upload_loop host w r folder reader world.
Proof.
  intros Hq. revert world.
  induction reader as [|err|p rest IH]; intros world;
    cbn [upload_loop]; try reflexivity.
  unfold bind.
  assert (Hit : iteration host r' folder p world
                = iteration host r folder p world).
  { unfold iteration, save_part, effective_name, Query_Get. rewrite Hq.
    reflexivity. }
  rewrite Hit.
  destruct (iteration host r folder p world) as [[e|] w1]; [reflexivity|].
  apply IH.
Qed.

Lemma upload_loop_drop_fields w r folder reader world :
  fields_whole reader ->
  upload_loop host w r folder reader world
  = upload_loop host w r folder (drop_fields reader) world.
Proof.
  revert world. induction reader as [|err|p rest IH]; intros world Hwhole;
    cbn [drop_fields upload_loop]; try reflexivity.
  cbn [fields_whole] in Hwhole. destruct Hwhole as [Hp Hrest].
  destruct (is_file_part p) eqn:Hf.
  - cbn [upload_loop]. unfold bind.
    destruct (iteration host r folder p world) as [[e|] w1]; [reflexivity|].
    apply IH. exact Hrest.
  - unfold bind. rewrite (iteration_skips host _ _ _ _ Hf), (Hp eq_refl).
    cbn [option_map]. apply IH. exact Hrest.
Qed.

(** X9. Parts that are not file parts are skipped: as long as their
    bodies arrive whole, the upload gives the same reply and leaves the
    same world as the upload of the stream without them. *)
Theorem upload_skips_fields w r world reader :
  Multipart r = Some reader ->
  fields_whole reader ->
  handleUpload host w r world
  = handleUpload host w
      (mkRequest (Method r) (Query r) (Some (drop_fields reader))) world.
Proof.
  intros Hr Hwhole. unfold handleUpload. cbn [Method Multipart].
  change (Query_Get (mkRequest (Method r) (Query r)
                       (Some (drop_fields reader))) "folder")
    with (Query_Get r "folder").
  rewrite Hr.
  destruct (negb (String.eqb (Method r) "POST")); [reflexivity|].
  destruct (String.eqb (Query_Get r "folder") ""); [reflexivity|].
  rewrite (upload_loop_query w r
             (mkRequest (Method r) (Query r) (Some (drop_fields reader))))
    by reflexivity.
  apply upload_loop_drop_fields. exact Hwhole.
Qed.

(** What one turn of the loop does to a node that exists: a directory
    stays a directory, a file stays a file, and a node that is not the
    destination of the part stays as it is. *)
Lemma iteration_node r folder part world k n :
  w_fs world !! k = Some n ->
  let fs' := w_fs (snd (iteration host r folder part world)) in
  (n = Dir -> fs' !! k = Some Dir)
  /\ (forall d, n = File d -> exists d', fs' !! k = Some (File d'))
  /\ ((is_file_part part = true -> dest host r folder part <> k) ->
      fs' !! k = Some n).
Proof.
  intros Hk fs'. subst fs'.
  destruct (is_file_part part) eqn:Hf.
  - rewrite (iteration_saves host _ _ _ _ Hf).
    pose proof (save_part_cases host r folder part world) as Hc.
    cbv zeta in Hc.
    pose proof (mkdir_chain_keeps
                  (ancestors (resolve host (filepath.Dir
                     (filepath.Join [folder; effective_name r part]))))
                  (w_fs world) k n Hk) as Hkeep.
    destruct Hc as [(err & _ & ->)|[(err & _ & ->)|(_ & Hnd & ->)]];
      cbn [fst snd w_fs w_log].
    + split; [intros ->; exact Hkeep|].
      split; [intros d ->; eexists; exact Hkeep|]. intros _. exact Hkeep.
    + split; [intros ->; exact Hkeep|].
      split; [intros d ->; eexists; exact Hkeep|]. intros _. exact Hkeep.
    + change (resolve host (filepath.Join [folder; effective_name r part]))
        with (dest host r folder part) in *.
      split; [|split].
      * intros ->. rewrite lookup_insert_ne; [exact Hkeep|].
        intros Heq. rewrite Heq in Hnd. unfold is_dir in Hnd.
        rewrite Hkeep, orb_true_r in Hnd. discriminate Hnd.
      * intros d ->.
        destruct (decide (dest host r folder part = k)) as [Heq|Hneq].
        -- rewrite Heq, lookup_insert_eq. eexists. reflexivity.
        -- rewrite lookup_insert_ne by exact Hneq. eexists. exact Hkeep.
      * intros Hother. rewrite lookup_insert_ne; [exact Hkeep|].
        apply Hother. reflexivity.
  - rewrite (iteration_skips host _ _ _ _ Hf). cbn [snd].
    split; [intros ->; exact Hk|].
    split; [intros d ->; eexists; exact Hk|]. intros _. exact Hk.
Qed.

Lemma upload_loop_node w r folder reader world k n :
  w_fs world !! k = Some n ->
  let fs' := w_fs (snd (upload_loop host w r folder reader world)) in
  (n = Dir -> fs' !! k = Some Dir)
  /\ (forall d, n = File d -> exists d', fs' !! k = Some (File d'))
  /\ ((forall q, In q (file_parts reader) -> dest host r folder q <> k) ->
      fs' !! k = Some n).
Proof.
  revert world n. induction reader as [|err|p rest IH]; intros world n Hk;
    cbn [upload_loop].
  - cbn. split; [intros ->; exact Hk|].
    split; [intros d ->; eexists; exact Hk|]. intros _. exact Hk.
  - cbn. split; [intros ->; exact Hk|].
    split; [intros d ->; eexists; exact Hk|]. intros _. exact Hk.
  - unfold bind.
    destruct (iteration_node r folder p world k n Hk) as (Hd & Hf & Ho).
    assert (Hhere : (forall q, In q (file_parts (Next p rest)) ->
                       dest host r folder q <> k) ->
                    (is_file_part p = true -> dest host r folder p <> k)
                    /\ (forall q, In q (file_parts rest) ->
                          dest host r folder q <> k)).
    { intros Hall. unfold file_parts in Hall.
      cbn [parts_of List.filter] in Hall. fold (file_parts rest) in Hall.
      destruct (is_file_part p).
      - split; [intros _; apply Hall; left; reflexivity|].
        intros q Hq. apply Hall. right. exact Hq.
      - split; [discriminate|exact Hall]. }
    destruct (iteration host r folder p world) as [[e|] w1];
      cbn [fst snd] in *.
    + split; [exact Hd|]. split; [exact Hf|].
      intros Hall. apply Ho. apply (Hhere Hall).
    + cbv zeta. split; [|split].
      * intros Hn. destruct (IH w1 Dir (Hd Hn)) as (IHd & _). auto.
      * intros d Hn. destruct (Hf d Hn) as [d' Hd'].
        destruct (IH w1 (File d') Hd') as (_ & IHf & _). eauto.
      * intros Hall. destruct (Hhere Hall) as [Hp Hrest].
        destruct (IH w1 n (Ho Hp)) as (_ & _ & IHo). auto.
Qed.

(** An upload that reports success has saved every file part, in order,
    and a part that no later part overwrites is on disk with its bytes. *)
Lemma upload_loop_stores w r folder reader world :
  let res := upload_loop host w r folder reader world in
  last_json (fst res) = Some success ->
  w_log (snd res)
  = (w_log world ++ flat_map (part_events r folder) (file_parts reader))%list
  /\ (forall before p rest,
        reader = feed before (Next p rest) ->
        is_file_part p = true ->
        (forall q, In q (file_parts rest) ->
                   dest host r folder q <> dest host r folder p) ->
        w_fs (snd res) !! dest host r folder p = Some (File (p_data p))).
Proof.
  revert world. induction reader as [|err|p rest IH]; intros world res Hok;
    subst res; cbn [upload_loop] in *.
  - split; [cbn; rewrite app_nil_r; reflexivity|].
    intros [|b before] q rest' Heq; discriminate Heq.
  - cbn [ret fst] in Hok. rewrite last_json_encode in Hok. discriminate Hok.
  - unfold bind in *. unfold file_parts. cbn [parts_of List.filter].
    fold (file_parts rest).
    destruct (is_file_part p) eqn:Hf.
    + rewrite (iteration_saves host _ _ _ _ Hf) in Hok |- *.
      pose proof (save_part_saved host r folder p world) as Hs.
      cbv zeta in Hs.
      destruct (save_part host r folder p world) as [[e|] w1].
      { cbn [ret fst] in Hok. rewrite last_json_encode in Hok.
        discriminate Hok. }
      cbn [fst snd] in Hs. destruct (Hs eq_refl) as (Hlog & Hfile & _).
      destruct (IH w1 Hok) as [Hlog' Hlater].
      split.
      * rewrite Hlog', Hlog. cbn [flat_map]. rewrite app_assoc. reflexivity.
      * intros [|b before] q rest' Heq Hq Hfree;
          cbn [feed fold_right] in Heq; injection Heq as Hp Hrest.
        -- subst q rest'.
           destruct (upload_loop_node w r folder rest w1 _ _ Hfile)
             as (_ & _ & Hsame).
           apply Hsame. exact Hfree.
        -- subst b. apply (Hlater before q rest'); assumption.
    + rewrite (iteration_skips host _ _ _ _ Hf) in Hok |- *.
      destruct (p_err p) as [err|]; cbn [option_map] in *.
      { cbn [ret fst] in Hok. rewrite last_json_encode in Hok.
        discriminate Hok. }
      destruct (IH world Hok) as [Hlog' Hlater].
      split; [exact Hlog'|].
      intros [|b before] q rest' Heq Hq Hfree;
        cbn [feed fold_right] in Heq; injection Heq as Hp Hrest.
      * subst q. rewrite Hf in Hq. discriminate Hq.
      * subst b. apply (Hlater before q rest'); assumption.
Qed.

(** X10. An upload that reports success has made, for each file part in
    the order of the stream, the four calls that save it (directories,
    create, write, close) and no other call; each file part that no later
    file part of the request overwrites is then a regular file with
    exactly the bytes of the part.  Without a [relativePath] hint the file
    is named by the part. *)
Theorem upload_stores_parts w r world folder reader :
  Method r = "POST" ->
  Query_Get r "folder" = folder ->
  folder <> "" ->
  Multipart r = Some reader ->
  let res := handleUpload host w r world in
  last_json (fst res) = Some success ->
  w_log (snd res)
  = (w_log world ++ flat_map (part_events r folder) (file_parts reader))%list
  /\ (forall before p rest,
        reader = feed before (Next p rest) ->
        is_file_part p = true ->
        (forall q, In q (file_parts rest) ->
                   dest host r folder q <> dest host r folder p) ->
        w_fs (snd res) !! dest host r folder p = Some (File (p_data p)))
  /\ (Query_Get r "relativePath" = "" ->
      forall p, out_path r folder p = filepath.Join [folder; FileName p]).
Proof.
  intros Hm Hq Hne Hr res. subst res.
  rewrite (handleUpload_loop host w r world folder reader Hm Hq Hne Hr).
  intros Hok.
  destruct (upload_loop_stores w r folder reader world Hok) as [Hlog Hst].
  split; [exact Hlog|]. split; [exact Hst|].
  intros Hrel p. unfold out_path, effective_name. rewrite Hrel. reflexivity.
Qed.

(** X11. No upload request turns a directory into a file or a file into a
    directory, and none removes a node: a directory that exists is a
    directory afterwards, a file is a file afterwards, and a node that is
    not the destination of a file part of the request is unchanged. *)
Theorem upload_keeps_nodes w r world k n :
  w_fs world !! k = Some n ->
  let fs' := w_fs (snd (handleUpload host w r world)) in
  (n = Dir -> fs' !! k = Some Dir)
  /\ (forall d, n = File d -> exists d', fs' !! k = Some (File d'))
  /\ ((forall reader q,
         Multipart r = Some reader -> In q (file_parts reader) ->
         dest host r (Query_Get r "folder") q <> k) ->
      fs' !! k = Some n).
Proof.
  intros Hk fs'. subst fs'.
  assert (Hsame : snd (handleUpload host w r world) = world ->
            (n = Dir ->
             w_fs (snd (handleUpload host w r world)) !! k = Some Dir)
            /\ (forall d, n = File d ->
                  exists d',
                    w_fs (snd (handleUpload host w r world)) !! k
                    = Some (File d'))
            /\ w_fs (snd (handleUpload host w r world)) !! k = Some n).
  { intros ->. split; [intros ->; exact Hk|].
    split; [intros d ->; eexists; exact Hk|exact Hk]. }
  destruct (String.eqb (Method r) "POST") eqn:Hm.
  2:{ destruct Hsame as (H1 & H2 & H3); [|auto].
      unfold handleUpload. rewrite Hm. reflexivity. }
  apply String.eqb_eq in Hm.
  destruct (String.eqb (Query_Get r "folder") "") eqn:Hf.
  { destruct Hsame as (H1 & H2 & H3); [|auto].
    unfold handleUpload. rewrite Hm, Hf. reflexivity. }
  apply String.eqb_neq in Hf.
  destruct (Multipart r) as [reader|] eqn:Hr.
  2:{ destruct Hsame as (H1 & H2 & H3); [|auto].
      unfold handleUpload. rewrite Hm, Hr, (eqb_empty_false _ Hf).
      reflexivity. }
  rewrite (handleUpload_loop host w r world _ reader Hm eq_refl Hf Hr).
  destruct (upload_loop_node w r (Query_Get r "folder") reader world k n Hk)
    as (H1 & H2 & H3).
  split; [exact H1|]. split; [exact H2|].
  intros Hfree. apply H3. intros q Hq. apply (Hfree reader q eq_refl Hq).
Qed.

(** [filepath.Clean], and so [filepath.Join] of a folder that is not
    empty, never gives the empty path. *)
Lemma Clean_not_empty p : filepath.Clean p <> "".
Proof.
  unfold filepath.Clean.
  destruct (filepath.IsAbs p); [discriminate|].
  destruct (String.eqb (filepath.join_elements _) "") eqn:E.
  - discriminate.
  - apply String.eqb_neq. exact E.
Qed.

Lemma out_path_not_empty r folder p : folder <> "" -> out_path r folder p <> "".
Proof.
  intros Hne. unfold out_path. cbn [filepath.Join].
  rewrite (eqb_empty_false _ Hne). apply Clean_not_empty.
Qed.

(** X12. Upload, then view: after an upload that reports success, the
    view of the path a file part was written to (and that no later part
    overwrote) is one of the five kinds or, above 50 MiB, the error
    reply; when the part has at most 1 MiB and the view is [text] or
    [markdown], the content is the bytes of the part. *)
Theorem upload_then_view w r world folder reader before p rest w' rv :
  Method r = "POST" ->
  Query_Get r "folder" = folder ->
  folder <> "" ->
  Multipart r = Some reader ->
  last_json (fst (handleUpload host w r world)) = Some success ->
  reader = feed before (Next p rest) ->
  is_file_part p = true ->
  (forall q, In q (file_parts rest) ->
             dest host r folder q <> dest host r folder p) ->
  Query_Get rv "path" = out_path r folder p ->
  let stored := snd (handleUpload host w r world) in
  let view := fst (handleFileView host w' rv stored) in
  In (view_kind view) (Some "error" :: classified)
  /\ (Z.of_nat (length (p_data p)) <= 1 * 1024 * 1024 ->
      view_kind view = Some "text" \/ view_kind view = Some "markdown" ->
      reply_field "content" view = Some (gostrings.of_bytes (p_data p))).
Proof.
  intros Hm Hq Hne Hr Hok Hreader Hfile Hfree Hpath stored view.
  assert (Hstored : w_fs stored !! resolve host (out_path r folder p)
                    = Some (File (p_data p))).
  { subst stored.
    rewrite (handleUpload_loop host w r world folder reader Hm Hq Hne Hr)
      in Hok |- *.
    destruct (upload_loop_stores w r folder reader world Hok) as [_ Hst].
    apply (Hst before p rest Hreader Hfile Hfree). }
  pose proof (out_path_not_empty r folder p Hne) as Hout.
  subst view. split.
  - destruct (Z_le_gt_dec (Z.of_nat (length (p_data p))) maxView)
      as [Hle|Hgt].
    + right.
      apply (view_file_classified host w' rv stored _ _ Hpath Hout Hstored
               Hle).
    + left.
      rewrite (view_found host w' rv stored _ _ Hpath Hout Hstored).
      cbv zeta.
      rewrite (viewOpened_oversize host w' rv _ (File (p_data p)))
        by (cbn [node_size]; lia).
      cbn [fst]. unfold oversize_reply. symmetry. apply kind_of_reply.
  - intros Hsmall Hkind.
    assert (Hle : Z.of_nat (length (p_data p)) <= maxView)
      by (unfold maxView; lia).
    pose proof (view_file_reply w' rv stored _ _ Hpath Hout Hstored Hle)
      as Hc.
    cbv zeta in Hc.
    destruct Hc as [(_ & Hv & _)|[(_ & _ & Hv & _)|[(_ & _ & _ & _ & Hv & _)
                   |[(_ & _ & _ & _ & Hv & _)|(_ & _ & _ & Hv & _)]]]];
      rewrite Hv in Hkind |- *; rewrite !kind_of_reply in Hkind;
      try (destruct Hkind as [Hk|Hk]; discriminate Hk);
      rewrite reply_field_encode.
    + reflexivity.
    + rewrite (gtb_false _ maxRead) by (unfold maxRead; lia).
      rewrite take_ge by (unfold maxRead; lia). reflexivity.
Qed.

(** ** The name of a download *)





(** ** The listing of a directory *)

Lemma child_entries_spec path (entries : list DirEntry) :
  Forall2 (child_entry_of path) entries (map (child_entry path) entries).
Proof.
  induction entries as [|e entries IH]; constructor; [|exact IH].
  unfold child_entry_of, child_entry. rewrite !field_string_map.
  repeat split.
Qed.

(** X14. For a path that is not the root, the tree listing is what
    [os.ReadDir] gives: its error is answered with status 400 and the
    message of the error; otherwise there is one entry per directory
    entry, in the same order, with the name of the entry, the type
    [folder] for a directory and [file] for anything else, and the path
    joined with the name. *)
Theorem tree_children srv w r world path :
  Query_Get r "path" = path ->
  path <> "" -> path <> "." -> path <> "/" ->
  let listed := os_ReadDir host path world in
  (forall err, fst listed = inl err ->
     handleTree host srv w r world = (http_Error w err 400, snd listed))
  /\ (forall entries, fst listed = inr entries ->
       exists v,
         handleTree host srv w r world = (json_Encode w v, snd listed)
         /\ Forall2 (child_entry_of path) entries (entries_of v)
         /\ length (entries_of v) = length entries).
Proof.
  intros Hq H1 H2 H3 listed. subst listed.
  assert (Hrun : handleTree host srv w r world
                 = let d := os_ReadDir host path world in
                   match fst d with
                   | inl err => (http_Error w err 400, snd d)
                   | inr entries =>
                       (json_Encode w (slice (map (child_entry path) entries)),
                        snd d)
                   end).
  { unfold handleTree. rewrite Hq, (eqb_empty_false _ H1).
    unfold filepath.FromSlash. cbn [negb].
    rewrite (eqb_empty_false _ H1).
    apply String.eqb_neq in H2. apply String.eqb_neq in H3.
    rewrite H2. change (String filepath.Separator "") with "/". rewrite H3.
    cbn [orb]. unfold bind. cbv zeta.
    destruct (os_ReadDir host path world) as [[err|entries] world'];
      reflexivity. }
  rewrite Hrun. cbv zeta. split.
  - intros err ->. reflexivity.
  - intros entries ->. eexists. split; [reflexivity|].
    rewrite entries_of_slice.
    split; [apply child_entries_spec|apply length_map].
Qed.

(** ** The start of the server *)

Lemma stat_missing_spec p world :
  startup.stat_missing host p world
  = (startup.IsNotExist (startup.stat host (w_fs world) p),
     mkWorld (w_fs world) (w_log world ++ [EvStat p])).
Proof. reflexivity. Qed.

Lemma IsNotExist_missing fs f :
  startup.IsNotExist (startup.stat host fs f) = true
  <-> startup.missing host fs f.
Proof.
  unfold startup.missing.
  destruct (startup.stat host fs f) as [[|]|n]; cbn;
    split; intros H; try reflexivity; discriminate H.
Qed.

(** The loop of [main]: the file system is left as it is; the folders kept
    are the pieces that are not blank, trimmed, in their order; each is
    looked up once, in that order, and the loop stops at the first one
    that [os.Stat] does not find. *)
Lemma check_folders_spec u pieces : forall clean world,
  let keep := List.filter (fun f => negb (String.eqb f ""))
                (map (startup.TrimSpace u) pieces) in
  let res := startup.check_folders u host pieces clean world in
  let missing := startup.missing host (w_fs world) in
  w_fs (snd res) = w_fs world
  /\ match fst res with
     | inr l =>
         l = (clean ++ keep)%list
         /\ Forall (fun f => ~ missing f) keep
         /\ w_log (snd res) = (w_log world ++ map EvStat keep)%list
     | inl msg =>
         exists before f after,
           keep = (before ++ f :: after)%list
           /\ Forall (fun g => ~ missing g) before
           /\ missing f
           /\ msg = "Folder does not exist: " ++ f
           /\ w_log (snd res)
              = (w_log world ++ map EvStat (before ++ [f]))%list
     end.
Proof.
  induction pieces as [|f pieces IH]; intros clean world;
    cbn [startup.check_folders map List.filter].
  - cbn. rewrite !app_nil_r. repeat split. constructor.
  - destruct (negb (String.eqb (startup.TrimSpace u f) "")) eqn:Hf;
      [|apply IH].
    unfold bind. rewrite stat_missing_spec. cbn [fst snd].
    destruct (startup.IsNotExist
                (startup.stat host (w_fs world) (startup.TrimSpace u f)))
      eqn:Hm.
    + cbn [fst snd w_fs w_log ret]. split; [reflexivity|].
      exists [], (startup.TrimSpace u f),
        (List.filter (fun f => negb (String.eqb f ""))
           (map (startup.TrimSpace u) pieces)).
      split; [reflexivity|]. split; [constructor|].
      split; [apply IsNotExist_missing; exact Hm|].
      split; reflexivity.
    + assert (Hok : ~ startup.missing host (w_fs world)
                        (startup.TrimSpace u f)).
      { intros Hmiss. apply IsNotExist_missing in Hmiss.
        rewrite Hmiss in Hm. discriminate Hm. }
      specialize (IH (clean ++ [startup.TrimSpace u f])%list
                    (mkWorld (w_fs world)
                       (w_log world ++ [EvStat (startup.TrimSpace u f)]))).
      cbv zeta in IH. cbn [w_fs w_log] in IH. destruct IH as [Hfs Hres].
      split; [exact Hfs|].
      destruct (fst (startup.check_folders u host pieces _ _)) as [msg|l].
      * destruct Hres as (before & g & after & Hkeep & Hbefore & Hmiss
                          & Hmsg & Hlog).
        exists (startup.TrimSpace u f :: before), g, after.
        split; [rewrite Hkeep; reflexivity|].
        split; [constructor; assumption|].
        split; [exact Hmiss|]. split; [exact Hmsg|].
        rewrite Hlog, <- app_assoc. reflexivity.
      * destruct Hres as (Hl & Hall & Hlog).
        split; [rewrite Hl, <- app_assoc; reflexivity|].
        split; [constructor; assumption|].
        rewrite Hlog, <- app_assoc. reflexivity.
Qed.

(** ** The path walk of [os.Stat] *)

Lemma split_on_sep sep q rest : forall cur,
  startup.split_on sep cur (q ++ String sep rest)
  = (startup.split_on sep cur q
       ++ startup.split_on sep EmptyString rest)%list.
Proof.
  induction q as [|c q IH]; intros cur.
  - change (EmptyString ++ String sep rest) with (String sep rest).
    cbn [startup.split_on]. rewrite Ascii.eqb_refl. reflexivity.
  - change (String c q ++ String sep rest)
      with (String c (q ++ String sep rest)).
    cbn [startup.split_on]. destruct (Ascii.eqb c sep).
    + rewrite IH. reflexivity.
    + apply IH.
Qed.

Lemma split_on_cons sep s : forall cur,
  exists e rest, startup.split_on sep cur s = e :: rest.
Proof.
  induction s as [|c s IH]; intros cur; cbn [startup.split_on].
  - eauto.
  - destruct (Ascii.eqb c sep); [eauto|apply IH].
Qed.

Lemma walk_app fs l1 l2 : forall cur,
  startup.walk host fs cur (l1 ++ l2)
  = match startup.walk host fs cur l1 with
    | inl e => inl e
    | inr k => startup.walk host fs k l2
    end.
Proof.
  induction l1 as [|e l1 IH]; intros cur; [reflexivity|].
  cbn [app startup.walk].
  destruct (startup.node_at host fs cur) as [[|data]|]; try reflexivity.
  destruct (String.eqb e "" || String.eqb e ".")%bool; [apply IH|].
  destruct (String.eqb e ".."); apply IH.
Qed.

(** The lookup of [q/rest] is the walk along [q], then along [rest]. *)
Lemma stat_join fs q rest :
  q <> "" ->
  startup.stat host fs (q ++ "/" ++ rest)
  = match startup.walk host fs (if filepath.IsAbs q then "/" else os_Getwd host)
            (startup.Split q filepath.Separator) with
    | inl e => inl e
    | inr k =>
        match startup.walk host fs k (startup.Split rest filepath.Separator) with
        | inl e => inl e
        | inr k' =>
            match startup.node_at host fs k' with
            | Some n => inr n
            | None => inl startup.ENOENT
            end
        end
    end.
Proof.
  intros Hq. destruct q as [|c q]; [contradiction|].
  unfold startup.stat.
  change (String.eqb (String c q ++ "/" ++ rest) "") with false.
  change (filepath.IsAbs (String c q ++ "/" ++ rest))
    with (filepath.IsAbs (String c q)).
  cbv zeta. unfold startup.Split.
  change (String c q ++ "/" ++ rest)
    with (String c q ++ String filepath.Separator rest).
  rewrite split_on_sep, walk_app.
  destruct (startup.walk host fs _ (startup.split_on _ _ (String c q)));
    reflexivity.
Qed.

(** Below a name that is missing everything is missing, and below a
    regular file nothing is: the lookup fails, but not with ENOENT. *)
Lemma stat_below fs q rest :
  q <> "" ->
  (startup.missing host fs q ->
   startup.missing host fs (q ++ "/" ++ rest))
  /\ (forall data,
        startup.stat host fs q = inr (File data) ->
        startup.stat host fs (q ++ "/" ++ rest) = inl startup.ENOTDIR).
Proof.
  intros Hq. unfold startup.missing. rewrite (stat_join fs q rest Hq).
  unfold startup.stat. rewrite (eqb_empty_false _ Hq). cbv zeta.
  destruct (startup.walk host fs _ (startup.Split q filepath.Separator))
    as [e|k].
  { split; [intros H; exact H|intros data H; discriminate H]. }
  unfold startup.Split.
  destruct (split_on_cons filepath.Separator rest EmptyString)
    as (e & l & ->).
  cbn [startup.walk].
  destruct (startup.node_at host fs k) as [[|data']|].
  - split; [intros H; discriminate H|intros data H; discriminate H].
  - split; [intros H; discriminate H|intros data H; reflexivity].
  - split; [intros H; reflexivity|intros data H; discriminate H].
Qed.

(** X15. [main] keeps, in their order, the pieces of the [-folders] flag
    between commas that are not blank, trimmed of white space, and looks
    each of them up once with [os.Stat], in that order, on the path as it
    is written.  It builds the server exactly when the flag is not empty
    and no lookup fails with ENOENT; otherwise it stops at the first
    folder that is missing, with the message that names it, and looks no
    further.  The check does not ask for a directory: a folder that is a
    regular file is accepted, and so is a name below a regular file, whose
    lookup fails with ENOTDIR; a name below a missing one is refused, even
    when it ends in [..].  The file system is never changed. *)
Theorem startup_folders u folders world :
  let res := startup.setup u host folders world in
  let kept := startup.kept u folders in
  let missing := startup.missing host (w_fs world) in
  w_fs (snd res) = w_fs world
  /\ (folders = "" -> snd res = world /\ exists msg, fst res = inl msg)
  /\ (folders <> "" -> Forall (fun f => ~ missing f) kept ->
      fst res = inr (mkServer kept)
      /\ w_log (snd res) = (w_log world ++ map EvStat kept)%list)
  /\ (forall srv, fst res = inr srv ->
        folders <> ""
        /\ FolderList srv = kept
        /\ Forall (fun f => f <> "" /\ ~ missing f) kept)
  /\ (forall msg, fst res = inl msg ->
        folders = ""
        \/ exists before f after,
             kept = (before ++ f :: after)%list
             /\ Forall (fun g => ~ missing g) before
             /\ missing f
             /\ msg = "Folder does not exist: " ++ f
             /\ w_log (snd res)
                = (w_log world ++ map EvStat (before ++ [f]))%list)
  /\ (forall f n,
        folders <> "" -> kept = [f] ->
        startup.stat host (w_fs world) f = inr n ->
        fst res = inr (mkServer [f]))
  /\ (forall q rest data,
        folders <> "" -> kept = [q ++ "/" ++ rest] -> q <> "" ->
        startup.stat host (w_fs world) q = inr (File data) ->
        fst res = inr (mkServer [q ++ "/" ++ rest]))
  /\ (forall q rest,
        folders <> "" -> kept = [q ++ "/" ++ rest] -> q <> "" ->
        missing q ->
        fst res = inl ("Folder does not exist: " ++ q ++ "/" ++ rest)).
Proof.
  intros res kept missing. subst res.
  unfold startup.setup.
  destruct (String.eqb folders "") eqn:He.
  { apply String.eqb_eq in He. cbn [fst snd ret].
    split; [reflexivity|].
    split; [intros _; split; [reflexivity|eexists; reflexivity]|].
    split; [intros Hne; contradiction|].
    split; [intros srv Hs; discriminate Hs|].
    split; [intros msg _; left; exact He|].
    split; [intros f n Hne; contradiction|].
    split; [intros q rest data Hne; contradiction|].
    intros q rest Hne. contradiction. }
  apply String.eqb_neq in He. unfold bind.
  pose proof (check_folders_spec u (startup.Split folders ","%char) [] world)
    as Hspec.
  cbv zeta in Hspec. fold (startup.kept u folders) in Hspec.
  fold kept in Hspec. fold missing in Hspec.
  destruct (startup.check_folders u host (startup.Split folders ","%char)
              [] world) as [[msg|l] world'];
    cbn [fst snd ret] in *; destruct Hspec as [Hfs Hres].
  - destruct Hres as (before & f & after & Hkeep & Hbefore & Hmiss & Hmsg
                      & Hlog).
    assert (Hnot : ~ Forall (fun f => ~ missing f) kept).
    { intros Hall. rewrite List.Forall_forall in Hall.
      apply (Hall f); [|exact Hmiss].
      rewrite Hkeep. apply in_or_app. right. left. reflexivity. }
    assert (Hone : forall g, kept = [g] -> g = f).
    { intros g Hg. rewrite Hg in Hkeep.
      destruct before as [|b [|b' before]]; cbn in Hkeep;
        [congruence|discriminate Hkeep|discriminate Hkeep]. }
    split; [exact Hfs|]. split; [intros Hempty; contradiction|].
    split; [intros _ Hall; contradiction|].
    split; [intros srv Hs; discriminate Hs|].
    split; [|split; [|split]].
    + intros msg' Hm. injection Hm as <-. right.
      exists before, f, after. auto.
    + intros g n _ Hkept Hg. exfalso. apply Hnot. rewrite Hkept.
      constructor; [|constructor]. unfold missing, startup.missing.
      rewrite Hg. discriminate.
    + intros q rest data _ Hkept Hq Hfile. exfalso. apply Hnot.
      rewrite Hkept. constructor; [|constructor].
      unfold missing, startup.missing.
      destruct (stat_below (w_fs world) q rest Hq) as [_ Hdir].
      rewrite (Hdir data Hfile). discriminate.
    + intros q rest _ Hkept Hq Hmissing.
      rewrite Hmsg, <- (Hone _ Hkept). reflexivity.
  - destruct Hres as (Hl & Hall & Hlog). cbn [app] in Hl. subst l.
    split; [exact Hfs|]. split; [intros Hempty; contradiction|].
    split; [intros _ _; split; [reflexivity|exact Hlog]|].
    split.
    { intros srv Hs. injection Hs as <-. cbn [FolderList].
      split; [exact He|]. split; [reflexivity|].
      rewrite List.Forall_forall in Hall |- *. intros f Hin.
      split; [|apply Hall; exact Hin].
      unfold kept, startup.kept in Hin. apply List.filter_In in Hin.
      destruct Hin as [_ Hne]. apply negb_true_iff in Hne.
      apply String.eqb_neq. exact Hne. }
    split; [intros msg Hm; discriminate Hm|].
    split; [intros f n _ Hkept _; rewrite Hkept; reflexivity|].
    split; [intros q rest data _ Hkept _ _; rewrite Hkept; reflexivity|].
    intros q rest _ Hkept Hq Hmissing. exfalso.
    rewrite Hkept in Hall. inversion Hall as [|x l Hx _]. apply Hx.
    apply (stat_below (w_fs world) q rest Hq). exact Hmissing.
Qed.

(** X16. Start, then list the roots: once [main] has let the server
    start, the root listing has one folder entry per folder kept from the
    flag, in the order of the flag; when every piece of the flag is blank
    the server starts with no folder and the root listing is [null]. *)
Theorem startup_then_roots u folders world srv w r :
  fst (startup.setup u host folders world) = inr srv ->
  Query_Get r "path" = "" ->
  let started := snd (startup.setup u host folders world) in
  exists v,
    handleTree host srv w r started = (json_Encode w v, started)
    /\ Forall2 (root_entry_of host) (startup.kept u folders) (entries_of v)
    /\ (startup.kept u folders = [] -> v = JNull).
Proof.
  intros Hstart Hq started.
  assert (Hlist : FolderList srv = startup.kept u folders).
  { revert Hstart. unfold startup.setup.
    destruct (String.eqb folders ""); [discriminate|]. unfold bind.
    pose proof (check_folders_spec u (startup.Split folders ","%char) []
                  world) as Hspec.
    cbv zeta in Hspec. fold (startup.kept u folders) in Hspec.
    destruct (startup.check_folders u host (startup.Split folders ","%char)
                [] world) as [[msg|l] world'];
      cbn [fst snd ret] in *; [discriminate|].
    destruct Hspec as [_ [Hl _]]. intros Hs. injection Hs as <-.
    exact Hl. }
  exists (slice (map (root_entry host) (FolderList srv))).
  split; [|split].
  - unfold handleTree. rewrite Hq. reflexivity.
  - rewrite entries_of_slice, Hlist. apply root_entries_spec.
  - intros Hnone. rewrite Hlist, Hnone. reflexivity.
Qed.

(** ** The earlier variant *)

Lemma sniff_loop_take bound data :
  legacy.sniff_loop bound data = sniff (take bound data).
Proof.
  revert data. induction bound as [|n IH]; intros data.
  - destruct data; reflexivity.
  - destruct data as [|b rest]; [reflexivity|].
    cbn [legacy.sniff_loop firstn sniff]. rewrite IH. reflexivity.
Qed.

(** X17. The sniff of the earlier variant, a loop over the indices of the
    whole file below 800, and the sniff of the current one, a loop over
    the first 800 bytes read, give the same answer for every file: binary
    exactly when one of the first 800 bytes is 0 or a control byte outside
    0x09-0x0D.  Reading 800 bytes instead of the file did not change what
    is taken for binary. *)
Theorem legacy_sniff_agrees data :
  legacy.sniff_loop 800 data = sniff (take 800 data)
  /\ (legacy.sniff_loop 800 data = true <-> sniffed data).
Proof.
  split; [apply sniff_loop_take|].
  rewrite sniff_loop_take. apply sniff_take_iff.
Qed.

Lemma legacy_view_file w r world path data :
  Query_Get r "path" = path ->
  path <> "" ->
  w_fs world !! resolve host path = Some (File data) ->
  fst (legacy.fileView host w r world)
  = if sniff (take 800 data)
    then json_Encode w
           (string_map [("content", binaryNotice); ("language", "")])
    else json_Encode w
           (string_map [("content", gostrings.of_bytes data);
                        ("language", extToLang (filepath.Ext path))]).
Proof.
  intros Hq Hne Hn. unfold legacy.fileView.
  rewrite Hq, (eqb_empty_false _ Hne).
  unfold legacy.ReadFile, bind, emit, get_fs, ret.
  cbn [fst snd w_fs w_log]. rewrite Hn. cbn [fst snd].
  rewrite sniff_loop_take.
  destruct (sniff (take 800 data)); reflexivity.
Qed.

(** X18. The earlier variant against the current one, on a regular file.
    The earlier reply has no [type]; a file that is not sniffed binary is
    returned whole, whatever its size, with the language of the extension
    as it is written.  Where the current handler answers [text] for a file
    of at most 1 MiB the two contents are the same, and so are the
    languages when the extension is written in lower case; where it
    answers [binary] both replies carry the notice and the empty
    language. *)
Theorem legacy_view_agrees w r world path data :
  Query_Get r "path" = path ->
  path <> "" ->
  w_fs world !! resolve host path = Some (File data) ->
  let old := fst (legacy.fileView host w r world) in
  let new := fst (handleFileView host w r world) in
  reply_field "type" old = None
  /\ (sniff (take 800 data) = false ->
      reply_field "content" old = Some (gostrings.of_bytes data)
      /\ reply_field "language" old = Some (extToLang (filepath.Ext path)))
  /\ (view_kind new = Some "text" ->
      Z.of_nat (length data) <= 1 * 1024 * 1024 ->
      reply_field "content" old = reply_field "content" new
      /\ (filepath.Ext path = view_ext host path ->
          reply_field "language" old = reply_field "language" new))
  /\ (view_kind new = Some "binary" ->
      reply_field "content" old = reply_field "content" new
      /\ reply_field "language" old = reply_field "language" new).
Proof.
  intros Hq Hne Hn old new. subst old new.
  rewrite (legacy_view_file w r world path data Hq Hne Hn).
  split; [destruct (sniff (take 800 data));
          rewrite reply_field_encode; reflexivity|].
  split.
  { intros ->. rewrite !reply_field_encode. split; reflexivity. }
  split.
  - intros Hkind Hsmall.
    assert (Hle : Z.of_nat (length data) <= maxView)
      by (unfold maxView; lia).
    pose proof (view_file_reply w r world path data Hq Hne Hn Hle) as Hc.
    cbv zeta in Hc.
    destruct Hc as [(_ & Hv & _)|[(_ & _ & Hv & _)|[(_ & _ & _ & _ & Hv & _)
                   |[(_ & _ & _ & _ & Hv & _)|(_ & _ & Hs & Hv & _)]]]];
      rewrite Hv in Hkind |- *; rewrite !kind_of_reply in Hkind;
      try discriminate Hkind.
    rewrite Hs, !reply_field_encode.
    rewrite (gtb_false _ maxRead) by (unfold maxRead; lia).
    rewrite take_ge by (unfold maxRead; lia).
    split; [reflexivity|]. intros <-. reflexivity.
  - intros Hkind.
    assert (Hle : Z.of_nat (length data) <= maxView)
      by (apply (view_kind_within w r world path data _ Hq Hne Hn Hkind);
          discriminate).
    pose proof (view_file_reply w r world path data Hq Hne Hn Hle) as Hc.
    cbv zeta in Hc.
    destruct Hc as [(_ & Hv & _)|[(_ & _ & Hv & _)|[(_ & _ & _ & _ & Hv & _)
                   |[(_ & _ & Hs & _ & Hv & _)|(_ & _ & _ & Hv & _)]]]];
      rewrite Hv in Hkind |- *; rewrite !kind_of_reply in Hkind;
      try discriminate Hkind.
    rewrite Hs, !reply_field_encode. split; reflexivity.
Qed.

End Coverage.

(** * The further properties on the Linux host *)

Lemma view_replies_once_witness :
  let sent := fst (handleFileView Linux.host new_writer
                     (Linux.get "/data/a/main.go") Cases.world1) in
  rw_status sent = Some 200 /\ view_kind sent = Some "text".
Proof.
  destruct (view_replies_once Linux.host new_writer
              (Linux.get "/data/a/main.go") Cases.world1)
    as (_ & _ & _ & Hjson & _).
  - reflexivity.
  - cbv zeta. split; [|vm_compute; reflexivity].
    apply Hjson. vm_compute. eauto.
Defined.

(** A markdown file of 1 MiB + 1 byte is returned whole. *)
Lemma markdown_whole_witness :
  reply_field "content"
    (fst (handleFileView Linux.host new_writer
            (Linux.get "/data/a/long.md") Cases.long_markdown_world))
  = Some (gostrings.of_bytes Linux.longer).
Proof.
  destruct (markdown_whole Linux.host new_writer
              (Linux.get "/data/a/long.md") Cases.long_markdown_world
              "/data/a/long.md" Linux.longer)
    as (_ & Hcontent & _).
  - reflexivity.
  - discriminate.
  - change (resolve Linux.host "/data/a/long.md") with "/data/a/long.md".
    apply lookup_singleton_eq.
  - unfold Linux.longer. rewrite letters_length; unfold maxView; lia.
  - left. reflexivity.
  - exact Hcontent.
Defined.

(** Of a PDF of 2000 bytes, 800 are read. *)
Lemma sniff_is_the_only_read_witness :
  w_log (snd (handleFileView Linux.host new_writer
                (Linux.get "/data/a/doc.pdf") Cases.world1))
  = [EvOpen "/data/a/doc.pdf"; EvStat "/data/a/doc.pdf";
     EvRead "/data/a/doc.pdf" 800; EvSeek "/data/a/doc.pdf";
     EvClose "/data/a/doc.pdf"].
Proof.
  destruct (sniff_is_the_only_read Linux.host new_writer
              (Linux.get "/data/a/doc.pdf") Cases.world1 "/data/a/doc.pdf"
              (Linux.letters 2000))
    as (Hlog & _).
  - reflexivity.
  - discriminate.
  - vm_compute. reflexivity.
  - left. vm_compute. reflexivity.
  - rewrite Hlog. vm_compute. reflexivity.
Defined.

(** The first bytes of a PNG file as a data URI. *)
Lemma image_data_uri_witness :
  reply_field "content"
    (fst (handleFileView Linux.host new_writer
            (Linux.get "/data/a/pic.png") Cases.world1))
  = Some "data:image/png;base64,iVBORw0KGgo=".
Proof.
  destruct (image_data_uri Linux.host new_writer
              (Linux.get "/data/a/pic.png") Cases.world1 "/data/a/pic.png"
              Cases.png)
    as (Hcontent & _).
  - reflexivity.
  - discriminate.
  - vm_compute. reflexivity.
  - vm_compute. reflexivity.
  - rewrite Hcontent. vm_compute. reflexivity.
Defined.

(** A text file with a zero byte at offset 800 is viewed like the file
    of its first 800 bytes. *)
Lemma view_kind_by_head_witness :
  Cases.late_zero !! 800%nat = Some x00
  /\ view_kind (fst (handleFileView Linux.host new_writer
                       (Linux.get "/data/a/late.txt") Cases.world1))
     = view_kind (fst (handleFileView Linux.host new_writer
                         (Linux.get "/data/a/plain.txt") Cases.world1)).
Proof.
  split; [vm_compute; reflexivity|].
  apply (view_kind_by_head Linux.host new_writer
           (Linux.get "/data/a/late.txt") (Linux.get "/data/a/plain.txt")
           Cases.world1 Cases.world1 "/data/a/late.txt" "/data/a/plain.txt"
           Cases.late_zero (Linux.letters 800)).
  - reflexivity.
  - discriminate.
  - reflexivity.
  - discriminate.
  - vm_compute. reflexivity.
  - vm_compute. reflexivity.
  - vm_compute. discriminate.
  - vm_compute. discriminate.
  - vm_compute. reflexivity.
  - vm_compute. reflexivity.
Defined.

Lemma view_language_witness :
  reply_field "language"
    (fst (handleFileView Linux.host new_writer
            (Linux.get "/data/a/main.go") Cases.world1))
  = Some "go".
Proof.
  destruct (view_language Linux.host new_writer
              (Linux.get "/data/a/main.go") Cases.world1 "/data/a/main.go"
              (Linux.text "package main"))
    as (Htext & _).
  - reflexivity.
  - discriminate.
  - vm_compute. reflexivity.
  - vm_compute. discriminate.
  - destruct Htext as (Hlang & _).
    + vm_compute. reflexivity.
    + rewrite Hlang. vm_compute. reflexivity.
Defined.

(** The upload with a form field between the files is the upload of the
    two files. *)
Lemma upload_skips_fields_witness :
  handleUpload Linux.host new_writer Cases.upload_two Linux.world0
  = handleUpload Linux.host new_writer
      (Linux.post [("folder", "/data/a")]
         [Linux.first_part; Linux.second_part] EOF)
      Linux.world0.
Proof.
  apply (upload_skips_fields Linux.host new_writer Cases.upload_two
           Linux.world0
           (feed [Linux.first_part; Linux.field_part; Linux.second_part]
              EOF)).
  - reflexivity.
  - cbn. repeat split; try discriminate; reflexivity.
Defined.

(** Two files with names of their own are both on disk. *)
Lemma upload_stores_parts_witness :
  let stored := w_fs (snd (handleUpload Linux.host new_writer
                             Cases.upload_two Linux.world0)) in
  stored !! "/data/a/x.txt" = Some (File (Linux.text "first"))
  /\ stored !! "/data/a/y.txt" = Some (File (Linux.text "second")).
Proof.
  destruct (upload_stores_parts Linux.host new_writer Cases.upload_two
              Linux.world0 "/data/a"
              (feed [Linux.first_part; Linux.field_part; Linux.second_part]
                 EOF))
    as (_ & Hstored & _).
  - reflexivity.
  - reflexivity.
  - discriminate.
  - reflexivity.
  - vm_compute. reflexivity.
  - cbv zeta. split.
    + apply (Hstored [] Linux.first_part
               (feed [Linux.field_part; Linux.second_part] EOF)).
      * reflexivity.
      * reflexivity.
      * intros q Hq. change (In q [Linux.second_part]) in Hq.
        destruct Hq as [<-|[]]. vm_compute. discriminate.
    + apply (Hstored [Linux.first_part; Linux.field_part] Linux.second_part
               EOF).
      * reflexivity.
      * reflexivity.
      * intros q [].
Defined.

(** The upload of [x.txt] and [y.txt] leaves [readme.md] as it was. *)
Lemma upload_keeps_nodes_witness :
  w_fs (snd (handleUpload Linux.host new_writer Cases.upload_two
               Linux.world0)) !! "/data/a/readme.md"
  = Some (File (Linux.text "# Title")).
Proof.
  destruct (upload_keeps_nodes Linux.host new_writer Cases.upload_two
              Linux.world0 "/data/a/readme.md" (File (Linux.text "# Title")))
    as (_ & _ & Hsame).
  - vm_compute. reflexivity.
  - apply Hsame. intros reader q Hr Hq. injection Hr as <-.
    change (In q [Linux.first_part; Linux.second_part]) in Hq.
    destruct Hq as [<-|[<-|[]]]; vm_compute; discriminate.
Defined.

(** What was uploaded as [x.txt] is viewed as the text it is. *)
Lemma upload_then_view_witness :
  reply_field "content"
    (fst (handleFileView Linux.host new_writer (Linux.get "/data/a/x.txt")
            (snd (handleUpload Linux.host new_writer Cases.upload_two
                    Linux.world0))))
  = Some "first".
Proof.
  destruct (upload_then_view Linux.host new_writer Cases.upload_two
              Linux.world0 "/data/a"
              (feed [Linux.first_part; Linux.field_part; Linux.second_part]
                 EOF)
              [] Linux.first_part
              (feed [Linux.field_part; Linux.second_part] EOF)
              new_writer (Linux.get "/data/a/x.txt"))
    as (_ & Hcontent).
  - reflexivity.
  - reflexivity.
  - discriminate.
  - reflexivity.
  - vm_compute. reflexivity.
  - reflexivity.
  - reflexivity.
  - intros q Hq. change (In q [Linux.second_part]) in Hq.
    destruct Hq as [<-|[]]. vm_compute. discriminate.
  - reflexivity.
  - cbv zeta in Hcontent. rewrite Hcontent.
    + reflexivity.
    + vm_compute. discriminate.
    + left. vm_compute. reflexivity.
Defined.


(** The listing of [/data] has the two folders. *)
Lemma tree_children_witness :
  exists v,
    handleTree Linux.host Linux.srv new_writer (Linux.get "/data")
      Linux.world0
    = (json_Encode new_writer v, Linux.world0)
    /\ Forall2 (child_entry_of "/data")
         [mkEntry "a" true; mkEntry "b" true] (entries_of v)
    /\ length (entries_of v) = 2%nat.
Proof.
  destruct (tree_children Linux.host Linux.srv new_writer (Linux.get "/data")
              Linux.world0 "/data") as [_ Hlist].
  - reflexivity.
  - discriminate.
  - discriminate.
  - discriminate.
  - apply (Hlist [mkEntry "a" true; mkEntry "b" true]).
    vm_compute. reflexivity.
Defined.

(** The flag [ /data/a , ,/data/b] starts the server on two folders. *)
Lemma startup_then_roots_witness :
  exists v,
    handleTree Linux.host (mkServer ["/data/a"; "/data/b"]) new_writer
      (mkRequest "GET" [] None)
      (snd (startup.setup Cases.ascii_only Linux.host " /data/a , ,/data/b"
              Linux.world0))
    = (json_Encode new_writer v,
       snd (startup.setup Cases.ascii_only Linux.host " /data/a , ,/data/b"
              Linux.world0))
    /\ Forall2 (root_entry_of Linux.host) ["/data/a"; "/data/b"]
         (entries_of v)
    /\ (startup.kept Cases.ascii_only " /data/a , ,/data/b" = [] ->
        v = JNull).
Proof.
  apply (startup_then_roots Linux.host Cases.ascii_only
           " /data/a , ,/data/b" Linux.world0
           (mkServer ["/data/a"; "/data/b"]) new_writer
           (mkRequest "GET" [] None)).
  - vm_compute. reflexivity.
  - reflexivity.
Defined.

(** Both variants return [main.go] with the same content and language. *)
Lemma legacy_view_agrees_witness :
  let old := fst (legacy.fileView Linux.host new_writer
                    (Linux.get "/data/a/main.go") Linux.world0) in
  let new := fst (handleFileView Linux.host new_writer
                    (Linux.get "/data/a/main.go") Linux.world0) in
  reply_field "content" old = reply_field "content" new
  /\ reply_field "language" old = reply_field "language" new.
Proof.
  destruct (legacy_view_agrees Linux.host new_writer
              (Linux.get "/data/a/main.go") Linux.world0 "/data/a/main.go"
              (Linux.text "package main"))
    as (_ & _ & Htext & _).
  - reflexivity.
  - discriminate.
  - vm_compute. reflexivity.
  - destruct Htext as [Hcontent Hlang].
    + vm_compute. reflexivity.
    + vm_compute. discriminate.
    + split; [exact Hcontent|]. apply Hlang. vm_compute. reflexivity.
Defined.

(** The start of the server on the Linux host: blank pieces are dropped, a
    folder that does not exist stops it and is the last one looked up, a
    name below a regular file does not stop it, and the dots of a path are
    walked, not cleaned away. *)
Example scenario_startup :
  startup.kept Cases.ascii_only " /data/a , ,/data/b" = ["/data/a"; "/data/b"]
  /\ startup.setup Cases.ascii_only Linux.host " /data/a , ,/nope,/data/b"
       Linux.world0
     = (inl "Folder does not exist: /nope",
        mkWorld Linux.fs0 [EvStat "/data/a"; EvStat "/nope"])
  /\ fst (startup.setup Cases.ascii_only Linux.host "/data/a/notes.txt/x"
            Linux.world0)
     = inr (mkServer ["/data/a/notes.txt/x"])
  /\ fst (startup.setup Cases.ascii_only Linux.host "/data/a/notes.txt/../b"
            Linux.world0)
     = inr (mkServer ["/data/a/notes.txt/../b"])
  /\ fst (startup.setup Cases.ascii_only Linux.host "/nope/.." Linux.world0)
     = inl "Folder does not exist: /nope/.."
  /\ fst (startup.setup Cases.ascii_only Linux.host "/data/a/.." Linux.world0)
     = inr (mkServer ["/data/a/.."])
  /\ fst (startup.setup Cases.ascii_only Linux.host " , " Linux.world0)
     = inr (mkServer []).
Proof. repeat split; vm_compute; reflexivity. Qed.
